(** * AssppWeb: the Apple sign-in engine

    A shallow embedding of
      - [frontend/src/apple/idmsa.ts]        (identity-provider client: SRP login,
                                              password derivation, phone list,
                                              SMS codes, trust token),
      - [frontend/src/apple/authenticate.ts] (account-service sign-in loop),
      - [frontend/src/hooks/useSmsVerification.ts] (the SMS hook), and
      - the submit and re-authentication handlers of the two account pages,
    together with the platform functions they call ([btoa]/[atob],
    [TextEncoder], [crypto.subtle]) written from their standards.

    Conventions.
      - A JavaScript string is a [string]: a sequence of code units below 256
        (the Latin-1 range). Binary strings, as [btoa] and [atob] use them, are
        exactly such strings. The password that [derivePassword] hashes is a
        [DOMString]: any sequence of UTF-16 code units.
      - A [Uint8Array] is a [list byte].
      - [await] is sequencing: every operation is single-flight.
      - An exception is a [Throw] result; [try]/[catch] is a match on it. *)

From Stdlib Require Import ZArith NArith List String Ascii Lia ZifyNat DecimalString.
From Stdlib.Strings Require Import Byte.
From stdpp Require Import gmap strings list.

Set Warnings "-register-all".

Local Open Scope string_scope.

(* ===================================================================== *)
(** ** JavaScript values, exceptions and results                          *)
(* ===================================================================== *)

Module JS.

(** The values a parsed document ([JSON.parse], [parsePlist]) can hold.
    Numbers are the integers; an object keeps its properties as an
    association list read from the left. *)
Inductive Value :=
| VUndefined
| VNull
| VBool (b : bool)
| VNum (n : Z)
| VStr (s : string)
| VArr (items : list Value)
| VObj (props : list (string * Value)).

(** What a [throw] carries. [OtherError] stands for the instances of [Error]
    the platform or a collaborator raises ([TypeError], [SyntaxError],
    [DOMException]); [NonError] for a thrown value that is no [Error]. *)
Inductive Exn :=
| Error (message : string)
| OtherError (name message : string)
| AuthenticationError (message : string) (codeRequired : bool)
| NonError (v : Value).

Inductive Result (A : Type) :=
| Ok (a : A)
| Throw (e : Exn).
Arguments Ok {A} a.
Arguments Throw {A} e.

Definition bind {A B} (r : Result A) (k : A -> Result B) : Result B :=
  match r with
  | Ok a => k a
  | Throw e => Throw e
  end.

Definition isOk {A} (r : Result A) : bool :=
  match r with Ok _ => true | Throw _ => false end.

Definition TypeError (message : string) : Exn := OtherError "TypeError" message.

(** [e instanceof AuthenticationError] *)
Definition instanceofAuthenticationError (e : Exn) : bool :=
  match e with AuthenticationError _ _ => true | _ => false end.

(** [!!v] *)
Definition truthy (v : Value) : bool :=
  match v with
  | VUndefined | VNull => false
  | VBool b => b
  | VNum n => negb (n =? 0)%Z
  | VStr s => negb (s =? "")%string
  | VArr _ | VObj _ => true
  end.

(** [a ?? b] *)
Definition nullish (v : Value) : bool :=
  match v with VUndefined | VNull => true | _ => false end.
Definition coalesce (a b : Value) : Value := if nullish a then b else a.

Fixpoint lookup_prop (k : string) (props : list (string * Value)) : Value :=
  match props with
  | [] => VUndefined
  | (k', v) :: rest => if (k =? k')%string then v else lookup_prop k rest
  end.

(** [v?.k]. The keys the program reads name no property of a string, a
    number, a boolean or an array, so those give [undefined]. *)
Definition get_opt (v : Value) (k : string) : Value :=
  match v with
  | VObj props => lookup_prop k props
  | _ => VUndefined
  end.

(** [v.k]: a [TypeError] on [undefined] and [null]. *)
Definition get (v : Value) (k : string) : Result Value :=
  if nullish v then Throw (TypeError ("Cannot read properties of a nullish value (reading '" ++ k ++ "')"))
  else Ok (get_opt v k).

(** [v === "s"] and [v === true] *)
Definition is_string (v : Value) (s : string) : bool :=
  match v with VStr t => (t =? s)%string | _ => false end.
Definition is_true (v : Value) : bool :=
  match v with VBool true => true | _ => false end.

(** The decimal form of an integer, as a template literal prints it. This
    is what JavaScript prints for the safe integers, those of absolute
    value below 2^53; beyond them it prints the shortest digits that read
    back as the same double, and from 10^21 on the exponent form, both of
    which are left out. *)
Definition decimal (n : Z) : string := DecimalString.NilZero.string_of_int (Z.to_int n).

(** [String(v)]. An array joins its elements with commas, [null] and
    [undefined] elements being empty. *)
Fixpoint String_ (v : Value) : string :=
  match v with
  | VUndefined => "undefined"
  | VNull => "null"
  | VBool true => "true"
  | VBool false => "false"
  | VNum n => decimal n
  | VStr s => s
  | VArr items =>
      (fix join (l : list Value) : string :=
         match l with
         | [] => ""
         | x :: l' =>
             let sx := if nullish x then "" else String_ x in
             match l' with
             | [] => sx
             | _ :: _ => sx ++ "," ++ join l'
             end
         end) items
  | VObj _ => "[object Object]"
  end.

(** The values that [String_] prints as JavaScript does: those whose
    numbers, also inside arrays, are safe integers. *)
Definition safe_integer (n : Z) : bool := (Z.abs n <=? 9007199254740991)%Z.

Fixpoint prints_exactly (v : Value) : bool :=
  match v with
  | VNum n => safe_integer n
  | VArr items => forallb prints_exactly items
  | _ => true
  end.

(** [new Error(message)]: any message but [undefined] is made a string. *)
Definition new_Error (message : Value) : Exn :=
  match message with
  | VUndefined => Error ""
  | _ => Error (String_ message)
  end.

(** White space in the sense of [String.prototype.trim], among the code
    units below 256: TAB, LF, VT, FF, CR, SPACE and NBSP. *)
Definition is_white_space (c : ascii) : bool :=
  let n := N_of_ascii c in
  ((9 <=? n) && (n <=? 13) || (n =? 32) || (n =? 160))%N.

Fixpoint trim_start (l : list ascii) : list ascii :=
  match l with
  | c :: l' => if is_white_space c then trim_start l' else l
  | [] => []
  end.

Definition trim (s : string) : string :=
  string_of_list_ascii
    (rev (trim_start (rev (trim_start (list_ascii_of_string s))))).

End JS.
Export JS.

Declare Scope js_scope.
Delimit Scope js_scope with js.
Notation "'let*' x ':=' r 'in' k" := (JS.bind r (fun x => k))
  (at level 10, x pattern, r at level 100, k at level 200) : js_scope.
Local Open Scope js_scope.

Definition Uint8Array := list byte.

(** A JavaScript string in full: its UTF-16 code units, each from 0 to
    65535. [units] gives the code units of a [string]. *)
Definition DOMString := list Z.

Definition units (s : string) : DOMString :=
  map (fun c => Z.of_N (N_of_ascii c)) (list_ascii_of_string s).

(* ===================================================================== *)
(** ** [btoa] and [atob]                                                  *)
(* ===================================================================== *)

(** The two window functions of the HTML standard: forgiving-base64 encode
    and decode (RFC 4648 section 4 alphabet, with padding). *)
Module Base64.

Local Open Scope N_scope.

Definition alphabet : string :=
  "ABCDEFGHIJKLMNOPQRSTUVWXYZabcdefghijklmnopqrstuvwxyz0123456789+/".

Definition pad_char : ascii := "="%char.

Definition encode_sextet (n : N) : ascii :=
  match String.get (N.to_nat n) alphabet with
  | Some c => c
  | None => pad_char
  end.

Fixpoint index_of (c : ascii) (s : string) : option N :=
  match s with
  | EmptyString => None
  | String d s' =>
      if Ascii.eqb c d then Some 0 else option_map N.succ (index_of c s')
  end.

Definition decode_sextet (c : ascii) : option N := index_of c alphabet.

(** Three octets make four sextets; a final group of one or two octets is
    padded with zero bits and completed with [=]. *)
Fixpoint encode_octets (l : list N) : list ascii :=
  match l with
  | [] => []
  | [a] =>
      let n := a * 16 in
      [encode_sextet (n / 64); encode_sextet (n mod 64); pad_char; pad_char]
  | [a; b] =>
      let n := (a * 256 + b) * 4 in
      [encode_sextet (n / 4096); encode_sextet ((n / 64) mod 64);
       encode_sextet (n mod 64); pad_char]
  | a :: b :: c :: rest =>
      let n := a * 65536 + b * 256 + c in
      encode_sextet (n / 262144) :: encode_sextet ((n / 4096) mod 64)
        :: encode_sextet ((n / 64) mod 64) :: encode_sextet (n mod 64)
        :: encode_octets rest
  end.

(** [btoa(data)]. It throws on a code unit above 0xFF; a [string] has none. *)
Definition btoa (data : string) : Result string :=
  Ok (string_of_list_ascii
        (encode_octets (map N_of_ascii (list_ascii_of_string data)))).

(** TAB, LF, FF, CR and SPACE. *)
Definition is_ascii_whitespace (c : ascii) : bool :=
  let n := N_of_ascii c in
  (n =? 9) || (n =? 10) || (n =? 12) || (n =? 13) || (n =? 32).

(** When the length is a multiple of four, one or two final [=] go. *)
Definition strip_padding (l : list ascii) : list ascii :=
  if (length l mod 4 =? 0)%nat then
    match rev l with
    | p :: q :: r =>
        if Ascii.eqb p pad_char then
          if Ascii.eqb q pad_char then rev r else rev (q :: r)
        else l
    | [p] => if Ascii.eqb p pad_char then [] else l
    | [] => l
    end
  else l.

Fixpoint sextets (l : list ascii) : option (list N) :=
  match l with
  | [] => Some []
  | c :: l' =>
      match decode_sextet c, sextets l' with
      | Some n, Some ns => Some (n :: ns)
      | _, _ => None
      end
  end.

(** Every 24 bits give three octets; 12 leftover bits give one octet (the
    last four are dropped) and 18 give two (the last two are dropped). *)
Fixpoint decode_sextets (l : list N) : list N :=
  match l with
  | s1 :: s2 :: s3 :: s4 :: rest =>
      let n := s1 * 262144 + s2 * 4096 + s3 * 64 + s4 in
      (n / 65536) :: ((n / 256) mod 256) :: (n mod 256) :: decode_sextets rest
  | [s1; s2; s3] =>
      let n := (s1 * 4096 + s2 * 64 + s3) / 4 in
      [n / 256; n mod 256]
  | [s1; s2] => [(s1 * 64 + s2) / 16]
  | _ => []
  end.

Definition InvalidCharacterError : Exn :=
  OtherError "InvalidCharacterError" "The string to be decoded is not correctly encoded.".

(** [atob(data)]. *)
Definition atob (data : string) : Result string :=
  let stripped :=
    List.filter (fun c => negb (is_ascii_whitespace c)) (list_ascii_of_string data) in
  let body := strip_padding stripped in
  if (length body mod 4 =? 1)%nat then Throw InvalidCharacterError
  else
    match sextets body with
    | None => Throw InvalidCharacterError
    | Some ns => Ok (string_of_list_ascii (map ascii_of_N (decode_sextets ns)))
    end.

End Base64.

(* ===================================================================== *)
(** ** [TextEncoder] and [crypto.subtle]                                  *)
(* ===================================================================== *)

Definition byte_of_Z (z : Z) : byte :=
  match Byte.of_N (Z.to_N (z mod 256)) with
  | Some b => b
  | None => x00
  end.

Definition Z_of_byte (b : byte) : Z := Z.of_N (Byte.to_N b).

(** [new TextEncoder().encode(s)]: UTF-8. A code unit below 0x80 is one
    byte, one from 0x80 to 0xFF is two. [encode] is the encoder on the
    strings of code units below 256, [encode_units] the encoder on every
    string. *)
Module TextEncoder.
Local Open Scope Z_scope.

Definition is_lead_surrogate (u : Z) : bool := (0xD800 <=? u) && (u <=? 0xDBFF).
Definition is_trail_surrogate (u : Z) : bool := (0xDC00 <=? u) && (u <=? 0xDFFF).

(** The scalar values of a string, as the conversion to a [USVString]
    gives them: a lead surrogate followed by a trail surrogate is one
    code point from 0x10000 on, any other surrogate is U+FFFD. *)
Fixpoint scalar_values (s : DOMString) : list Z :=
  match s with
  | [] => []
  | u :: rest =>
      if is_lead_surrogate u then
        match rest with
        | v :: rest' =>
            if is_trail_surrogate v
            then (0x10000 + (u - 0xD800) * 0x400 + (v - 0xDC00)) :: scalar_values rest'
            else 0xFFFD :: scalar_values rest
        | [] => [0xFFFD]
        end
      else if is_trail_surrogate u then 0xFFFD :: scalar_values rest
      else u :: scalar_values rest
  end.

(** The UTF-8 bytes of a scalar value: one to four. *)
Definition utf8 (cp : Z) : list byte :=
  if cp <? 0x80 then [byte_of_Z cp]
  else if cp <? 0x800 then
    [byte_of_Z (Z.lor 192 (Z.shiftr cp 6)); byte_of_Z (Z.lor 128 (Z.land cp 63))]
  else if cp <? 0x10000 then
    [byte_of_Z (Z.lor 224 (Z.shiftr cp 12));
     byte_of_Z (Z.lor 128 (Z.land (Z.shiftr cp 6) 63));
     byte_of_Z (Z.lor 128 (Z.land cp 63))]
  else
    [byte_of_Z (Z.lor 240 (Z.shiftr cp 18));
     byte_of_Z (Z.lor 128 (Z.land (Z.shiftr cp 12) 63));
     byte_of_Z (Z.lor 128 (Z.land (Z.shiftr cp 6) 63));
     byte_of_Z (Z.lor 128 (Z.land cp 63))].

Definition encode_units (s : DOMString) : Uint8Array :=
  flat_map utf8 (scalar_values s).

Definition encode_unit (c : ascii) : list byte :=
  let u := Z.of_N (N_of_ascii c) in
  if u <? 128 then [byte_of_Z u]
  else [byte_of_Z (Z.lor 192 (Z.shiftr u 6)); byte_of_Z (Z.lor 128 (Z.land u 63))].

Definition encode (s : string) : Uint8Array :=
  flat_map encode_unit (list_ascii_of_string s).
End TextEncoder.

(** SHA-256 as FIPS 180-4 defines it, on 32-bit words held in [Z]. *)
Module SHA256.
Local Open Scope Z_scope.

Definition modulus : Z := 4294967296.
Definition add32 (x y : Z) : Z := (x + y) mod modulus.
Definition not32 (x : Z) : Z := Z.lxor x 4294967295.
Definition rotr (n x : Z) : Z :=
  Z.lor (Z.shiftr x n) ((Z.shiftl x (32 - n)) mod modulus).
Definition shr (n x : Z) : Z := Z.shiftr x n.

Definition Ch (x y z : Z) : Z := Z.lxor (Z.land x y) (Z.land (not32 x) z).
Definition Maj (x y z : Z) : Z :=
  Z.lxor (Z.lxor (Z.land x y) (Z.land x z)) (Z.land y z).
Definition Sigma0 (x : Z) : Z := Z.lxor (Z.lxor (rotr 2 x) (rotr 13 x)) (rotr 22 x).
Definition Sigma1 (x : Z) : Z := Z.lxor (Z.lxor (rotr 6 x) (rotr 11 x)) (rotr 25 x).
Definition sigma0 (x : Z) : Z := Z.lxor (Z.lxor (rotr 7 x) (rotr 18 x)) (shr 3 x).
Definition sigma1 (x : Z) : Z := Z.lxor (Z.lxor (rotr 17 x) (rotr 19 x)) (shr 10 x).

Definition round_constants : list Z :=
  [0x428A2F98; 0x71374491; 0xB5C0FBCF; 0xE9B5DBA5;
   0x3956C25B; 0x59F111F1; 0x923F82A4; 0xAB1C5ED5;
   0xD807AA98; 0x12835B01; 0x243185BE; 0x550C7DC3;
   0x72BE5D74; 0x80DEB1FE; 0x9BDC06A7; 0xC19BF174;
   0xE49B69C1; 0xEFBE4786; 0x0FC19DC6; 0x240CA1CC;
   0x2DE92C6F; 0x4A7484AA; 0x5CB0A9DC; 0x76F988DA;
   0x983E5152; 0xA831C66D; 0xB00327C8; 0xBF597FC7;
   0xC6E00BF3; 0xD5A79147; 0x06CA6351; 0x14292967;
   0x27B70A85; 0x2E1B2138; 0x4D2C6DFC; 0x53380D13;
   0x650A7354; 0x766A0ABB; 0x81C2C92E; 0x92722C85;
   0xA2BFE8A1; 0xA81A664B; 0xC24B8B70; 0xC76C51A3;
   0xD192E819; 0xD6990624; 0xF40E3585; 0x106AA070;
   0x19A4C116; 0x1E376C08; 0x2748774C; 0x34B0BCB5;
   0x391C0CB3; 0x4ED8AA4A; 0x5B9CCA4F; 0x682E6FF3;
   0x748F82EE; 0x78A5636F; 0x84C87814; 0x8CC70208;
   0x90BEFFFA; 0xA4506CEB; 0xBEF9A3F7; 0xC67178F2].

(** The eight working words. *)
Record State := mkState { wa : Z; wb : Z; wc : Z; wd : Z; we : Z; wf : Z; wg : Z; wh : Z }.

Definition initial : State :=
  mkState 0x6A09E667 0xBB67AE85 0x3C6EF372 0xA54FF53A
          0x510E527F 0x9B05688C 0x1F83D9AB 0x5BE0CD19.

(** Padding: a 1 bit, zero bits up to 448 modulo 512, the bit length on 64 bits. *)
Definition be_bytes (width : nat) (x : Z) : list byte :=
  map (fun i => byte_of_Z (Z.shiftr x (8 * Z.of_nat i))) (rev (seq 0 width)).

Definition pad (msg : list byte) : list byte :=
  let len := length msg in
  let zeros := ((119 - len mod 64) mod 64)%nat in
  msg ++ [x80] ++ repeat x00 zeros ++ be_bytes 8 (8 * Z.of_nat len).

(** The big-endian 32-bit words of a run of bytes. *)
Fixpoint words (l : list byte) : list Z :=
  match l with
  | b3 :: b2 :: b1 :: b0 :: rest =>
      (Z_of_byte b3 * 16777216 + Z_of_byte b2 * 65536 + Z_of_byte b1 * 256 + Z_of_byte b0)
        :: words rest
  | _ => []
  end.

(** The message schedule, most recent word first: [W_t] from
    [W_(t-2)], [W_(t-7)], [W_(t-15)] and [W_(t-16)]. *)
Fixpoint extend (n : nat) (w : list Z) : list Z :=
  match n with
  | O => w
  | S n' =>
      let next :=
        add32 (add32 (add32 (sigma1 (nth 1 w 0)) (nth 6 w 0)) (sigma0 (nth 14 w 0)))
              (nth 15 w 0) in
      extend n' (next :: w)
  end.

Definition schedule (block : list byte) : list Z :=
  rev (extend 48 (rev (words block))).

Definition round (s : State) (kw : Z * Z) : State :=
  let '(k, w) := kw in
  let t1 := add32 (add32 (add32 (add32 (wh s) (Sigma1 (we s))) (Ch (we s) (wf s) (wg s))) k) w in
  let t2 := add32 (Sigma0 (wa s)) (Maj (wa s) (wb s) (wc s)) in
  mkState (add32 t1 t2) (wa s) (wb s) (wc s) (add32 (wd s) t1) (we s) (wf s) (wg s).

Definition compress (h : State) (block : list byte) : State :=
  let s := fold_left round (combine round_constants (schedule block)) h in
  mkState (add32 (wa h) (wa s)) (add32 (wb h) (wb s)) (add32 (wc h) (wc s))
          (add32 (wd h) (wd s)) (add32 (we h) (we s)) (add32 (wf h) (wf s))
          (add32 (wg h) (wg s)) (add32 (wh h) (wh s)).

(** The 64-byte blocks of a padded message; [n] bounds their number. *)
Fixpoint blocks (n : nat) (l : list byte) : list (list byte) :=
  match n, l with
  | S n', _ :: _ => firstn 64 l :: blocks n' (skipn 64 l)
  | _, _ => []
  end.

Definition output (s : State) : list byte :=
  be_bytes 4 (wa s) ++ be_bytes 4 (wb s) ++ be_bytes 4 (wc s) ++ be_bytes 4 (wd s)
    ++ be_bytes 4 (we s) ++ be_bytes 4 (wf s) ++ be_bytes 4 (wg s) ++ be_bytes 4 (wh s).

Definition sha256 (msg : list byte) : list byte :=
  let padded := pad msg in
  output (fold_left compress (blocks (length padded) padded) initial).
End SHA256.

(** HMAC (RFC 2104) with SHA-256: block size 64, output size 32. *)
Module HMAC.
Definition xor_byte (a b : byte) : byte :=
  byte_of_Z (Z.lxor (Z_of_byte a) (Z_of_byte b)).

Definition block_key (key : list byte) : list byte :=
  let k := if (64 <? length key)%nat then SHA256.sha256 key else key in
  k ++ repeat x00 (64 - length k).

Definition hmac_sha256 (key text : list byte) : list byte :=
  let k := block_key key in
  let inner := SHA256.sha256 (map (xor_byte x36) k ++ text) in
  SHA256.sha256 (map (xor_byte x5c) k ++ inner).
End HMAC.

(** PBKDF2 (RFC 8018, section 5.2) over a pseudorandom function of output
    size [hLen]. *)
Module PBKDF2.
Section WithPRF.
Variable PRF : list byte -> list byte -> list byte.
Variable hLen : nat.

Definition xor_bytes (x y : list byte) : list byte :=
  map (fun ab => HMAC.xor_byte (fst ab) (snd ab)) (combine x y).

(** [U_2 .. U_c] folded into the running exclusive-or. *)
Fixpoint iterate (n : nat) (P u acc : list byte) : list byte :=
  match n with
  | O => acc
  | S n' => let u' := PRF P u in iterate n' P u' (xor_bytes acc u')
  end.

(** [F (P, S, c, i)], for [c >= 1]. *)
Definition F (P S : list byte) (c : nat) (i : nat) : list byte :=
  let u1 := PRF P (S ++ SHA256.be_bytes 4 (Z.of_nat i)) in
  iterate (c - 1) P u1 u1.

Definition pbkdf2 (P S : list byte) (c : nat) (dkLen : nat) : list byte :=
  let l := ((dkLen + hLen - 1) / hLen)%nat in
  firstn dkLen (flat_map (fun i => F P S c i) (seq 1 l)).
End WithPRF.
End PBKDF2.

(** The three calls of [crypto.subtle] the client makes. *)
Module Subtle.
Local Open Scope Z_scope.

(** [digest("SHA-256", data)]. *)
Definition digest_SHA256 (data : Uint8Array) : Uint8Array := SHA256.sha256 data.

(** A key imported with [importKey("raw", bytes, {name: "PBKDF2"}, false,
    ["deriveBits"])]. *)
Record CryptoKey := { raw : Uint8Array }.

Definition importKey_PBKDF2 (keyData : Uint8Array) : Result CryptoKey :=
  Ok {| raw := keyData |}.

Definition OperationError : Exn := OtherError "OperationError" "The operation failed.".

(** [deriveBits({name: "PBKDF2", hash: "SHA-256", salt, iterations}, key, length)].
    [iterations] is an unsigned long: a value out of its range is a
    [TypeError]; zero iterations, or a length that is zero or no multiple of
    eight, is an [OperationError]. *)
Definition deriveBits_PBKDF2_SHA256
    (salt : Uint8Array) (iterations : Z) (key : CryptoKey) (length : Z)
  : Result Uint8Array :=
  if (iterations <? 0) || (4294967295 <? iterations) then
    Throw (OtherError "TypeError" "Value is outside the 'unsigned long' value range.")
  else if (length <=? 0) || negb (length mod 8 =? 0) then Throw OperationError
  else if iterations =? 0 then Throw OperationError
  else
    Ok (PBKDF2.pbkdf2 HMAC.hmac_sha256 32 (raw key) salt
          (Z.to_nat iterations) (Z.to_nat (length / 8))).
End Subtle.

(* ===================================================================== *)
(** ** The collaborators                                                  *)
(* ===================================================================== *)

(** Modelled from the spec: the [Cookie] type of [../types], whose
    declaration is not among the sources. The spec's CookieSet maps a
    (name, domain) pair to a value. *)
Record Cookie := { name : string; value : string; domain : string }.

(** An array of cookies is an object on the heap; a variable of type
    [Cookie[]] holds a reference to it. *)
Abbreviation ArrayRef := nat.

(** What [appleRequest] is given, and what it resolves to. [cookies] is the
    content of the array passed, as the transport reads it. *)
Module Request.
Record t := {
  method : string;
  host : string;
  path : string;
  headers : gmap string string;
  body : option string;
  cookies : option (list Cookie);
}.
End Request.

Module Response.
Record t := {
  status : Z;
  statusText : string;
  headers : gmap string string;
  rawHeaders : list (string * string);
  body : string;
}.
End Response.

(** The state the program runs in: the log of the exchanges made through
    [appleRequest] (oldest first), the number of UUIDs drawn, and the arrays
    of cookies alive. *)
Record World := {
  calls : list (Request.t * Result Response.t);
  uuids : nat;
  heap : list (list Cookie);
}.

(** A [URL] object, by the three parts the program reads. *)
Record URL := { hostname : string; pathname : string; search : string }.

(** The document [fetchBag] resolves to. *)
Record Bag := { authURL : string }.

(** What [extractAndMergeCookies(rawHeaders, cookies)] does to the array it
    is given and what it returns: the same array, updated in place; or a new
    array, the given one left with [given]. A merge puts cookies in and
    takes cookies out of an array; it does not assign to the fields of a
    cookie. *)
Inductive MergeOutcome :=
| InPlace (contents : list Cookie)
| NewArray (given contents : list Cookie).

(** [JSON.parse(initResp.body) as { iteration; salt; protocol; b; c }]:
    the response of /signin/init with the type the program asserts for it. *)
Inductive SRPProtocol := s2k | s2k_fo.

Record InitData := {
  iteration : Z;
  salt : string;
  protocol : SRPProtocol;
  b : string;
  c : string;
}.

(** The SRP client of the package @foxt/js-srp, by the operations
    [idmsaSignin] calls on it. [Client] is the package's object; [set_p]
    is the assignment [client.p = key]. *)
Record SrpPackage := {
  Client : Type;
  newClient : Uint8Array -> Uint8Array -> Result Client;
  client_A : Client -> Z;
  bytesFromBigint : Z -> Uint8Array;
  set_p : Client -> Uint8Array -> Client;
  generate : Client -> Uint8Array -> Uint8Array -> Result Client;
  client_M : Client -> Uint8Array;
  generateM2 : Client -> Result Uint8Array;
}.

(** Everything the two modules import or find on the platform and that is
    not written out above. The transport answers a request knowing the
    requests made before it. [fetchBag] does its own traffic, which the log
    of [appleRequest] exchanges does not show. *)
Record Env := {
  transport : list Request.t -> Request.t -> Result Response.t;
  randomUUID : nat -> string;
  JSON_stringify : Value -> string;
  JSON_parse : string -> Result Value;
  JSON_parse_init : string -> Result InitData;
  srp : SrpPackage;
  defaultAuthURL : string;
  fetchBag : string -> Result Bag;
  new_URL : string -> Result URL;
  searchParams_set : URL -> string -> string -> URL;
  URLSearchParams_toString : list (string * string) -> string;
  extractAndMergeCookies : list (string * string) -> list Cookie -> MergeOutcome;
  parsePlist : string -> Result Value;
  i18n_t : string -> list (string * Value) -> string;
}.

(** *** Computations in a world *)

Definition M (A : Type) : Type := World -> Result A * World.

Definition ret {A} (a : A) : M A := fun w => (Ok a, w).
Definition throw {A} (e : Exn) : M A := fun w => (Throw e, w).
Definition lift {A} (r : Result A) : M A := fun w => (r, w).

Definition mbind {A B} (m : M A) (k : A -> M B) : M B :=
  fun w =>
    match m w with
    | (Ok a, w') => k a w'
    | (Throw e, w') => (Throw e, w')
    end.

Notation "x <- m ;; k" := (mbind m (fun x => k))
  (at level 100, m at next level, right associativity) : js_scope.

(** [await appleRequest(request)]: the exchange is logged. *)
Definition appleRequest (env : Env) (request : Request.t) : M Response.t :=
  fun w =>
    let answer := transport env (map fst (calls w)) request in
    (answer, {| calls := calls w ++ [(request, answer)]; uuids := uuids w; heap := heap w |}).

(** [crypto.randomUUID()]. *)
Definition crypto_randomUUID (env : Env) : M string :=
  fun w =>
    (Ok (randomUUID env (uuids w)),
     {| calls := calls w; uuids := S (uuids w); heap := heap w |}).

(* ===================================================================== *)
(** ** idmsa.ts                                                           *)
(* ===================================================================== *)

Module Idmsa.

Definition WIDGET_KEY : string :=
  "d39ba9916b7251055b22c7f910e2ea796ee65e98b2ddecea8f5dde8d9d1a815d".

Definition IDMSA_HOST : string := "idmsa.apple.com".

Definition IDMSA_UA : string :=
  "Mozilla/5.0 (Macintosh; Intel Mac OS X 10_15_7) AppleWebKit/605.1.15 (KHTML, like Gecko) Version/17.6 Safari/605.1.15".

(** The fields are what the response holds: the casts of the source check
    nothing. *)
Record TrustedPhoneNumber := {
  id : Value;
  numberWithDialCode : Value;
  pushMode : Value;
}.

Record IdmsaSession := { sessionId : string; scnt : string }.

Record PhoneNumbersResult := {
  trustedPhoneNumbers : list TrustedPhoneNumber;
  securityCodeCooldown : bool;
  tooManyCodesSent : bool;
  securityCodeLocked : bool;
}.

Definition idmsaHeaders (env : Env) (session : option IdmsaSession)
  : M (gmap string string) :=
  uuid <- crypto_randomUUID env ;;
  let headers : gmap string string :=
    list_to_map
      [("User-Agent", IDMSA_UA);
       ("Content-Type", "application/json");
       ("Accept", "application/json");
       ("X-Apple-Widget-Key", WIDGET_KEY);
       ("X-Apple-OAuth-Client-Id", WIDGET_KEY);
       ("X-Apple-OAuth-Client-Type", "firstPartyAuth");
       ("X-Apple-OAuth-Redirect-URI", "https://www.icloud.com");
       ("X-Apple-OAuth-Require-Grant-Code", "true");
       ("X-Apple-OAuth-Response-Mode", "web_message");
       ("X-Apple-OAuth-Response-Type", "code");
       ("X-Apple-OAuth-State", "auth-" ++ uuid);
       ("Origin", "https://www.icloud.com");
       ("Referer", "https://www.icloud.com/")] in
  match session with
  | Some session =>
      ret (<["scnt" := scnt session]>
             (<["X-Apple-ID-Session-Id" := sessionId session]> headers))
  | None => ret headers
  end.

Definition hex_digit (n : Z) : ascii :=
  match String.get (Z.to_nat n) "0123456789abcdef" with
  | Some d => d
  | None => "0"%char
  end.

(** Modelled from the spec: [util.toHex] of the package @foxt/js-srp, whose
    code is not among the sources; the spec has it yield the lowercase
    hexadecimal of the bytes, two digits each. *)
Definition toHex (bytes : Uint8Array) : string :=
  string_of_list_ascii
    (flat_map (fun x => [hex_digit (Z_of_byte x / 16); hex_digit (Z_of_byte x mod 16)])
              bytes).

(** [derivePassword].
    s2k:    PBKDF2(SHA256(password), salt, iterations, 32)
    s2k_fo: PBKDF2(hex(SHA256(password)).utf8bytes, salt, iterations, 32)
    [salt] stands for [salt.buffer]: the one caller passes an array that
    covers its buffer. *)
Definition derivePassword
    (protocol : SRPProtocol) (password : DOMString) (salt : Uint8Array) (iterations : Z)
  : Result Uint8Array :=
  let passBytes := TextEncoder.encode_units password in
  let passHashBuf := Subtle.digest_SHA256 passBytes in
  let passHash := passHashBuf in
  let passHash :=
    match protocol with
    | s2k_fo =>
        let hexStr := toHex passHash in
        TextEncoder.encode hexStr
    | s2k => passHash
    end in
  let* importedKey := Subtle.importKey_PBKDF2 passHash in
  let* derivedBits :=
    Subtle.deriveBits_PBKDF2_SHA256 salt iterations importedKey 256 in
  Ok derivedBits.

(** [String.fromCharCode(byte)] and [binary.charCodeAt(i)]. *)
Definition fromCharCode (x : byte) : string := String (ascii_of_byte x) "".
Definition charCodeAt (ch : ascii) : byte := byte_of_ascii ch.

(** [b64Encode]: the loop appends one character per byte, then [btoa]. *)
Definition b64Encode (buf : Uint8Array) : Result string :=
  let binary := fold_left (fun binary x => binary ++ fromCharCode x) buf "" in
  Base64.btoa binary.

(** [b64Decode]: [atob], then one byte per character of the result. *)
Definition b64Decode (str : string) : Result Uint8Array :=
  let* binary := Base64.atob str in
  Ok (map charCodeAt (list_ascii_of_string binary)).

Definition http_failure (what : string) (resp : Response.t) : Exn :=
  Error (what ++ " failed: HTTP " ++ decimal (Response.status resp)
              ++ " " ++ Response.statusText resp).

(** The end of [idmsaSignin], from the response of /signin/complete on:
    409 = 2FA required (expected), 200 = success (no 2FA needed). *)
Definition readSession (completeResp : Response.t) : Result IdmsaSession :=
  if negb (Response.status completeResp =? 409)%Z
     && negb (Response.status completeResp =? 200)%Z
  then Throw (http_failure "IDMSA signin/complete" completeResp)
  else
    let sessionId := Response.headers completeResp !! "x-apple-id-session-id" in
    let scnt := Response.headers completeResp !! "scnt" in
    match sessionId, scnt with
    | Some sessionId, Some scnt =>
        if (sessionId =? "")%string || (scnt =? "")%string
        then Throw (Error "IDMSA signin: missing session headers")
        else Ok {| sessionId := sessionId; scnt := scnt |}
    | _, _ => Throw (Error "IDMSA signin: missing session headers")
    end.

(** [idmsaSignin]: /signin/init with the client public ephemeral, the
    password derivation and the proofs, then /signin/complete. *)
Definition idmsaSignin (env : Env) (email password : string) : M IdmsaSession :=
  let pkg := srp env in
  (* the client starts with an empty password, replaced after init *)
  client <- lift (newClient pkg (TextEncoder.encode email) []) ;;
  let A := bytesFromBigint pkg (client_A pkg client) in
  (* Step 1 *)
  headers <- idmsaHeaders env None ;;
  a <- lift (b64Encode A) ;;
  initResp <- appleRequest env
    {| Request.host := IDMSA_HOST;
       Request.path := "/appleauth/auth/signin/init";
       Request.method := "POST";
       Request.headers := headers;
       Request.body := Some (JSON_stringify env
         (VObj [("a", VStr a);
                ("accountName", VStr email);
                ("protocols", VArr [VStr "s2k"; VStr "s2k_fo"])]));
       Request.cookies := None |} ;;
  if negb (Response.status initResp =? 200)%Z
  then throw (http_failure "IDMSA signin/init" initResp)
  else
    initData <- lift (JSON_parse_init env (Response.body initResp)) ;;
    (* Step 2 *)
    salt <- lift (b64Decode (salt initData)) ;;
    serverB <- lift (b64Decode (b initData)) ;;
    derivedKey <- lift (derivePassword (protocol initData) (units password) salt
                                       (iteration initData)) ;;
    let client := set_p pkg client derivedKey in
    client <- lift (generate pkg client salt serverB) ;;
    let m1 := client_M pkg client in
    m2 <- lift (generateM2 pkg client) ;;
    (* Step 3 *)
    headers <- idmsaHeaders env None ;;
    m1_64 <- lift (b64Encode m1) ;;
    m2_64 <- lift (b64Encode m2) ;;
    completeResp <- appleRequest env
      {| Request.host := IDMSA_HOST;
         Request.path := "/appleauth/auth/signin/complete?isRememberMeEnabled=true";
         Request.method := "POST";
         Request.headers := headers;
         Request.body := Some (JSON_stringify env
           (VObj [("accountName", VStr email);
                  ("c", VStr (c initData));
                  ("m1", VStr m1_64);
                  ("m2", VStr m2_64);
                  ("rememberMe", VBool false);
                  ("trustTokens", VArr [])]));
         Request.cookies := None |} ;;
    lift (readSession completeResp).

(** [(p) => ({ id: p.id, numberWithDialCode: ..., pushMode: ... })] *)
Definition toPhone (p : Value) : Result TrustedPhoneNumber :=
  let* id := get p "id" in
  let* numberWithDialCode := get p "numberWithDialCode" in
  let* pushMode := get p "pushMode" in
  Ok {| id := id; numberWithDialCode := numberWithDialCode; pushMode := pushMode |}.

Fixpoint mapR {A B} (f : A -> Result B) (l : list A) : Result (list B) :=
  match l with
  | [] => Ok []
  | x :: l' =>
      let* y := f x in
      let* ys := mapR f l' in
      Ok (y :: ys)
  end.

(** [v.map(f)]: only an array has [map]. *)
Definition array_map {B} (f : Value -> Result B) (v : Value) : Result (list B) :=
  match v with
  | VArr items => mapR f items
  | _ => Throw (TypeError "map is not a function")
  end.

Definition idmsaGetPhoneNumbers (env : Env) (session : IdmsaSession)
  : M PhoneNumbersResult :=
  headers <- idmsaHeaders env (Some session) ;;
  resp <- appleRequest env
    {| Request.host := IDMSA_HOST;
       Request.path := "/appleauth/auth";
       Request.method := "GET";
       Request.headers := headers;
       Request.body := None;
       Request.cookies := None |} ;;
  if negb (Response.status resp =? 200)%Z
  then throw (http_failure "IDMSA get auth info" resp)
  else
    data <- lift (JSON_parse env (Response.body resp)) ;;
    listed <- lift (get data "trustedPhoneNumbers") ;;
    trustedPhoneNumbers <- lift (array_map toPhone (coalesce listed (VArr []))) ;;
    let securityCode := get_opt data "securityCode" in
    ret {| trustedPhoneNumbers := trustedPhoneNumbers;
           securityCodeCooldown :=
             is_true (get_opt securityCode "tooManyCodesSent")
             || is_true (get_opt securityCode "securityCodeCooldown");
           tooManyCodesSent := is_true (get_opt securityCode "tooManyCodesSent");
           securityCodeLocked := is_true (get_opt securityCode "securityCodeLocked") |}.

(** [idmsaRequestSms]: 200 = success, 202 = accepted (code sent). *)
Definition idmsaRequestSms (env : Env) (session : IdmsaSession) (phoneId : Value)
  : M unit :=
  headers <- idmsaHeaders env (Some session) ;;
  resp <- appleRequest env
    {| Request.host := IDMSA_HOST;
       Request.path := "/appleauth/auth/verify/phone";
       Request.method := "PUT";
       Request.headers := headers;
       Request.body := Some (JSON_stringify env
         (VObj [("phoneNumber", VObj [("id", phoneId)]);
                ("mode", VStr "sms")]));
       Request.cookies := None |} ;;
  if negb (Response.status resp =? 200)%Z && negb (Response.status resp =? 202)%Z
  then throw (http_failure "IDMSA SMS request" resp)
  else ret tt.

(** [idmsaVerifySmsCode]: 200 = verified, 204 = no-content success. What it
    writes to the console is left out. *)
Definition idmsaVerifySmsCode (env : Env) (session : IdmsaSession) (phoneId : Value)
    (code : string) : M unit :=
  headers <- idmsaHeaders env (Some session) ;;
  resp <- appleRequest env
    {| Request.host := IDMSA_HOST;
       Request.path := "/appleauth/auth/verify/phone/securitycode";
       Request.method := "POST";
       Request.headers := headers;
       Request.body := Some (JSON_stringify env
         (VObj [("phoneNumber", VObj [("id", phoneId)]);
                ("securityCode", VObj [("code", VStr code)]);
                ("mode", VStr "sms")]));
       Request.cookies := None |} ;;
  if negb (Response.status resp =? 200)%Z && negb (Response.status resp =? 204)%Z
  then throw (http_failure "IDMSA SMS verify" resp)
  else ret tt.

(** [idmsaGetTrustToken]: the token is a header of the response, the empty
    string when it is absent. *)
Definition idmsaGetTrustToken (env : Env) (session : IdmsaSession) : M string :=
  headers <- idmsaHeaders env (Some session) ;;
  resp <- appleRequest env
    {| Request.host := IDMSA_HOST;
       Request.path := "/appleauth/auth/2sv/trust";
       Request.method := "GET";
       Request.headers := headers;
       Request.body := None;
       Request.cookies := None |} ;;
  if negb (Response.status resp =? 200)%Z && negb (Response.status resp =? 204)%Z
  then throw (http_failure "IDMSA trust token request" resp)
  else
    let trustToken := default "" (Response.headers resp !! "x-apple-twosv-trust-token") in
    ret trustToken.

(** *** Vocabulary for the calls *)

(** The request of a call made within a session. *)
Definition in_session (session : IdmsaSession) (method path : string) (req : Request.t)
  : Prop :=
  Request.host req = "idmsa.apple.com"
  /\ Request.method req = method
  /\ Request.path req = path
  /\ Request.headers req !! "X-Apple-ID-Session-Id" = Some (sessionId session)
  /\ Request.headers req !! "scnt" = Some (scnt session)
  /\ Request.cookies req = None.

(** From [w] to [w'] one exchange was made, for [req], and one UUID drawn. *)
Definition logged_once (env : Env) (w w' : World) (req : Request.t) : Prop :=
  calls w' = (calls w ++ [(req, transport env (map fst (calls w)) req)])%list
  /\ uuids w' = S (uuids w)
  /\ heap w' = heap w.

(** An exchange of [idmsaSignin]: the request to /signin/init or the one to
    /signin/complete. *)
Definition signin_exchange (x : Request.t * Result Response.t) : Prop :=
  Request.host (fst x) = "idmsa.apple.com"
  /\ Request.method (fst x) = "POST"
  /\ Request.cookies (fst x) = None
  /\ (Request.path (fst x) = "/appleauth/auth/signin/init"
      \/ Request.path (fst x) = "/appleauth/auth/signin/complete?isRememberMeEnabled=true").

(** The phone a list entry is read as. *)
Definition phone_of (p : Value) : TrustedPhoneNumber :=
  {| id := get_opt p "id";
     numberWithDialCode := get_opt p "numberWithDialCode";
     pushMode := get_opt p "pushMode" |}.

End Idmsa.

(* ===================================================================== *)
(** ** authenticate.ts                                                    *)
(* ===================================================================== *)

Module Authenticate.

(** The fields read from the response are what the response holds. *)
Record Account := {
  email : string;
  password : string;
  appleId : Value;
  store : string;
  firstName : Value;
  lastName : Value;
  passwordToken : Value;
  directoryServicesIdentifier : string;
  cookies : ArrayRef;
  deviceIdentifier : string;
  pod : option string;
}.

(** The variables of [authenticate] that the loop assigns. *)
Record Locals := {
  l_cookies : ArrayRef;
  storeFront : string;
  lastError : option Exn;
  requestHost : string;
  requestPath : string;
  currentAttempt : Z;
  redirectAttempt : Z;
}.

Definition set_cookies (r : ArrayRef) (st : Locals) : Locals :=
  {| l_cookies := r; storeFront := storeFront st; lastError := lastError st;
     requestHost := requestHost st; requestPath := requestPath st;
     currentAttempt := currentAttempt st; redirectAttempt := redirectAttempt st |}.
Definition set_storeFront (x : string) (st : Locals) : Locals :=
  {| l_cookies := l_cookies st; storeFront := x; lastError := lastError st;
     requestHost := requestHost st; requestPath := requestPath st;
     currentAttempt := currentAttempt st; redirectAttempt := redirectAttempt st |}.
Definition set_lastError (e : Exn) (st : Locals) : Locals :=
  {| l_cookies := l_cookies st; storeFront := storeFront st; lastError := Some e;
     requestHost := requestHost st; requestPath := requestPath st;
     currentAttempt := currentAttempt st; redirectAttempt := redirectAttempt st |}.
Definition set_target (h p : string) (st : Locals) : Locals :=
  {| l_cookies := l_cookies st; storeFront := storeFront st; lastError := lastError st;
     requestHost := h; requestPath := p;
     currentAttempt := currentAttempt st; redirectAttempt := redirectAttempt st |}.
Definition set_currentAttempt (n : Z) (st : Locals) : Locals :=
  {| l_cookies := l_cookies st; storeFront := storeFront st; lastError := lastError st;
     requestHost := requestHost st; requestPath := requestPath st;
     currentAttempt := n; redirectAttempt := redirectAttempt st |}.
Definition set_redirectAttempt (n : Z) (st : Locals) : Locals :=
  {| l_cookies := l_cookies st; storeFront := storeFront st; lastError := lastError st;
     requestHost := requestHost st; requestPath := requestPath st;
     currentAttempt := currentAttempt st; redirectAttempt := n |}.

Definition set_heap (h : list (list Cookie)) (w : World) : World :=
  {| calls := calls w; uuids := uuids w; heap := h |}.

(** The content of an array. Every reference a program holds is to a live
    array. *)
Definition contents (w : World) (r : ArrayRef) : list Cookie :=
  default [] (heap w !! r).

(** *** The body of the [try] block

    A statement of the block runs on the locals and the world; it ends
    normally, or with [continue], or with an exception. *)
Inductive Abrupt :=
| Continue
| Thrown (e : Exn).

Inductive Flow (A : Type) :=
| Normal (a : A)
| Abruptly (how : Abrupt).
Arguments Normal {A} a.
Arguments Abruptly {A} how.

Definition Body (A : Type) : Type := Locals * World -> Flow A * (Locals * World).

Definition retB {A} (a : A) : Body A := fun s => (Normal a, s).
Definition bindB {A B} (m : Body A) (k : A -> Body B) : Body B :=
  fun s =>
    match m s with
    | (Normal a, s') => k a s'
    | (Abruptly how, s') => (Abruptly how, s')
    end.
Definition throwB {A} (e : Exn) : Body A := fun s => (Abruptly (Thrown e), s).
Definition continueB {A} : Body A := fun s => (Abruptly Continue, s).
Definition liftR {A} (r : Result A) : Body A :=
  match r with
  | Ok a => retB a
  | Throw e => throwB e
  end.
Definition liftM {A} (m : M A) : Body A :=
  fun '(st, w) =>
    match m w with
    | (Ok a, w') => (Normal a, (st, w'))
    | (Throw e, w') => (Abruptly (Thrown e), (st, w'))
    end.
Definition locals : Body Locals := fun '(st, w) => (Normal st, (st, w)).
Definition assign (f : Locals -> Locals) : Body unit :=
  fun '(st, w) => (Normal tt, (f st, w)).
Definition when (cond : bool) (m : Body unit) : Body unit :=
  if cond then m else retB tt.

Notation "x <~ m ;; k" := (bindB m (fun x => k))
  (at level 100, m at next level, right associativity) : js_scope.
Notation "m ;;; k" := (bindB m (fun _ => k))
  (at level 100, right associativity) : js_scope.

(** [!code], and the value of [code] in a template. *)
Definition no_code (code : option string) : bool :=
  match code with
  | Some s => (s =? "")%string
  | None => true
  end.

Definition code_text (code : option string) : string :=
  match code with Some s => s | None => "" end.

(** [!h] for a header that may be absent. *)
Definition header_missing (h : option string) : bool :=
  match h with
  | Some s => (s =? "")%string
  | None => true
  end.

(** [storeHeader.split("-")[0]] *)
Fixpoint before_dash (s : string) : string :=
  match s with
  | EmptyString => EmptyString
  | String ch s' => if Ascii.eqb ch "-" then EmptyString else String ch (before_dash s')
  end.

(** [cookies = extractAndMergeCookies(response.rawHeaders, cookies)] *)
Definition mergeCookies (env : Env) (rawHeaders : list (string * string)) : Body unit :=
  fun '(st, w) =>
    let r := l_cookies st in
    match extractAndMergeCookies env rawHeaders (contents w r) with
    | InPlace merged =>
        (Normal tt, (st, set_heap (<[r := merged]> (heap w)) w))
    | NewArray given merged =>
        let h := <[r := given]> (heap w) in
        (Normal tt, (set_cookies (length h) st, set_heap (h ++ [merged]) w))
    end.

Definition requiresVerification (env : Env) : Exn :=
  AuthenticationError (i18n_t env "errors.auth.requiresVerification" []) true.

(** The request of one pass of the loop. *)
Definition signInRequest (env : Env) (email password : string) (code : option string)
    (deviceId : string) (smsVerified : bool) (st : Locals) (sent : list Cookie)
  : Request.t :=
  (* When SMS-verified via IDMSA, send plain password (2FA already satisfied);
     when using device push code, concatenate code to password *)
  let useCode := negb (no_code code) && negb smsVerified in
  let passwordValue := if useCode then password ++ code_text code else password in
  let params :=
    [("appleId", email);
     ("attempt", if useCode then "2" else "4");
     ("guid", deviceId);
     ("password", passwordValue);
     ("rmp", "0");
     ("why", "signIn")] in
  {| Request.method := "POST";
     Request.host := requestHost st;
     Request.path := requestPath st;
     Request.headers := {[ "Content-Type" := "application/x-www-form-urlencoded" ]};
     Request.body := Some (URLSearchParams_toString env params);
     Request.cookies := Some sent |}.

(** What follows the parse of the body. *)
Definition readPlist (env : Env) (email password : string) (code : option string)
    (deviceId : string) (pod : option string) (dict : Value) : Body Account :=
  failureType <~ liftR (get dict "failureType") ;;
  let customerMessage := get_opt dict "customerMessage" in
  let dialog := get_opt dict "dialog" in
  st <~ locals ;;
  (* Account locked: do NOT retry (retrying worsens the lock) *)
  if is_string failureType "5020" then
    let lockMsg :=
      coalesce (coalesce (get_opt dialog "explanation") customerMessage)
               (VStr "Account locked") in
    throwB (new_Error lockMsg)
  (* Retry once on -5000: known Apple first-request quirk *)
  else if is_string failureType "-5000" && (currentAttempt st =? 1)%Z then
    continueB
  (* Check for 2FA requirement *)
  else if is_string failureType "" && no_code code
          && is_string customerMessage "MZFinance.BadLogin.Configurator_message" then
    throwB (requiresVerification env)
  else
    let failureMessage := coalesce (get_opt dialog "explanation") customerMessage in
    let accountInfo := get_opt dict "accountInfo" in
    if negb (truthy accountInfo) then
      throwB (new_Error
                (coalesce failureMessage
                          (VStr (i18n_t env "errors.auth.missingAccountInfo" []))))
    else
      let address := get_opt accountInfo "address" in
      if negb (truthy address) then
        throwB (new_Error
                  (coalesce failureMessage
                            (VStr (i18n_t env "errors.auth.missingAddress" []))))
      else
        retB {| email := email;
                password := password;
                appleId := coalesce (get_opt accountInfo "appleId") (VStr "");
                store := storeFront st;
                firstName := coalesce (get_opt address "firstName") (VStr "");
                lastName := coalesce (get_opt address "lastName") (VStr "");
                passwordToken := coalesce (get_opt dict "passwordToken") (VStr "");
                directoryServicesIdentifier :=
                  String_ (coalesce (get_opt dict "dsPersonId") (VStr ""));
                cookies := l_cookies st;
                deviceIdentifier := deviceId;
                pod := pod |}.

(** [await appleRequest({ method: "POST", host: requestHost, ... cookies })] *)
Definition send (env : Env) (email password : string) (code : option string)
    (deviceId : string) (smsVerified : bool) : Body Response.t :=
  fun '(st, w) =>
    liftM (appleRequest env
             (signInRequest env email password code deviceId smsVerified st
                            (contents w (l_cookies st)))) (st, w).

(** Read store front *)
Definition readStoreFront (response : Response.t) : Body unit :=
  when (negb (header_missing (Response.headers response !! "x-set-apple-store-front")))
       (let storeHeader :=
          default "" (Response.headers response !! "x-set-apple-store-front") in
        when (negb (before_dash storeHeader =? "")%string)
             (assign (set_storeFront (before_dash storeHeader)))).

(** From [// Handle redirect] to the parse of the body. *)
Definition interpret (env : Env) (email password : string) (code : option string)
    (deviceId : string) (response : Response.t) : Body Account :=
  (* Read pod *)
  let podHeader := Response.headers response !! "pod" in
  let pod := if header_missing podHeader then None else podHeader in
  (* Handle redirect *)
  if (Response.status response =? 302)%Z then
    let location := Response.headers response !! "location" in
    if header_missing location then
      throwB (Error (i18n_t env "errors.auth.redirectLocation" []))
    else
      url <~ liftR (new_URL env (default "" location)) ;;
      assign (set_target (hostname url) (pathname url ++ search url)) ;;;
      assign (fun st => set_currentAttempt (currentAttempt st - 1) st) ;;;
      assign (fun st => set_redirectAttempt (redirectAttempt st + 1) st) ;;;
      continueB
  (* Handle 404 as 2FA requirement *)
  else if (Response.status response =? 404)%Z && no_code code then
    throwB (requiresVerification env)
  (* Handle non-plist responses (e.g. 403 with empty body) *)
  else if (trim (Response.body response) =? "")%string then
    throwB (Error (i18n_t env "errors.auth.emptyBody"
                          [("status", VNum (Response.status response))]))
  else
    dict <~ liftR (parsePlist env (Response.body response)) ;;
    readPlist env email password code deviceId pod dict.

(** The [try] block of one pass. *)
Definition tryBlock (env : Env) (email password : string) (code : option string)
    (deviceId : string) (smsVerified : bool) : Body Account :=
  response <~ send env email password code deviceId smsVerified ;;
  mergeCookies env (Response.rawHeaders response) ;;;
  readStoreFront response ;;;
  interpret env email password code deviceId response.

(** [catch (e)]: an [AuthenticationError] goes on up; anything else is
    kept as [lastError], [e instanceof Error ? e : new Error(String(e))]. *)
Definition asError (e : Exn) : Exn :=
  match e with
  | NonError v => Error (String_ v)
  | _ => e
  end.

(** [currentAttempt < 2 && redirectAttempt <= 3] *)
Definition in_budget (st : Locals) : bool :=
  (currentAttempt st <? 2)%Z && (redirectAttempt st <=? 3)%Z.

(** [while (currentAttempt < 2 && redirectAttempt <= 3)]. [fuel] bounds the
    passes; [None] is a loop cut short by it. *)
Fixpoint loop (fuel : nat) (env : Env) (email password : string) (code : option string)
    (deviceId : string) (smsVerified : bool) (st : Locals) (w : World)
  : option (Result Account * World) :=
  match fuel with
  | O => None
  | S fuel' =>
      if in_budget st then
        let st := set_currentAttempt (currentAttempt st + 1) st in
        match tryBlock env email password code deviceId smsVerified (st, w) with
        | (Normal account, (_, w')) => Some (Ok account, w')
        | (Abruptly Continue, (st', w')) =>
            loop fuel' env email password code deviceId smsVerified st' w'
        | (Abruptly (Thrown e), (st', w')) =>
            if instanceofAuthenticationError e then Some (Throw e, w')
            else loop fuel' env email password code deviceId smsVerified
                      (set_lastError (asError e) st') w'
        end
      else
        Some (Throw (default (Error (i18n_t env "errors.auth.unknownReason" []))
                             (lastError st)), w)
  end.

(** What [authenticate] does before the loop: the copy of the caller's
    cookies, and the endpoint from the bag. *)
Definition prelude (env : Env) (existingCookies : option ArrayRef) (deviceId : string)
  : M Locals :=
  fun w =>
    (* let cookies = existingCookies ? [...existingCookies] : [] *)
    let copied :=
      match existingCookies with
      | Some r => contents w r
      | None => []
      end in
    let cookies := length (heap w) in
    let w := set_heap (heap w ++ [copied]) w in
    (defaultAuthEndpoint <- lift (new_URL env (defaultAuthURL env)) ;;
     let defaultAuthEndpoint := searchParams_set env defaultAuthEndpoint "guid" deviceId in
     bag <- lift (fetchBag env deviceId) ;;
     authEndpoint <- lift (new_URL env (authURL bag)) ;;
     let authEndpoint := searchParams_set env authEndpoint "guid" deviceId in
     ret {| l_cookies := cookies;
            storeFront := "";
            lastError := None;
            requestHost := hostname authEndpoint;
            requestPath := pathname authEndpoint ++ search authEndpoint;
            currentAttempt := 0;
            redirectAttempt := 0 |}) w.

(** Six passes are the most the two counters allow. *)
Definition passes : nat := 6.

Definition authenticate (env : Env) (email password : string) (code : option string)
    (existingCookies : option ArrayRef) (deviceId : string) (smsVerified : bool)
  : World -> option (Result Account * World) :=
  fun w =>
    match prelude env existingCookies deviceId w with
    | (Throw e, w') => Some (Throw e, w')
    | (Ok st, w') => loop passes env email password code deviceId smsVerified st w'
    end.

(** *** Vocabulary for the passes of the loop *)

(** The passes the counters still allow. *)
Definition passes_left (st : Locals) : nat :=
  if in_budget st
  then (Z.to_nat (2 - currentAttempt st) + Z.to_nat (4 - redirectAttempt st) - 1)%nat
  else 0%nat.

Section Pass.
Variable env : Env.
Variables email password : string.
Variable code : option string.
Variable deviceId : string.
Variable smsVerified : bool.

(** The request a pass sends, and the answer it gets. *)
Definition request_of (st : Locals) (w : World) : Request.t :=
  signInRequest env email password code deviceId smsVerified st (contents w (l_cookies st)).

Definition answer_of (st : Locals) (w : World) : Result Response.t :=
  transport env (map fst (calls w)) (request_of st w).

Definition logged (st : Locals) (w : World) : World :=
  {| calls := calls w ++ [(request_of st w, answer_of st w)];
     uuids := uuids w; heap := heap w |}.

(** The response gets as far as the parse, which gives the document. *)
Definition reaches_plist (response : Response.t) (dict : Value) : Prop :=
  Response.status response <> 302%Z
  /\ (Response.status response = 404%Z -> no_code code = false)
  /\ trim (Response.body response) <> ""
  /\ parsePlist env (Response.body response) = Ok dict
  /\ nullish dict = false.

(** The message of a response without account info. *)
Definition failure_message (dict : Value) : Value :=
  coalesce (coalesce (get_opt (get_opt dict "dialog") "explanation")
                     (get_opt dict "customerMessage"))
           (VStr (i18n_t env "errors.auth.missingAccountInfo" [])).

(** The message of a response with account info that lacks an address. *)
Definition address_message (dict : Value) : Value :=
  coalesce (coalesce (get_opt (get_opt dict "dialog") "explanation")
                     (get_opt dict "customerMessage"))
           (VStr (i18n_t env "errors.auth.missingAddress" [])).

(** The answer is a redirect the loop can follow. *)
Definition followable (answer : Result Response.t) : Prop :=
  exists response location url,
    answer = Ok response
    /\ Response.status response = 302%Z
    /\ Response.headers response !! "location" = Some location
    /\ location <> ""
    /\ new_URL env location = Ok url.

(** Every exchange of a log but the last was answered by a 302. *)
Definition only_redirects_before_last
    (exchanges : list (Request.t * Result Response.t)) : Prop :=
  forall i exchange,
    exchanges !! i = Some exchange ->
    (S i < length exchanges)%nat ->
    exists response, snd exchange = Ok response /\ Response.status response = 302%Z.

(** The result is an [Error] that carries the message, when the message is
    a string. *)
Definition throws_message (result : Result Account) (message : Value) : Prop :=
  exists text,
    result = Throw (Error text) /\ forall s, message = VStr s -> text = s.

(** What becomes of a document with failureType "-5000" that is not
    retried: it is read like any other. Without account info, or without
    an address in it, its message is thrown; with both, the account is
    returned. *)
Definition read_without_retry (dict : Value) (result : Result Account) : Prop :=
  let accountInfo := get_opt dict "accountInfo" in
  (truthy accountInfo = false -> throws_message result (failure_message dict))
  /\ (truthy accountInfo = true -> truthy (get_opt accountInfo "address") = false ->
      throws_message result (address_message dict))
  /\ (truthy accountInfo = true -> truthy (get_opt accountInfo "address") = true ->
      exists account, result = Ok account).

(** The retry of a "-5000" answer, in the outcome [run] of a run that began
    in the world [w] and got [first] for its first answer: the run returns;
    its first request was sent a second time, with the same method, host,
    path, headers and body; every exchange from the second on, but the last
    of all, was answered by a 302; and when the second answer is again a
    "-5000" document, it ends the run and is read without a retry. *)
Definition retried_once (run : option (Result Account * World)) (w : World)
    (first : Response.t) : Prop :=
  exists req1 req2 answer2 rest result w',
    run = Some (result, w')
    /\ calls w' = (calls w ++ (req1, Ok first) :: (req2, answer2) :: rest)%list
    /\ answer2 = transport env (map fst (calls w) ++ [req1])%list req2
    /\ Request.method req2 = Request.method req1
    /\ Request.host req2 = Request.host req1
    /\ Request.path req2 = Request.path req1
    /\ Request.headers req2 = Request.headers req1
    /\ Request.body req2 = Request.body req1
    /\ only_redirects_before_last ((req2, answer2) :: rest)
    /\ (forall second dict2,
          answer2 = Ok second ->
          reaches_plist second dict2 ->
          is_string (get_opt dict2 "failureType") "-5000" = true ->
          rest = [] /\ read_without_retry dict2 result).
End Pass.

(** The form every sign-in request carries. *)
Definition signInForm (env : Env) (email password : string) (code : option string)
    (deviceId : string) (smsVerified : bool) : string :=
  let useCode := negb (no_code code) && negb smsVerified in
  URLSearchParams_toString env
    [("appleId", email);
     ("attempt", if useCode then "2" else "4");
     ("guid", deviceId);
     ("password", if useCode then password ++ code_text code else password);
     ("rmp", "0");
     ("why", "signIn")].

(** The collaborators raise no [AuthenticationError] of their own. *)
Definition plain_collaborators (env : Env) (deviceId : string) : Prop :=
  (forall hist req e, transport env hist req = Throw e ->
                      instanceofAuthenticationError e = false)
  /\ (forall url e, new_URL env url = Throw e -> instanceofAuthenticationError e = false)
  /\ (forall body e, parsePlist env body = Throw e ->
                     instanceofAuthenticationError e = false)
  /\ (forall e, fetchBag env deviceId = Throw e -> instanceofAuthenticationError e = false).

End Authenticate.

(* ===================================================================== *)
(** ** hooks/useSmsVerification.ts                                        *)
(* ===================================================================== *)

(** The hook as a state machine: its state variables and the session
    reference make the state; an action called from the latest render
    reads them, runs to its end, and leaves the state the next render
    shows. *)
Module SmsVerification.
Import Idmsa.

(** What the hook imports and is not among the sources: the translation
    function of [useTranslation] and [getErrorMessage] of [../utils/error],
    both to a string. *)
Record Ui := {
  t : string -> string;
  getErrorMessage : Exn -> string -> string;
}.

Record State := {
  sessionRef : option IdmsaSession;   (* sessionRef.current *)
  smsMode : bool;
  smsLoading : bool;
  phoneNumbers : list TrustedPhoneNumber;
  selectedPhoneId : Value;            (* number | null *)
  smsSent : bool;
  smsPhone : Value;                   (* string | null *)
  smsError : option string;           (* string | null *)
  cooldown : bool;
  tooManyCodes : bool;
  codeLocked : bool;
}.

(** The state of the first render. *)
Definition initial : State :=
  {| sessionRef := None; smsMode := false; smsLoading := false; phoneNumbers := [];
     selectedPhoneId := VNull; smsSent := false; smsPhone := VNull; smsError := None;
     cooldown := false; tooManyCodes := false; codeLocked := false |}.

Definition set_sessionRef (x : option IdmsaSession) (s : State) : State :=
  {| sessionRef := x; smsMode := smsMode s; smsLoading := smsLoading s;
     phoneNumbers := phoneNumbers s; selectedPhoneId := selectedPhoneId s;
     smsSent := smsSent s; smsPhone := smsPhone s; smsError := smsError s;
     cooldown := cooldown s; tooManyCodes := tooManyCodes s; codeLocked := codeLocked s |}.
Definition setSmsMode (x : bool) (s : State) : State :=
  {| sessionRef := sessionRef s; smsMode := x; smsLoading := smsLoading s;
     phoneNumbers := phoneNumbers s; selectedPhoneId := selectedPhoneId s;
     smsSent := smsSent s; smsPhone := smsPhone s; smsError := smsError s;
     cooldown := cooldown s; tooManyCodes := tooManyCodes s; codeLocked := codeLocked s |}.
Definition setSmsLoading (x : bool) (s : State) : State :=
  {| sessionRef := sessionRef s; smsMode := smsMode s; smsLoading := x;
     phoneNumbers := phoneNumbers s; selectedPhoneId := selectedPhoneId s;
     smsSent := smsSent s; smsPhone := smsPhone s; smsError := smsError s;
     cooldown := cooldown s; tooManyCodes := tooManyCodes s; codeLocked := codeLocked s |}.
Definition setPhoneNumbers (x : list TrustedPhoneNumber) (s : State) : State :=
  {| sessionRef := sessionRef s; smsMode := smsMode s; smsLoading := smsLoading s;
     phoneNumbers := x; selectedPhoneId := selectedPhoneId s;
     smsSent := smsSent s; smsPhone := smsPhone s; smsError := smsError s;
     cooldown := cooldown s; tooManyCodes := tooManyCodes s; codeLocked := codeLocked s |}.
Definition setSelectedPhoneId (x : Value) (s : State) : State :=
  {| sessionRef := sessionRef s; smsMode := smsMode s; smsLoading := smsLoading s;
     phoneNumbers := phoneNumbers s; selectedPhoneId := x;
     smsSent := smsSent s; smsPhone := smsPhone s; smsError := smsError s;
     cooldown := cooldown s; tooManyCodes := tooManyCodes s; codeLocked := codeLocked s |}.
Definition setSmsSent (x : bool) (s : State) : State :=
  {| sessionRef := sessionRef s; smsMode := smsMode s; smsLoading := smsLoading s;
     phoneNumbers := phoneNumbers s; selectedPhoneId := selectedPhoneId s;
     smsSent := x; smsPhone := smsPhone s; smsError := smsError s;
     cooldown := cooldown s; tooManyCodes := tooManyCodes s; codeLocked := codeLocked s |}.
Definition setSmsPhone (x : Value) (s : State) : State :=
  {| sessionRef := sessionRef s; smsMode := smsMode s; smsLoading := smsLoading s;
     phoneNumbers := phoneNumbers s; selectedPhoneId := selectedPhoneId s;
     smsSent := smsSent s; smsPhone := x; smsError := smsError s;
     cooldown := cooldown s; tooManyCodes := tooManyCodes s; codeLocked := codeLocked s |}.
Definition setSmsError (x : option string) (s : State) : State :=
  {| sessionRef := sessionRef s; smsMode := smsMode s; smsLoading := smsLoading s;
     phoneNumbers := phoneNumbers s; selectedPhoneId := selectedPhoneId s;
     smsSent := smsSent s; smsPhone := smsPhone s; smsError := x;
     cooldown := cooldown s; tooManyCodes := tooManyCodes s; codeLocked := codeLocked s |}.
Definition setCooldown (x : bool) (s : State) : State :=
  {| sessionRef := sessionRef s; smsMode := smsMode s; smsLoading := smsLoading s;
     phoneNumbers := phoneNumbers s; selectedPhoneId := selectedPhoneId s;
     smsSent := smsSent s; smsPhone := smsPhone s; smsError := smsError s;
     cooldown := x; tooManyCodes := tooManyCodes s; codeLocked := codeLocked s |}.
Definition setTooManyCodes (x : bool) (s : State) : State :=
  {| sessionRef := sessionRef s; smsMode := smsMode s; smsLoading := smsLoading s;
     phoneNumbers := phoneNumbers s; selectedPhoneId := selectedPhoneId s;
     smsSent := smsSent s; smsPhone := smsPhone s; smsError := smsError s;
     cooldown := cooldown s; tooManyCodes := x; codeLocked := codeLocked s |}.
Definition setCodeLocked (x : bool) (s : State) : State :=
  {| sessionRef := sessionRef s; smsMode := smsMode s; smsLoading := smsLoading s;
     phoneNumbers := phoneNumbers s; selectedPhoneId := selectedPhoneId s;
     smsSent := smsSent s; smsPhone := smsPhone s; smsError := smsError s;
     cooldown := cooldown s; tooManyCodes := tooManyCodes s; codeLocked := x |}.

(** Statements in a row, first to last. *)
Definition seq_ (steps : list (State -> State)) (s : State) : State :=
  fold_left (fun s step => step s) steps s.

(** [v === null] *)
Definition is_null (v : Value) : bool :=
  match v with VNull => true | _ => false end.

(** [a === b] on the values a phone id takes. Numbers, strings, booleans,
    [null] and [undefined] are compared by value. Two arrays or objects are
    the same only when they are one object, which a [Value] does not tell:
    they are taken to differ. *)
Definition strict_equals (a b : Value) : bool :=
  match a, b with
  | VUndefined, VUndefined => true
  | VNull, VNull => true
  | VBool x, VBool y => Bool.eqb x y
  | VNum x, VNum y => (x =? y)%Z
  | VStr x, VStr y => (x =? y)%string
  | _, _ => false
  end.

(** [sendSms(phoneId?)]; an argument left out is [undefined]. *)
Definition sendSms (env : Env) (ui : Ui) (phoneId : Value) (s : State)
  : World -> State * World :=
  fun w =>
    match sessionRef s with
    | None => (s, w)
    | Some session =>
        let targetId := coalesce phoneId (selectedPhoneId s) in
        if is_null targetId then (s, w)
        else
          let s := seq_ [setSmsLoading true; setSmsError None] s in
          match idmsaRequestSms env session targetId w with
          | (Ok _, w') =>
              (* Find display string for the sent phone *)
              let phone :=
                find (fun p => strict_equals (id p) targetId) (phoneNumbers s) in
              let shown :=
                match phone with
                | Some p => coalesce (numberWithDialCode p) VNull
                | None => VNull
                end in
              (seq_ [setSmsSent true; setSelectedPhoneId targetId; setSmsPhone shown;
                     setSmsLoading false] s, w')
          | (Throw err, w') =>
              (seq_ [setSmsError
                       (Some (getErrorMessage ui err (t ui "errors.auth.smsRequestFailed")));
                     setSmsLoading false] s, w')
          end
    end.

(** The [catch] of [initiateSms]. *)
Definition signinFailed (ui : Ui) (err : Exn) : State -> State :=
  seq_ [setSmsError (Some (getErrorMessage ui err (t ui "errors.auth.idmsaSigninFailed")));
        setSmsLoading false].

Definition initiateSms (env : Env) (ui : Ui) (email password : string) (s : State)
  : World -> State * World :=
  fun w =>
    let s := seq_ [setSmsMode true; setSmsLoading true; setSmsError None; setSmsSent false;
                   setSmsPhone VNull; setCooldown false; setTooManyCodes false;
                   setCodeLocked false] s in
    (* Step 1: IDMSA signin *)
    match idmsaSignin env email password w with
    | (Throw err, w) => (signinFailed ui err s, w)
    | (Ok session, w) =>
        let s := set_sessionRef (Some session) s in
        (* Step 2: Get phone numbers and rate-limit status *)
        match idmsaGetPhoneNumbers env session w with
        | (Throw err, w) => (signinFailed ui err s, w)
        | (Ok result, w) =>
            if securityCodeLocked result then
              (seq_ [setCodeLocked true; setSmsLoading false] s, w)
            else if tooManyCodesSent result then
              (seq_ [setTooManyCodes true; setSmsLoading false] s, w)
            else if securityCodeCooldown result then
              (seq_ [setCooldown true; setSmsLoading false] s, w)
            else
              let phones := trustedPhoneNumbers result in
              let s := setPhoneNumbers phones s in
              match phones with
              | [] =>
                  (seq_ [setSmsError (Some (t ui "errors.auth.noPhoneNumbers"));
                         setSmsLoading false] s, w)
              | [phone] =>
                  (* Step 3: Auto-send if only one phone number *)
                  let s := setSelectedPhoneId (id phone) s in
                  match idmsaRequestSms env session (id phone) w with
                  | (Throw err, w) => (signinFailed ui err s, w)
                  | (Ok _, w) =>
                      (seq_ [setSmsSent true; setSmsPhone (numberWithDialCode phone);
                             setSmsLoading false] s, w)
                  end
              | phone :: _ =>
                  (* Multiple phones: let user choose *)
                  (seq_ [setSelectedPhoneId (id phone); setSmsLoading false] s, w)
              end
        end
    end.

(** [verifySmsCode(code)]: the code is verified, then a trust token is
    asked for, best-effort. The state stays as it is. *)
Definition verifySmsCode (env : Env) (ui : Ui) (code : string) (s : State) : M unit :=
  fun w =>
    match sessionRef s with
    | Some session =>
        if is_null (selectedPhoneId s)
        then (Throw (Error "No active IDMSA session or phone selection"), w)
        else
          (* Step 1: Verify the code via IDMSA *)
          match idmsaVerifySmsCode env session (selectedPhoneId s) code w with
          | (Throw err, w) =>
              (Throw (Error (getErrorMessage ui err (t ui "errors.auth.smsVerifyFailed"))), w)
          | (Ok _, w) =>
              (* Step 2: Attempt to get a trust token (not critical) *)
              match idmsaGetTrustToken env session w with
              | (_, w) => (Ok tt, w)
              end
          end
    | None => (Throw (Error "No active IDMSA session or phone selection"), w)
    end.

Definition resetSms (s : State) : State :=
  set_sessionRef None
    (seq_ [setSmsMode false; setSmsLoading false; setPhoneNumbers [];
           setSelectedPhoneId VNull; setSmsSent false; setSmsPhone VNull;
           setSmsError None; setCooldown false; setTooManyCodes false;
           setCodeLocked false] s).

(** What a user of the hook can do, one thing after the other. *)
Inductive Action :=
| InitiateSms
| SendSms (phoneId : Value)
| SelectPhone (id : Value)
| ResetSms.

Definition act (env : Env) (ui : Ui) (email password : string) (a : Action) (s : State)
  : World -> State * World :=
  match a with
  | InitiateSms => initiateSms env ui email password s
  | SendSms phoneId => sendSms env ui phoneId s
  | SelectPhone id => fun w => (setSelectedPhoneId id s, w)
  | ResetSms => fun w => (resetSms s, w)
  end.

Fixpoint acts (env : Env) (ui : Ui) (email password : string) (l : list Action)
    (s : State) (w : World) : State * World :=
  match l with
  | [] => (s, w)
  | a :: l' =>
      let '(s', w') := act env ui email password a s w in
      acts env ui email password l' s' w'
  end.

(** *** Vocabulary for the states of the hook *)

(** A state between two actions: nothing is loading, an SMS is reported as
    sent only while a session is held, a session is held only in SMS mode,
    and at most one of the three rate-limit flags is up. *)
Definition settled (s : State) : Prop :=
  smsLoading s = false
  /\ (smsSent s = true -> sessionRef s <> None)
  /\ (sessionRef s <> None -> smsMode s = true)
  /\ (codeLocked s = true -> tooManyCodes s = false /\ cooldown s = false)
  /\ (tooManyCodes s = true -> cooldown s = false).

End SmsVerification.

(* ===================================================================== *)
(** ** The two pages that sign in                                         *)
(* ===================================================================== *)

(** What the pages import and is not among the sources: the account store
    of [useAccounts], by the two operations the pages await. What the
    store keeps is outside the world modelled here. *)
Record AccountStore := {
  addAccount : Authenticate.Account -> Result unit;
  updateAccount : Authenticate.Account -> Result unit;
}.

(** [deviceId.replace(/[: ]/g, "")] *)
Definition without_colons_and_spaces (s : string) : string :=
  string_of_list_ascii
    (List.filter (fun ch => negb (Ascii.eqb ch ":" || Ascii.eqb ch " "))
                 (list_ascii_of_string s)).

(** [needsCode && code ? code : undefined] *)
Definition code_if_needed (needsCode : bool) (code : string) : option string :=
  if needsCode && negb (code =? "")%string then Some code else None.

(** components/Account/AddAccountForm.tsx: the state of the form, with the
    toasts shown and the places navigated to. *)
Module AddAccountForm.
Import SmsVerification.

Record State := {
  email : string;
  password : string;
  code : string;
  deviceId : string;
  needsCode : bool;
  loading : bool;
  toasts : list (string * string);
  navigated : list string;
}.

Definition setDeviceId (x : string) (s : State) : State :=
  {| email := email s; password := password s; code := code s; deviceId := x;
     needsCode := needsCode s; loading := loading s; toasts := toasts s;
     navigated := navigated s |}.
Definition setNeedsCode (x : bool) (s : State) : State :=
  {| email := email s; password := password s; code := code s; deviceId := deviceId s;
     needsCode := x; loading := loading s; toasts := toasts s;
     navigated := navigated s |}.
Definition setLoading (x : bool) (s : State) : State :=
  {| email := email s; password := password s; code := code s; deviceId := deviceId s;
     needsCode := needsCode s; loading := x; toasts := toasts s;
     navigated := navigated s |}.
Definition addToast (message kind : string) (s : State) : State :=
  {| email := email s; password := password s; code := code s; deviceId := deviceId s;
     needsCode := needsCode s; loading := loading s;
     toasts := (toasts s ++ [(message, kind)])%list;
     navigated := navigated s |}.
Definition navigate (to : string) (s : State) : State :=
  {| email := email s; password := password s; code := code s; deviceId := deviceId s;
     needsCode := needsCode s; loading := loading s; toasts := toasts s;
     navigated := (navigated s ++ [to])%list |}.

(** The [catch] of [handleSubmit]. *)
Definition failed (ui : Ui) (err : Exn) (s : State) : State :=
  match err with
  | AuthenticationError message true =>
      addToast message "error" (setNeedsCode true s)
  | _ =>
      addToast (getErrorMessage ui err (t ui "accounts.addForm.authFailed")) "error" s
  end.

(** [handleSubmit], with the hook's state [sms] of the render it is called
    from. [None] is a sign-in loop cut short by its fuel. *)
Definition handleSubmit (env : Env) (ui : Ui) (store : AccountStore)
    (sms : SmsVerification.State) (s : State) : World -> option (State * World) :=
  fun w =>
    let s := setLoading true s in
    let cleanedDeviceId := without_colons_and_spaces (deviceId s) in
    let s := setDeviceId cleanedDeviceId s in
    (* If SMS was used, verify the code through IDMSA first *)
    let smsWasVerified := smsSent sms && needsCode s && negb (code s =? "")%string in
    let '(verified, w) :=
      if smsWasVerified then verifySmsCode env ui (code s) sms w else (Ok tt, w) in
    let signedIn :=
      match verified with
      | Ok _ =>
          Authenticate.authenticate env (email s) (password s)
            (code_if_needed (needsCode s) (code s)) None cleanedDeviceId smsWasVerified w
      | Throw err => Some (Throw err, w)
      end in
    match signedIn with
    | Some (outcome, w) =>
        let s :=
          match (let* account := outcome in addAccount store account) with
          | Ok _ =>
              navigate "/accounts"
                (addToast (t ui "accounts.addForm.addSuccess") "success" s)
          | Throw err => failed ui err s
          end in
        Some (setLoading false s, w)
    | None => None
    end.
End AddAccountForm.

(** components/Account/AccountDetail.tsx: the state of the page around
    [handleReauth], for the account it shows. *)
Module AccountDetail.
Import SmsVerification.

Record State := {
  reauthing : bool;
  reauthCode : string;
  needsCode : bool;
  toasts : list (string * string);
}.

Definition setReauthing (x : bool) (s : State) : State :=
  {| reauthing := x; reauthCode := reauthCode s; needsCode := needsCode s;
     toasts := toasts s |}.
Definition setReauthCode (x : string) (s : State) : State :=
  {| reauthing := reauthing s; reauthCode := x; needsCode := needsCode s;
     toasts := toasts s |}.
Definition setNeedsCode (x : bool) (s : State) : State :=
  {| reauthing := reauthing s; reauthCode := reauthCode s; needsCode := x;
     toasts := toasts s |}.
Definition addToast (message kind : string) (s : State) : State :=
  {| reauthing := reauthing s; reauthCode := reauthCode s; needsCode := needsCode s;
     toasts := (toasts s ++ [(message, kind)])%list |}.

(** The [catch] of [handleReauth]. *)
Definition failed (ui : Ui) (err : Exn) (s : State) : State :=
  match err with
  | AuthenticationError message true =>
      addToast message "error" (setNeedsCode true s)
  | _ =>
      addToast (getErrorMessage ui err (t ui "accounts.detail.reauthFailed")) "error" s
  end.

(** [handleReauth] for the account shown; without one it returns at once. *)
Definition handleReauth (env : Env) (ui : Ui) (store : AccountStore)
    (sms : SmsVerification.State) (account : option Authenticate.Account) (s : State)
  : World -> option (State * World) :=
  fun w =>
    match account with
    | None => Some (s, w)
    | Some account =>
        let s := setReauthing true s in
        (* If SMS was used, verify the code through IDMSA first *)
        let smsWasVerified :=
          smsSent sms && needsCode s && negb (reauthCode s =? "")%string in
        let '(verified, w) :=
          if smsWasVerified then verifySmsCode env ui (reauthCode s) sms w else (Ok tt, w) in
        let signedIn :=
          match verified with
          | Ok _ =>
              Authenticate.authenticate env
                (Authenticate.email account) (Authenticate.password account)
                (code_if_needed (needsCode s) (reauthCode s))
                (Some (Authenticate.cookies account))
                (Authenticate.deviceIdentifier account) smsWasVerified w
          | Throw err => Some (Throw err, w)
          end in
        match signedIn with
        | Some (outcome, w) =>
            let s :=
              match (let* updated := outcome in updateAccount store updated) with
              | Ok _ =>
                  addToast (t ui "accounts.detail.reauthSuccess") "success"
                    (setReauthCode "" (setNeedsCode false s))
              | Throw err => failed ui err s
              end in
            Some (setReauthing false s, w)
        | None => None
        end
    end.
End AccountDetail.

(* ===================================================================== *)
(** ** The specification's words                                          *)
(* ===================================================================== *)

Module Spec.
Import Idmsa.

(** The input key material: [h = SHA256(UTF8(password))], replaced by
    [UTF8(lowercase-hex(h))] under s2k_fo. *)
Definition key_material (protocol : SRPProtocol) (password : DOMString) : list byte :=
  let h := SHA256.sha256 (TextEncoder.encode_units password) in
  match protocol with
  | s2k => h
  | s2k_fo => TextEncoder.encode (toHex h)
  end.

(** PBKDF2 with SHA-256, deriving 256 bits. *)
Definition pbkdf2_sha256_32 (ikm salt : list byte) (iterations : Z) : list byte :=
  PBKDF2.pbkdf2 HMAC.hmac_sha256 32 ikm salt (Z.to_nat iterations) 32.

Definition derive (protocol : SRPProtocol) (password : DOMString) (salt : list byte)
    (iterations : Z) : list byte :=
  pbkdf2_sha256_32 (key_material protocol password) salt iterations.

(** A rate-limit flag is set in a response when the response is an object
    whose [securityCode] is an object that holds [true] under the flag's
    name. *)
Definition flag_set (data : Value) (flag : string) : bool :=
  match data with
  | VObj props =>
      match lookup_prop "securityCode" props with
      | VObj securityCode =>
          match lookup_prop flag securityCode with
          | VBool true => true
          | _ => false
          end
      | _ => false
      end
  | _ => false
  end.

(** The content of the array returned by a merge. *)
Definition after_merge (o : MergeOutcome) : list Cookie :=
  match o with
  | InPlace merged => merged
  | NewArray _ merged => merged
  end.

(** The accumulated merged cookies: the cookies the call started from, with
    the raw headers of every response received merged in, in order. *)
Definition accumulated (env : Env) (start : list Cookie)
    (exchanges : list (Request.t * Result Response.t)) : list Cookie :=
  fold_left
    (fun held exchange =>
       match snd exchange with
       | Ok response =>
           after_merge (extractAndMergeCookies env (Response.rawHeaders response) held)
       | Throw _ => held
       end)
    exchanges start.
End Spec.

(* ===================================================================== *)
(** ** Test doubles                                                       *)
(* ===================================================================== *)

(** Collaborators for the concrete runs: a scripted transport, a parser that
    returns a fixed document, a package that hands out fixed proofs. *)
Module Mock.

Definition srp_stub : SrpPackage :=
  {| Client := unit;
     newClient := fun _ _ => Ok tt;
     client_A := fun _ => 5%Z;
     bytesFromBigint := fun _ => [x05];
     set_p := fun cl _ => cl;
     generate := fun cl _ _ => Ok cl;
     client_M := fun _ => [x4d; x31];
     generateM2 := fun _ => Ok [x4d; x32] |}.

Definition response (status : Z) (headers : list (string * string)) (body : string)
  : Response.t :=
  {| Response.status := status;
     Response.statusText := "";
     Response.headers := list_to_map headers;
     Response.rawHeaders := headers;
     Response.body := body |}.

Definition url (s : string) : Result URL :=
  if (s =? "")%string then Throw (TypeError "Invalid URL")
  else Ok {| hostname := s; pathname := "/"; search := "" |}.

(** A cookie per raw header, appended to a new array. *)
Definition append_cookies (raw : list (string * string)) (given : list Cookie)
  : MergeOutcome :=
  NewArray given
    (given ++ map (fun kv => {| name := fst kv; value := snd kv; domain := "" |}) raw).

Definition env
    (transport : list Request.t -> Request.t -> Result Response.t)
    (document : Value) (init : Result InitData) : Env :=
  {| transport := transport;
     randomUUID := fun _ => "00000000-0000-4000-8000-000000000000";
     JSON_stringify := fun _ => "{}";
     JSON_parse := fun _ => Ok document;
     JSON_parse_init := fun _ => init;
     srp := srp_stub;
     defaultAuthURL := "https://buy.itunes.apple.com/auth";
     fetchBag := fun _ => Ok {| authURL := "https://auth.itunes.apple.com/auth" |};
     new_URL := url;
     searchParams_set := fun u k v =>
       {| hostname := hostname u; pathname := pathname u; search := "?" ++ k ++ "=" ++ v |};
     URLSearchParams_toString := fun params =>
       String.concat "&" (map (fun kv => fst kv ++ "=" ++ snd kv) params);
     extractAndMergeCookies := append_cookies;
     parsePlist := fun _ => Ok document;
     i18n_t := fun key _ => key |}.

(** The transport that answers every request alike. *)
Definition always (resp : Response.t) : list Request.t -> Request.t -> Result Response.t :=
  fun _ _ => Ok resp.

(** The transport that answers the [n]-th request with the [n]-th response
    of a script, and with the last one from then on. *)
Definition scripted (script : list Response.t) (last : Response.t)
  : list Request.t -> Request.t -> Result Response.t :=
  fun hist _ => Ok (nth (length hist) script last).

Definition empty_world : World := {| calls := []; uuids := 0; heap := [] |}.

(** A world where the caller holds one array, of one cookie. *)
Definition caller_world : World :=
  {| calls := []; uuids := 0;
     heap := [[ {| name := "itspod"; value := "12"; domain := ".apple.com" |} ]] |}.

(** The phone list of the union rule. *)
Definition too_many_codes : Value :=
  VObj [("trustedPhoneNumbers",
         VArr [VObj [("id", VNum 1);
                     ("numberWithDialCode", VStr "+1 (***) ***-**42");
                     ("pushMode", VStr "sms")]]);
        ("securityCode",
         VObj [("tooManyCodesSent", VBool true);
               ("securityCodeCooldown", VBool false)])].


Definition scenarioA_transport : list Request.t -> Request.t -> Result Response.t :=
  fun _ req =>
    if (Request.path req =? "/appleauth/auth/signin/init")%string
    then Ok (response 200 [] "{}")
    else Ok (response 200 [("x-apple-id-session-id", "S1"); ("scnt", "T1")] "").

(** Account-service answers. *)
Definition plist_response : Response.t :=
  response 200 [("set-cookie", "mz_at0=abc; Domain=.apple.com")] "<plist/>".

Definition locked_response : Response.t := response 200 [] "<plist/>".

(** A redirect with a location, and one that has lost it. *)
Definition redirect : Response.t :=
  response 302 [("location", "https://p25-buy.itunes.apple.com/auth")] "".

Definition lost_redirect : Response.t := response 302 [] "".

(** Account-service documents: a locked account, a rejected login, and a
    signed-in account. *)
Definition locked : Value :=
  VObj [("failureType", VStr "5020");
        ("customerMessage", VStr "This Apple ID has been locked for security reasons.")].

Definition bad_login : Value :=
  VObj [("failureType", VStr "-5000");
        ("customerMessage", VStr "Your Apple ID or password is incorrect.")].

Definition signed_in : Value :=
  VObj [("accountInfo",
         VObj [("appleId", VStr "user@example.com");
               ("address", VObj [("firstName", VStr "Ada"); ("lastName", VStr "Byron")])]);
        ("passwordToken", VStr "token");
        ("dsPersonId", VNum 123456789)].

(** A document with failureType "-5000" that carries an account all the
    same. *)
Definition rejected_with_account : Value :=
  VObj [("failureType", VStr "-5000");
        ("customerMessage", VStr "Your Apple ID or password is incorrect.");
        ("accountInfo",
         VObj [("appleId", VStr "user@example.com");
               ("address", VObj [("firstName", VStr "Ada"); ("lastName", VStr "Byron")])]);
        ("passwordToken", VStr "token");
        ("dsPersonId", VNum 123456789)].

(** The answer of /signin/init with one iteration, and with none. *)
Definition quick_init : InitData :=
  {| iteration := 1;
     salt := "AAECAwQFBgcICQoLDA0ODw==";
     protocol := s2k_fo;
     b := "AQIDBAUGBwg=";
     c := "abc" |}.

Definition no_iterations_init : InitData :=
  {| iteration := 0;
     salt := "AAECAwQFBgcICQoLDA0ODw==";
     protocol := s2k;
     b := "AQIDBAUGBwg=";
     c := "abc" |}.

(** A package whose client refuses every challenge. *)
Definition srp_refusing : SrpPackage :=
  {| Client := unit;
     newClient := fun _ _ => Ok tt;
     client_A := fun _ => 5%Z;
     bytesFromBigint := fun _ => [x05];
     set_p := fun cl _ => cl;
     generate := fun _ _ _ => Throw (Error "bad server ephemeral");
     client_M := fun _ => [];
     generateM2 := fun _ => Ok [] |}.

Definition with_srp (pkg : SrpPackage) (e : Env) : Env :=
  {| transport := transport e;
     randomUUID := randomUUID e;
     JSON_stringify := JSON_stringify e;
     JSON_parse := JSON_parse e;
     JSON_parse_init := JSON_parse_init e;
     srp := pkg;
     defaultAuthURL := defaultAuthURL e;
     fetchBag := fetchBag e;
     new_URL := new_URL e;
     searchParams_set := searchParams_set e;
     URLSearchParams_toString := URLSearchParams_toString e;
     extractAndMergeCookies := extractAndMergeCookies e;
     parsePlist := parsePlist e;
     i18n_t := i18n_t e |}.

(** An environment whose bag cannot be fetched. *)
Definition without_bag (e : Env) : Env :=
  {| transport := transport e;
     randomUUID := randomUUID e;
     JSON_stringify := JSON_stringify e;
     JSON_parse := JSON_parse e;
     JSON_parse_init := JSON_parse_init e;
     srp := srp e;
     defaultAuthURL := defaultAuthURL e;
     fetchBag := fun _ => Throw (Error "bag unavailable");
     new_URL := new_URL e;
     searchParams_set := searchParams_set e;
     URLSearchParams_toString := URLSearchParams_toString e;
     extractAndMergeCookies := extractAndMergeCookies e;
     parsePlist := parsePlist e;
     i18n_t := i18n_t e |}.

(** The transport of a network that is down. *)
Definition unreachable : list Request.t -> Request.t -> Result Response.t :=
  fun _ _ => Throw (Error "network unreachable").

(** The answer to a login that wants a code, and the answer to a good one
    with its store front and pod. *)
Definition wants_code : Value :=
  VObj [("failureType", VStr "");
        ("customerMessage", VStr "MZFinance.BadLogin.Configurator_message")].

Definition store_response : Response.t :=
  response 200 [("x-set-apple-store-front", "143441-1,32"); ("pod", "25")] "<plist/>".

(** A user interface that shows the keys untranslated and the message of an
    error. *)
Definition ui : SmsVerification.Ui :=
  {| SmsVerification.t := fun key => key;
     SmsVerification.getErrorMessage := fun err fallback =>
       match err with
       | Error message | OtherError _ message | AuthenticationError message _ => message
       | NonError _ => fallback
       end |}.

(** The state of the hook after an SMS went to phone 1. *)
Definition texted : SmsVerification.State :=
  {| SmsVerification.sessionRef := Some {| Idmsa.sessionId := "S1"; Idmsa.scnt := "T1" |};
     SmsVerification.smsMode := true;
     SmsVerification.smsLoading := false;
     SmsVerification.phoneNumbers :=
       [{| Idmsa.id := VNum 1; Idmsa.numberWithDialCode := VStr "+1 (***) ***-**42";
           Idmsa.pushMode := VStr "sms" |}];
     SmsVerification.selectedPhoneId := VNum 1;
     SmsVerification.smsSent := true;
     SmsVerification.smsPhone := VStr "+1 (***) ***-**42";
     SmsVerification.smsError := None;
     SmsVerification.cooldown := false;
     SmsVerification.tooManyCodes := false;
     SmsVerification.codeLocked := false |}.

(** The identity provider accepts the code and has no trust token to give;
    or it refuses the code. *)
Definition accepting : list Request.t -> Request.t -> Result Response.t :=
  fun _ req =>
    if (Request.path req =? "/appleauth/auth/verify/phone/securitycode")%string
    then Ok (response 204 [] "")
    else Ok (response 500 [] "").

Definition refusing : list Request.t -> Request.t -> Result Response.t :=
  always (response 401 [] "").

(** An account store that keeps what it is given. *)
Definition account_store : AccountStore :=
  {| addAccount := fun _ => Ok tt; updateAccount := fun _ => Ok tt |}.

(** The form with the code typed in, and before a code is asked for. *)
Definition form_with_code : AddAccountForm.State :=
  {| AddAccountForm.email := "user@example.com";
     AddAccountForm.password := "hunter2";
     AddAccountForm.code := "123456";
     AddAccountForm.deviceId := "01:23:45:67:89:ab";
     AddAccountForm.needsCode := true;
     AddAccountForm.loading := false;
     AddAccountForm.toasts := [];
     AddAccountForm.navigated := [] |}.

Definition fresh_form : AddAccountForm.State :=
  {| AddAccountForm.email := "user@example.com";
     AddAccountForm.password := "hunter2";
     AddAccountForm.code := "";
     AddAccountForm.deviceId := "01:23:45:67:89:ab";
     AddAccountForm.needsCode := false;
     AddAccountForm.loading := false;
     AddAccountForm.toasts := [];
     AddAccountForm.navigated := [] |}.

(** The account of [caller_world], and the page that shows it. *)
Definition stored_account : Authenticate.Account :=
  {| Authenticate.email := "user@example.com";
     Authenticate.password := "hunter2";
     Authenticate.appleId := VStr "user@example.com";
     Authenticate.store := "143441";
     Authenticate.firstName := VStr "Ada";
     Authenticate.lastName := VStr "Byron";
     Authenticate.passwordToken := VStr "token";
     Authenticate.directoryServicesIdentifier := "123456789";
     Authenticate.cookies := 0;
     Authenticate.deviceIdentifier := "0123456789ab";
     Authenticate.pod := None |}.

Definition detail_page : AccountDetail.State :=
  {| AccountDetail.reauthing := false;
     AccountDetail.reauthCode := "";
     AccountDetail.needsCode := false;
     AccountDetail.toasts := [] |}.

End Mock.

(* ===================================================================== *)
(** * Properties                                                          *)
(* ===================================================================== *)

(** Linear arithmetic with [/] and [mod] by constants. *)
Ltac divlia := zify; Z.to_euclidean_division_equations; lia.

(** ** The platform functions on published vectors *)

Section Vectors.
Local Open Scope list_scope.

(** FIPS 180-4, the one-block message. *)
Example sha256_abc :
  Idmsa.toHex (SHA256.sha256 (TextEncoder.encode "abc"))
  = "ba7816bf8f01cfea414140de5dae2223b00361a396177a9cb410ff61f20015ad"%string.
Proof. vm_compute. reflexivity. Qed.

Example sha256_two_blocks :
  Idmsa.toHex (SHA256.sha256
    (TextEncoder.encode "abcdbcdecdefdefgefghfghighijhijkijkljklmklmnlmnomnopnopq"))
  = "248d6a61d20638b8e5c026930c3e6039a33ce45964ff2167f6ecedd419db06c1"%string.
Proof. vm_compute. reflexivity. Qed.

(** RFC 4231, test case 2. *)
Example hmac_sha256_jefe :
  Idmsa.toHex (HMAC.hmac_sha256 (TextEncoder.encode "Jefe")
                 (TextEncoder.encode "what do ya want for nothing?"))
  = "5bdcc146bf60754e6a042426089575c75a003f089d2739839dec58b964ec3843"%string.
Proof. vm_compute. reflexivity. Qed.

(** PBKDF2-HMAC-SHA256, password "password", salt "salt", two iterations. *)
Example pbkdf2_two_iterations :
  Subtle.deriveBits_PBKDF2_SHA256 (TextEncoder.encode "salt") 2
    {| Subtle.raw := TextEncoder.encode "password" |} 256
  = Ok [xae; x4d; x0c; x95; xaf; x6b; x46; xd3; x2d; x0a; xdf; xf9; x28; xf0; x6d; xd0;
        x2a; x30; x3f; x8e; xf3; xc2; x51; xdf; xd6; xe2; xd8; x5a; x95; x47; x4c; x43].
Proof. vm_compute. reflexivity. Qed.

Example deriveBits_no_iterations :
  Subtle.deriveBits_PBKDF2_SHA256 [] 0 {| Subtle.raw := [] |} 256
  = Throw Subtle.OperationError.
Proof. reflexivity. Qed.

(** RFC 4648, section 10, and the forgiving decoder of the HTML standard. *)
Example btoa_foobar :
  (Base64.btoa "f", Base64.btoa "fo", Base64.btoa "foo", Base64.btoa "foobar")
  = (Ok "Zg=="%string, Ok "Zm8="%string, Ok "Zm9v"%string, Ok "Zm9vYmFy"%string).
Proof. vm_compute. reflexivity. Qed.

Example atob_forgiving :
  (Base64.atob " Zm 9v", Base64.atob "Zg", Base64.atob "Zg=")
  = (Ok "foo"%string, Ok "f"%string, Throw Base64.InvalidCharacterError).
Proof. vm_compute. reflexivity. Qed.

(** A code unit above 0x7F takes two bytes. *)
Example utf8_e_acute :
  TextEncoder.encode (String (ascii_of_nat 233) "") = [xc3; xa9].
Proof. vm_compute. reflexivity. Qed.

(** The euro sign U+20AC takes three bytes, the surrogate pair of U+1F600
    four, and a surrogate on its own is encoded as U+FFFD. *)
Example utf8_beyond_Latin1 :
  (TextEncoder.encode_units [8364%Z],
   TextEncoder.encode_units [55357%Z; 56832%Z],
   TextEncoder.encode_units [55357%Z],
   TextEncoder.encode_units [56832%Z; 65%Z])
  = ([xe2; x82; xac], [xf0; x9f; x98; x80], [xef; xbf; xbd], [xef; xbf; xbd; x41]).
Proof. vm_compute. reflexivity. Qed.

(** On the code units below 256 the two encoders are one. *)
Lemma encode_units_units s : TextEncoder.encode_units (units s) = TextEncoder.encode s.
Proof.
  unfold TextEncoder.encode_units, TextEncoder.encode, units.
  induction (list_ascii_of_string s) as [|c l IH]; [reflexivity|].
  cbn [map TextEncoder.scalar_values flat_map].
  assert (0 <= Z.of_N (N_of_ascii c) < 256)%Z as Hc.
  { pose proof (N_ascii_bounded c). lia. }
  assert (TextEncoder.is_lead_surrogate (Z.of_N (N_of_ascii c)) = false) as ->.
  { unfold TextEncoder.is_lead_surrogate. apply andb_false_iff. left. lia. }
  assert (TextEncoder.is_trail_surrogate (Z.of_N (N_of_ascii c)) = false) as ->.
  { unfold TextEncoder.is_trail_surrogate. apply andb_false_iff. left. lia. }
  cbn [flat_map]. rewrite IH. f_equal.
  unfold TextEncoder.utf8, TextEncoder.encode_unit. cbv zeta.
  destruct (Z.ltb_spec (Z.of_N (N_of_ascii c)) 128); [reflexivity|].
  assert ((Z.of_N (N_of_ascii c) <? 2048)%Z = true) as -> by lia.
  reflexivity.
Qed.

Example String_of_array :
  String_ (VArr [VNum 1; VNull; VStr "a"; VArr [VBool true; VNum (-2)]])
  = "1,,a,true,-2"%string.
Proof. vm_compute. reflexivity. Qed.

Example store_front_code :
  Authenticate.before_dash "143441-1,29" = "143441"%string.
Proof. reflexivity. Qed.

End Vectors.

(** ** Base64 round trip *)

Section Base64Facts.
Import Base64.
Local Open Scope N_scope.
Local Open Scope list_scope.

(** A decidable statement about every sextet is checked on the 64 of them. *)
Lemma sextet_cases (f : N -> bool) :
  forallb f (map N.of_nat (seq 0 64)) = true -> forall n, n < 64 -> f n = true.
Proof.
  intros Hf n Hn. rewrite forallb_forall in Hf. apply Hf.
  rewrite <- (N2Nat.id n). apply in_map, in_seq. lia.
Qed.

Lemma decode_encode_sextet n : n < 64 -> decode_sextet (encode_sextet n) = Some n.
Proof.
  intros Hn.
  pose proof (sextet_cases
    (fun n => match decode_sextet (encode_sextet n) with
              | Some m => m =? n
              | None => false
              end) eq_refl n Hn) as H.
  cbn beta in H. destruct (decode_sextet (encode_sextet n)); [|discriminate].
  apply N.eqb_eq in H. congruence.
Qed.

Lemma encode_sextet_not_pad n : n < 64 -> Ascii.eqb (encode_sextet n) pad_char = false.
Proof.
  intros Hn.
  pose proof (sextet_cases
    (fun n => negb (Ascii.eqb (encode_sextet n) pad_char)) eq_refl n Hn) as H.
  apply negb_true_iff in H. exact H.
Qed.

Lemma encode_sextet_not_space n : n < 64 -> is_ascii_whitespace (encode_sextet n) = false.
Proof.
  intros Hn.
  pose proof (sextet_cases
    (fun n => negb (is_ascii_whitespace (encode_sextet n))) eq_refl n Hn) as H.
  apply negb_true_iff in H. exact H.
Qed.

Definition octets (l : list N) : Prop := Forall (fun a => a < 256) l.

(** The encoding of a list of octets is a run of alphabet characters that
    decodes to the list, followed by at most two [=]. *)
Lemma encode_octets_shape l :
  octets l ->
  exists ss k,
    encode_octets l = map encode_sextet ss ++ repeat pad_char k
    /\ Forall (fun s => s < 64) ss
    /\ (k <= 2)%nat
    /\ ((length ss + k) mod 4 = 0)%nat
    /\ decode_sextets ss = l.
Proof.
  assert (forall m (l : list N), (length l <= m)%nat -> octets l ->
    exists ss k,
      encode_octets l = map encode_sextet ss ++ repeat pad_char k
      /\ Forall (fun s => s < 64) ss
      /\ (k <= 2)%nat
      /\ ((length ss + k) mod 4 = 0)%nat
      /\ decode_sextets ss = l) as Hm.
  { induction m as [|m IH]; intros l0 Hlen Hl.
    - destruct l0; [|simpl in Hlen; lia].
      exists [], 0%nat. repeat split; auto.
    - destruct l0 as [|a [|b [|c rest]]].
      + exists [], 0%nat. repeat split; auto.
      + apply Forall_cons_1 in Hl as [Ha _].
        exists [a * 16 / 64; (a * 16) mod 64], 2%nat.
        split; [reflexivity|]. split; [|split; [lia|split; [reflexivity|]]].
        * repeat (apply List.Forall_cons; [cbn beta; divlia|]). apply List.Forall_nil.
        * cbn [decode_sextets]. f_equal. divlia.
      + apply Forall_cons_1 in Hl as [Ha Hl].
        apply Forall_cons_1 in Hl as [Hb _].
        exists [(a * 256 + b) * 4 / 4096; ((a * 256 + b) * 4 / 64) mod 64;
                ((a * 256 + b) * 4) mod 64], 1%nat.
        split; [reflexivity|]. split; [|split; [lia|split; [reflexivity|]]].
        * repeat (apply List.Forall_cons; [cbn beta; divlia|]). apply List.Forall_nil.
        * cbn [decode_sextets]. f_equal; [|f_equal]; divlia.
      + apply Forall_cons_1 in Hl as [Ha Hl].
        apply Forall_cons_1 in Hl as [Hb Hl].
        apply Forall_cons_1 in Hl as [Hc Hl].
        destruct (IH rest) as (ss & k & He & Hss & Hk & Hlen' & Hd);
          [simpl in Hlen; lia | assumption |].
        set (n := a * 65536 + b * 256 + c).
        exists (n / 262144 :: (n / 4096) mod 64 :: (n / 64) mod 64 :: n mod 64 :: ss), k.
        split; [|split; [|split; [assumption|split]]].
        * cbn [encode_octets]. fold n. rewrite He. reflexivity.
        * repeat (apply List.Forall_cons; [subst n; cbn beta; divlia|]). assumption.
        * cbn [length].
          replace (S (S (S (S (length ss)))) + k)%nat
            with (length ss + k + 1 * 4)%nat by lia.
          rewrite Nat.Div0.mod_add. assumption.
        * cbn [decode_sextets]. rewrite Hd. subst n.
          f_equal; [|f_equal; [|f_equal]]; divlia. }
  intros Hl. apply (Hm (length l)); auto.
Qed.

Lemma sextets_encode ss :
  Forall (fun s => s < 64) ss -> sextets (map encode_sextet ss) = Some ss.
Proof.
  induction 1 as [|s ss Hs _ IH]; [reflexivity|].
  cbn [map sextets]. rewrite decode_encode_sextet, IH; auto.
Qed.

Lemma filter_all {A} (f : A -> bool) (l : list A) :
  (forall x, In x l -> f x = true) -> List.filter f l = l.
Proof.
  induction l as [|x l IH]; intros Hl; [reflexivity|].
  cbn [List.filter]. rewrite (Hl x) by (left; reflexivity).
  f_equal. apply IH. intros y Hy. apply Hl. right. exact Hy.
Qed.

Lemma filter_encode ss k :
  Forall (fun s => s < 64) ss ->
  List.filter (fun c => negb (is_ascii_whitespace c))
              (map encode_sextet ss ++ repeat pad_char k)
  = map encode_sextet ss ++ repeat pad_char k.
Proof.
  intros Hss. apply filter_all. intros c Hc.
  apply in_app_or in Hc as [Hc|Hc].
  - apply in_map_iff in Hc as (s & <- & Hs).
    rewrite encode_sextet_not_space; [reflexivity|].
    rewrite Forall_forall in Hss. apply Hss, list_elem_of_In, Hs.
  - apply repeat_spec in Hc. subst c. reflexivity.
Qed.

Lemma rev_repeat {A} (x : A) k : rev (repeat x k) = repeat x k.
Proof.
  induction k as [|k IH]; [reflexivity|].
  cbn [repeat rev]. rewrite IH. symmetry. apply repeat_cons.
Qed.

Lemma strip_padding_encode ss k :
  Forall (fun s => s < 64) ss -> (k <= 2)%nat ->
  ((length ss + k) mod 4 = 0)%nat ->
  strip_padding (map encode_sextet ss ++ repeat pad_char k) = map encode_sextet ss.
Proof.
  intros Hss Hk Hlen. unfold strip_padding.
  rewrite length_app, length_map, repeat_length, Hlen. cbn [Nat.eqb].
  rewrite rev_app_distr, rev_repeat.
  assert (forall p r, rev (map encode_sextet ss) = p :: r ->
                      Ascii.eqb p pad_char = false) as Hlast.
  { intros p r Hr.
    assert (In p (map encode_sextet ss)) as Hin.
    { apply in_rev. rewrite Hr. left. reflexivity. }
    apply in_map_iff in Hin as (s & <- & Hs).
    apply encode_sextet_not_pad. rewrite Forall_forall in Hss.
    apply Hss, list_elem_of_In, Hs. }
  destruct k as [|[|[|k]]]; [| | |lia]; cbn [repeat app].
  - rewrite app_nil_r.
    destruct (rev (map encode_sextet ss)) as [|p [|q r]]; auto;
      rewrite (Hlast _ _ eq_refl); reflexivity.
  - destruct (rev (map encode_sextet ss)) as [|q r] eqn:Hr.
    + apply (f_equal (@rev ascii)) in Hr. rewrite rev_involutive in Hr.
      rewrite Hr. reflexivity.
    + cbn [Ascii.eqb Bool.eqb pad_char]. fold pad_char.
      rewrite (Hlast _ _ eq_refl), <- Hr. apply rev_involutive.
  - cbn [Ascii.eqb Bool.eqb pad_char]. apply rev_involutive.
Qed.

(** [atob] undoes the encoding of any list of octets. *)
Lemma atob_encode_octets l :
  octets l ->
  atob (string_of_list_ascii (encode_octets l))
  = Ok (string_of_list_ascii (map ascii_of_N l)).
Proof.
  intros Hl.
  destruct (encode_octets_shape l Hl) as (ss & k & He & Hss & Hk & Hlen & Hd).
  unfold atob. rewrite list_ascii_of_string_of_list_ascii, He.
  rewrite filter_encode, strip_padding_encode by assumption.
  rewrite length_map.
  assert ((length ss mod 4 =? 1)%nat = false) as ->.
  { apply Nat.eqb_neq. clear -Hk Hlen. divlia. }
  rewrite sextets_encode by assumption. rewrite Hd. reflexivity.
Qed.

End Base64Facts.

Section IdmsaBase64.
Import Idmsa.

Lemma append_empty_r (s : string) : s ++ "" = s.
Proof.
  induction s as [|c s IH]; [reflexivity|].
  change (String c (s ++ "") = String c s). congruence.
Qed.

Lemma append_assoc (s1 s2 s3 : string) : (s1 ++ s2) ++ s3 = s1 ++ (s2 ++ s3).
Proof.
  induction s1 as [|c s1 IH]; [reflexivity|].
  change (String c ((s1 ++ s2) ++ s3) = String c (s1 ++ (s2 ++ s3))). congruence.
Qed.

Lemma binary_of_bytes (buf : Uint8Array) acc :
  fold_left (fun binary x => binary ++ fromCharCode x) buf acc
  = acc ++ string_of_list_ascii (map ascii_of_byte buf).
Proof.
  revert acc. induction buf as [|b buf IH]; intros acc; cbn [fold_left map].
  - cbn. symmetry. apply append_empty_r.
  - rewrite IH, append_assoc. reflexivity.
Qed.

Lemma b64Encode_eq (buf : Uint8Array) :
  b64Encode buf
  = Ok (string_of_list_ascii
          (Base64.encode_octets (map (fun b => N_of_ascii (ascii_of_byte b)) buf))).
Proof.
  unfold b64Encode, Base64.btoa. rewrite binary_of_bytes.
  change ("" ++ ?s) with s.
  rewrite list_ascii_of_string_of_list_ascii, map_map. reflexivity.
Qed.

(** C10. The base64 helpers round-trip: decoding the encoding of a byte
    array returns that byte array, byte for byte. *)
Theorem b64Decode_b64Encode (buf : Uint8Array) :
  (let* str := b64Encode buf in b64Decode str) = Ok buf.
Proof.
  rewrite b64Encode_eq. cbn [bind]. unfold b64Decode.
  rewrite atob_encode_octets.
  - cbn [bind]. rewrite list_ascii_of_string_of_list_ascii, !map_map.
    f_equal. rewrite <- (map_id buf) at 2. apply map_ext. intros b.
    unfold charCodeAt. rewrite ascii_N_embedding. apply byte_of_ascii_of_byte.
  - apply Forall_map, Forall_forall. intros b _. cbn.
    pose proof (N_ascii_bounded (ascii_of_byte b)). lia.
Qed.

End IdmsaBase64.

(** ** The edges of the base64 helpers *)

Section Base64Edges.
Import Base64 Idmsa.
Local Open Scope list_scope.

Lemma encode_octets_length (l : list N) :
  length (encode_octets l) = (4 * ((length l + 2) / 3))%nat.
Proof.
  assert (forall m (l : list N), (length l <= m)%nat ->
            length (encode_octets l) = (4 * ((length l + 2) / 3))%nat) as Hm.
  { induction m as [|m IH]; intros l0 Hlen.
    - destruct l0; [reflexivity | simpl in Hlen; lia].
    - destruct l0 as [|a [|b [|c rest]]]; try reflexivity.
      cbn [encode_octets length]. rewrite IH by (simpl in Hlen; lia).
      replace (S (S (S (length rest))) + 2)%nat with (length rest + 2 + 1 * 3)%nat by lia.
      rewrite Nat.div_add by lia. lia. }
  apply (Hm (length l)). lia.
Qed.

Lemma length_string_of_list_ascii (l : list ascii) :
  String.length (string_of_list_ascii l) = length l.
Proof. induction l as [|c l IH]; [reflexivity|]. cbn. rewrite IH. reflexivity. Qed.

(** X1. The encoding of n bytes is 4 * ceil(n / 3) characters long: every
    three bytes, and a last group of one or two, make four characters. *)
Theorem b64Encode_length (buf : Uint8Array) :
  exists str,
    b64Encode buf = Ok str
    /\ String.length str = (4 * ((length buf + 2) / 3))%nat.
Proof.
  eexists. split; [apply b64Encode_eq|].
  rewrite length_string_of_list_ascii, encode_octets_length, length_map. reflexivity.
Qed.

Lemma sextets_foreign (l : list ascii) ch :
  In ch l -> decode_sextet ch = None -> sextets l = None.
Proof.
  induction l as [|c l IH]; intros Hin Hch; [destruct Hin|].
  cbn [sextets]. destruct Hin as [->|Hin].
  - rewrite Hch. reflexivity.
  - rewrite (IH Hin Hch). destruct (decode_sextet c); reflexivity.
Qed.

Lemma strip_padding_keeps (l : list ascii) ch :
  In ch l -> ch <> pad_char -> In ch (strip_padding l).
Proof.
  intros Hin Hne. unfold strip_padding.
  destruct (length l mod 4 =? 0)%nat; [|exact Hin].
  assert (In ch (rev l)) as Hrev by (apply in_rev; rewrite rev_involutive; exact Hin).
  destruct (rev l) as [|p [|q r]] eqn:Hr; [exact Hin | |].
  - destruct (Ascii.eqb_spec p pad_char) as [->|_]; [|exact Hin].
    destruct Hrev as [<-|[]]. congruence.
  - destruct (Ascii.eqb_spec p pad_char) as [->|_]; [|exact Hin].
    destruct Hrev as [<-|Hrev]; [congruence|].
    destruct (Ascii.eqb_spec q pad_char) as [->|_].
    + destruct Hrev as [<-|Hrev]; [congruence|]. apply in_rev in Hrev. exact Hrev.
    + apply in_rev in Hrev. exact Hrev.
Qed.

(** X2. A string that holds a character which is neither of the base64
    alphabet, nor ASCII white space, nor the padding sign is refused:
    [b64Decode] throws the InvalidCharacterError of [atob]. *)
Theorem b64Decode_rejects (str : string) (ch : ascii) :
  In ch (list_ascii_of_string str) ->
  decode_sextet ch = None ->
  is_ascii_whitespace ch = false ->
  ch <> pad_char ->
  b64Decode str = Throw InvalidCharacterError.
Proof.
  intros Hin Hch Hws Hne. unfold b64Decode, atob.
  set (body := strip_padding _).
  assert (sextets body = None) as Hs.
  { apply (sextets_foreign _ ch); [|exact Hch].
    apply strip_padding_keeps; [|exact Hne].
    apply filter_In. split; [exact Hin|]. rewrite Hws. reflexivity. }
  rewrite Hs. destruct (_ =? _)%nat; reflexivity.
Qed.

Lemma b64Decode_rejects_witness : b64Decode "QU$D" = Throw InvalidCharacterError.
Proof.
  apply (b64Decode_rejects "QU$D" "$"%char).
  - cbn. auto.
  - reflexivity.
  - reflexivity.
  - discriminate.
Defined.

Lemma strip_padding_unpadded ss :
  Forall (fun s => (s < 64)%N) ss ->
  strip_padding (map encode_sextet ss) = map encode_sextet ss.
Proof.
  intros Hss. unfold strip_padding.
  destruct (_ =? _)%nat; [|reflexivity].
  assert (forall p r, rev (map encode_sextet ss) = p :: r ->
                      Ascii.eqb p pad_char = false) as Hlast.
  { intros p r Hr.
    assert (In p (map encode_sextet ss)) as Hin.
    { apply in_rev. rewrite Hr. left. reflexivity. }
    apply in_map_iff in Hin as (s & <- & Hs).
    apply encode_sextet_not_pad. rewrite Forall_forall in Hss.
    apply Hss, list_elem_of_In, Hs. }
  destruct (rev (map encode_sextet ss)) as [|p [|q r]]; auto;
    rewrite (Hlast _ _ eq_refl); reflexivity.
Qed.

Lemma filter_padding ss k :
  Forall (fun s => (s < 64)%N) ss ->
  List.filter (fun c => negb (Ascii.eqb c pad_char))
              (map encode_sextet ss ++ repeat pad_char k)
  = map encode_sextet ss.
Proof.
  intros Hss. rewrite List.filter_app.
  rewrite filter_all.
  - assert (List.filter (fun c => negb (Ascii.eqb c pad_char)) (repeat pad_char k) = [])
      as ->; [|apply app_nil_r].
    induction k as [|k IH]; [reflexivity|]. cbn [repeat List.filter].
    rewrite Ascii.eqb_refl. exact IH.
  - intros c Hc. apply in_map_iff in Hc as (s & <- & Hs).
    rewrite encode_sextet_not_pad; [reflexivity|].
    rewrite Forall_forall in Hss. apply Hss, list_elem_of_In, Hs.
Qed.

(** X3. Decoding is forgiving: the encoding of a byte array decodes to
    that array also when its padding has been taken off and when ASCII
    white space has been put anywhere into it. *)
Theorem b64Decode_forgiving (buf : Uint8Array) (str str' : string) :
  b64Encode buf = Ok str ->
  (let kept :=
     List.filter (fun c => negb (is_ascii_whitespace c)) (list_ascii_of_string str') in
   kept = list_ascii_of_string str
   \/ kept = List.filter (fun c => negb (Ascii.eqb c pad_char)) (list_ascii_of_string str)) ->
  b64Decode str' = Ok buf.
Proof.
  rewrite b64Encode_eq. intros Henc Hkept. injection Henc as <-. cbv zeta in Hkept.
  rewrite list_ascii_of_string_of_list_ascii in Hkept.
  set (l := map (fun b => N_of_ascii (ascii_of_byte b)) buf) in *.
  assert (octets l) as Hl.
  { apply Forall_map, Forall_forall. intros b _. cbn.
    pose proof (N_ascii_bounded (ascii_of_byte b)). lia. }
  destruct (encode_octets_shape l Hl) as (ss & k & He & Hss & Hk & Hlen & Hd).
  rewrite He, filter_padding in Hkept by assumption.
  assert (strip_padding
            (List.filter (fun c => negb (is_ascii_whitespace c)) (list_ascii_of_string str'))
          = map encode_sextet ss) as Hbody.
  { destruct Hkept as [-> | ->].
    - apply strip_padding_encode; assumption.
    - apply strip_padding_unpadded; assumption. }
  unfold b64Decode, atob. rewrite Hbody, length_map.
  assert ((length ss mod 4 =? 1)%nat = false) as ->.
  { apply Nat.eqb_neq. clear -Hk Hlen. divlia. }
  rewrite sextets_encode by assumption. rewrite Hd.
  cbn [bind]. rewrite list_ascii_of_string_of_list_ascii. subst l. rewrite !map_map.
  f_equal. rewrite <- (map_id buf) at 2. apply map_ext. intros b.
  unfold charCodeAt. rewrite ascii_N_embedding. apply byte_of_ascii_of_byte.
Qed.

Lemma b64Decode_forgiving_witness :
  b64Decode " AAEC Aw " = Ok [x00; x01; x02; x03].
Proof.
  apply (b64Decode_forgiving [x00; x01; x02; x03] "AAECAw==" " AAEC Aw ").
  - reflexivity.
  - right. reflexivity.
Defined.

End Base64Edges.

(** ** Password derivation *)

Section CryptoFacts.
Local Open Scope list_scope.

Lemma be_bytes_length width x : length (SHA256.be_bytes width x) = width.
Proof. unfold SHA256.be_bytes. rewrite length_map, length_rev. apply length_seq. Qed.

Lemma sha256_length msg : length (SHA256.sha256 msg) = 32%nat.
Proof.
  unfold SHA256.sha256, SHA256.output.
  rewrite !length_app, !be_bytes_length. reflexivity.
Qed.

Lemma hmac_sha256_length key text : length (HMAC.hmac_sha256 key text) = 32%nat.
Proof. apply sha256_length. Qed.

Section PBKDF2Length.
Variable PRF : list byte -> list byte -> list byte.
Variable hLen : nat.
Hypothesis PRF_length : forall k m, length (PRF k m) = hLen.

Lemma xor_bytes_length x y :
  length x = hLen -> length y = hLen -> length (PBKDF2.xor_bytes x y) = hLen.
Proof.
  intros Hx Hy. unfold PBKDF2.xor_bytes.
  rewrite length_map, length_combine. lia.
Qed.

Lemma iterate_length n P u acc :
  length acc = hLen -> length (PBKDF2.iterate PRF n P u acc) = hLen.
Proof.
  revert u acc. induction n as [|n IH]; intros u acc Hacc; [exact Hacc|].
  cbn [PBKDF2.iterate]. apply IH, xor_bytes_length; auto.
Qed.

Lemma F_length P S c i : length (PBKDF2.F PRF P S c i) = hLen.
Proof. unfold PBKDF2.F. apply iterate_length, PRF_length. Qed.

Lemma blocks_length P S c (l : list nat) :
  length (flat_map (fun i => PBKDF2.F PRF P S c i) l) = (length l * hLen)%nat.
Proof.
  induction l as [|i l IH]; [reflexivity|].
  cbn [flat_map length]. rewrite length_app, F_length, IH. lia.
Qed.

(** The derived key has the length asked for. *)
Lemma pbkdf2_length P S c dkLen :
  (0 < hLen)%nat -> length (PBKDF2.pbkdf2 PRF hLen P S c dkLen) = dkLen.
Proof.
  intros Hh. unfold PBKDF2.pbkdf2.
  rewrite length_firstn, blocks_length, length_seq.
  apply Nat.min_l.
  pose proof (Nat.div_mod (dkLen + hLen - 1) hLen ltac:(lia)) as Hd.
  pose proof (Nat.mod_upper_bound (dkLen + hLen - 1) hLen ltac:(lia)).
  nia.
Qed.
End PBKDF2Length.

End CryptoFacts.

Section DerivePassword.
Import Idmsa.
Local Open Scope Z_scope.

Lemma derivePassword_eq protocol password salt iterations :
  0 < iterations <= 4294967295 ->
  derivePassword protocol password salt iterations
  = Ok (Spec.derive protocol password salt iterations).
Proof.
  intros [Hlo Hhi].
  unfold derivePassword, Subtle.importKey_PBKDF2, Subtle.deriveBits_PBKDF2_SHA256.
  cbn [bind Subtle.raw].
  assert ((iterations <? 0) = false) as -> by lia.
  assert ((4294967295 <? iterations) = false) as -> by lia.
  assert ((iterations =? 0) = false) as -> by lia.
  cbn [orb negb]. change (256 <=? 0) with false. change (256 mod 8 =? 0) with true.
  cbn [orb negb bind].
  unfold Spec.derive, Spec.pbkdf2_sha256_32, Spec.key_material, Subtle.digest_SHA256.
  change (Z.to_nat (256 / 8)) with 32%nat.
  destruct protocol; reflexivity.
Qed.

Lemma derive_length protocol password salt iterations :
  length (Spec.derive protocol password salt iterations) = 32%nat.
Proof. apply pbkdf2_length; [apply hmac_sha256_length | lia]. Qed.

(** C8, as the code has it. For every password (any sequence of UTF-16
    code units), every salt and every iteration count from 1 to 2^32 - 1,
    the counts [deriveBits] takes, [derivePassword] returns exactly 32
    bytes: PBKDF2-SHA-256 with the salt and the iterations given, over
    SHA256(UTF8(password)) for s2k and over the UTF-8 of its lowercase
    hexadecimal for s2k_fo. For an iteration count beyond 2^32 - 1 it
    returns nothing and throws the TypeError of [deriveBits]. *)
Theorem derivePassword_spec protocol password salt iterations :
  (0 < iterations <= 4294967295 ->
   exists key,
     derivePassword protocol password salt iterations = Ok key
     /\ length key = 32%nat
     /\ key = Spec.pbkdf2_sha256_32
                (match protocol with
                 | s2k => SHA256.sha256 (TextEncoder.encode_units password)
                 | s2k_fo =>
                     TextEncoder.encode
                       (toHex (SHA256.sha256 (TextEncoder.encode_units password)))
                 end) salt iterations)
  /\ (4294967295 < iterations ->
      derivePassword protocol password salt iterations
      = Throw (OtherError "TypeError" "Value is outside the 'unsigned long' value range.")).
Proof.
  split.
  - intros Hit. eexists. split; [apply derivePassword_eq, Hit|]. split.
    + apply derive_length.
    + unfold Spec.derive, Spec.key_material. destruct protocol; reflexivity.
  - intros Hit.
    unfold derivePassword, Subtle.importKey_PBKDF2, Subtle.deriveBits_PBKDF2_SHA256.
    cbn [bind Subtle.raw].
    assert ((iterations =? 0) = false) as -> by lia.
    assert ((iterations <? 0) = false) as -> by lia.
    assert ((4294967295 <? iterations) = true) as -> by lia.
    reflexivity.
Qed.

(** The password here is "pass", a sharp s, the euro sign and U+1F600. *)
Lemma derivePassword_spec_witness :
  exists key,
    derivePassword s2k_fo [112; 97; 115; 115; 223; 8364; 55357; 56832]
                   [x01; x02; x03; x04] 20000 = Ok key
    /\ length key = 32%nat
    /\ key = Spec.pbkdf2_sha256_32
               (TextEncoder.encode
                  (toHex (SHA256.sha256
                     (TextEncoder.encode_units
                        [112; 97; 115; 115; 223; 8364; 55357; 56832]))))
               [x01; x02; x03; x04] 20000.
Proof.
  apply (proj1 (derivePassword_spec s2k_fo [112; 97; 115; 115; 223; 8364; 55357; 56832]
                  [x01; x02; x03; x04] 20000)).
  lia.
Defined.

(** Against C8 as written: 2^32 is a positive iteration count, and
    [derivePassword] returns no bytes for it. [deriveBits] takes the count
    as an unsigned long and throws a TypeError for one beyond 2^32 - 1,
    which [derivePassword] lets through. *)
Lemma derivePassword_beyond_unsigned_long :
  0 < 4294967296
  /\ derivePassword s2k (units "hunter2") [x01; x02; x03; x04] 4294967296
     = Throw (OtherError "TypeError" "Value is outside the 'unsigned long' value range.")
  /\ derivePassword s2k_fo (units "hunter2") [x01; x02; x03; x04] 4294967296
     = Throw (OtherError "TypeError" "Value is outside the 'unsigned long' value range.")
  /\ forall protocol key,
       derivePassword protocol (units "hunter2") [x01; x02; x03; x04] 4294967296 <> Ok key.
Proof.
  split; [lia|]. split; [vm_compute; reflexivity|]. split; [vm_compute; reflexivity|].
  intros [|] key; vm_compute; discriminate.
Qed.

End DerivePassword.

(** *** The iteration count *)

Section DerivePasswordEdges.
Import Idmsa.
Local Open Scope Z_scope.

(** X4. [derivePassword] checks nothing itself: an iteration count that is
    no positive unsigned long is refused by [deriveBits], and that is what
    it throws, an OperationError for zero and a TypeError for a count below
    zero or above 2^32 - 1. *)
Theorem derivePassword_refuses protocol password salt iterations :
  ~ (0 < iterations <= 4294967295) ->
  derivePassword protocol password salt iterations
  = Throw (if iterations =? 0 then Subtle.OperationError
           else OtherError "TypeError" "Value is outside the 'unsigned long' value range.").
Proof.
  intros Hout.
  unfold derivePassword, Subtle.importKey_PBKDF2, Subtle.deriveBits_PBKDF2_SHA256.
  cbn [bind Subtle.raw].
  destruct (Z.eqb_spec iterations 0) as [->|Hzero]; [reflexivity|].
  assert ((iterations <? 0) || (4294967295 <? iterations) = true) as ->; [|reflexivity].
  apply orb_true_iff.
  destruct (Z.ltb_spec iterations 0); [left; reflexivity|]. right. apply Z.ltb_lt. lia.
Qed.

Lemma derivePassword_refuses_witness :
  derivePassword s2k (units "hunter2") [x01; x02; x03; x04] 0 = Throw Subtle.OperationError.
Proof.
  apply (derivePassword_refuses s2k (units "hunter2") [x01; x02; x03; x04] 0). lia.
Defined.

End DerivePasswordEdges.

(** ** The identity-provider client *)

Section IdmsaFacts.
Import Idmsa.
Local Open Scope Z_scope.

Lemma mbind_lift_Ok {A B} (r : Result A) (a : A) (k : A -> M B) w :
  r = Ok a -> mbind (lift r) k w = k a w.
Proof. intros ->. reflexivity. Qed.

Lemma mbind_lift_Throw {A B} (r : Result A) e (k : A -> M B) w :
  r = Throw e -> mbind (lift r) k w = (Throw e, w).
Proof. intros ->. reflexivity. Qed.


(** [idmsaHeaders] draws one UUID and touches nothing else. *)
Lemma idmsaHeaders_run env session w :
  exists headers,
    idmsaHeaders env session w
    = (Ok headers, {| calls := calls w; uuids := S (uuids w); heap := heap w |}).
Proof.
  unfold idmsaHeaders, mbind, crypto_randomUUID.
  destruct session; eexists; reflexivity.
Qed.

Lemma b64Encode_Ok buf : exists str, b64Encode buf = Ok str.
Proof. eexists. apply b64Encode_eq. Qed.

Lemma flag_set_eq data flag :
  Spec.flag_set data flag = is_true (get_opt (get_opt data "securityCode") flag).
Proof.
  destruct data; try reflexivity. cbn [Spec.flag_set get_opt].
  destruct (lookup_prop "securityCode" props); reflexivity.
Qed.

(** C6. Whatever the identity provider answers, the cooldown reported is
    the union of the two flags of the response: it is on exactly when the
    explicit cooldown flag or the too-many-codes flag is set. *)
Theorem cooldown_is_union env session w resp data phones :
  (forall hist req,
      Request.path req = "/appleauth/auth" -> transport env hist req = Ok resp) ->
  Response.status resp = 200 ->
  JSON_parse env (Response.body resp) = Ok data ->
  nullish data = false ->
  array_map toPhone (coalesce (get_opt data "trustedPhoneNumbers") (VArr [])) = Ok phones ->
  exists result,
    fst (idmsaGetPhoneNumbers env session w) = Ok result
    /\ trustedPhoneNumbers result = phones
    /\ tooManyCodesSent result = Spec.flag_set data "tooManyCodesSent"
    /\ securityCodeCooldown result
       = Spec.flag_set data "securityCodeCooldown" || Spec.flag_set data "tooManyCodesSent".
Proof.
  intros Htr Hstatus Hparse Hdata Hphones.
  unfold idmsaGetPhoneNumbers. unfold mbind at 1.
  destruct (idmsaHeaders_run env (Some session) w) as [headers ->].
  unfold mbind at 1. unfold appleRequest at 1. cbn [calls].
  rewrite Htr by reflexivity. rewrite Hstatus. cbn [Z.eqb Pos.eqb negb].
  rewrite (mbind_lift_Ok _ _ _ _ Hparse).
  assert (get data "trustedPhoneNumbers" = Ok (get_opt data "trustedPhoneNumbers")) as Hget.
  { unfold get. rewrite Hdata. reflexivity. }
  rewrite (mbind_lift_Ok _ _ _ _ Hget), (mbind_lift_Ok _ _ _ _ Hphones).
  eexists. split; [reflexivity|]. cbn [trustedPhoneNumbers tooManyCodesSent securityCodeCooldown].
  rewrite !flag_set_eq. split; [reflexivity|]. split; [reflexivity|].
  apply orb_comm.
Qed.

Lemma cooldown_is_union_witness :
  exists result,
    fst (idmsaGetPhoneNumbers
           (Mock.env (Mock.always (Mock.response 200 [] "{}")) Mock.too_many_codes
                     (Throw (Error "unused")))
           {| sessionId := "S1"; scnt := "T1" |} Mock.empty_world) = Ok result
    /\ tooManyCodesSent result = true
    /\ securityCodeCooldown result = true.
Proof.
  destruct (cooldown_is_union
              (Mock.env (Mock.always (Mock.response 200 [] "{}")) Mock.too_many_codes
                        (Throw (Error "unused")))
              {| sessionId := "S1"; scnt := "T1" |} Mock.empty_world
              (Mock.response 200 [] "{}") Mock.too_many_codes
              [{| id := VNum 1; numberWithDialCode := VStr "+1 (***) ***-**42";
                  pushMode := VStr "sms" |}])
    as (result & Hresult & _ & Htoo & Hcool).
  - intros hist req _. reflexivity.
  - reflexivity.
  - reflexivity.
  - reflexivity.
  - reflexivity.
  - exists result. split; [exact Hresult|]. split.
    + rewrite Htoo. reflexivity.
    + rewrite Hcool. reflexivity.
Defined.

(** X5. The proofs are computed before /signin/complete is called: when
    the package refuses to generate them, its failure is what [idmsaSignin]
    throws, and the only request made is the one to /signin/init. *)
Lemma generate_failure_propagates env email password w cl initResp initData saltBytes serverB e :
  newClient (srp env) (TextEncoder.encode email) [] = Ok cl ->
  (forall hist req,
      Request.path req = "/appleauth/auth/signin/init" ->
      transport env hist req = Ok initResp) ->
  Response.status initResp = 200 ->
  JSON_parse_init env (Response.body initResp) = Ok initData ->
  b64Decode (salt initData) = Ok saltBytes ->
  b64Decode (b initData) = Ok serverB ->
  0 < iteration initData <= 4294967295 ->
  (forall key, generate (srp env) (set_p (srp env) cl key) saltBytes serverB = Throw e) ->
  exists req,
    idmsaSignin env email password w
    = (Throw e, {| calls := calls w ++ [(req, Ok initResp)];
                   uuids := S (uuids w); heap := heap w |})
    /\ Request.path req = "/appleauth/auth/signin/init".
Proof.
  intros Hnew Hinit Hstatus Hparse Hsalt Hb Hiter Hgen.
  unfold idmsaSignin.
  rewrite (mbind_lift_Ok _ _ _ _ Hnew).
  unfold mbind at 1. destruct (idmsaHeaders_run env None w) as [headers ->].
  destruct (b64Encode_Ok (bytesFromBigint (srp env) (client_A (srp env) cl))) as [a Ha].
  rewrite (mbind_lift_Ok _ _ _ _ Ha).
  unfold mbind at 1. unfold appleRequest at 1. cbn [calls uuids heap].
  rewrite Hinit by reflexivity. rewrite Hstatus. cbn [Z.eqb Pos.eqb negb].
  rewrite (mbind_lift_Ok _ _ _ _ Hparse).
  rewrite (mbind_lift_Ok _ _ _ _ Hsalt), (mbind_lift_Ok _ _ _ _ Hb).
  rewrite (mbind_lift_Ok _ _ _ _ (derivePassword_eq _ _ _ _ Hiter)).
  rewrite (mbind_lift_Throw _ _ _ _ (Hgen _)).
  eexists. split; reflexivity.
Qed.



End IdmsaFacts.

(** ** The calls of the identity-provider client *)

Section IdmsaCalls.
Import Idmsa.
Local Open Scope Z_scope.
Local Open Scope list_scope.

Lemma idmsaHeaders_lookup env session w :
  exists headers,
    idmsaHeaders env session w
    = (Ok headers, {| calls := calls w; uuids := S (uuids w); heap := heap w |})
    /\ headers !! "X-Apple-ID-Session-Id" = option_map sessionId session
    /\ headers !! "scnt" = option_map scnt session
    /\ headers !! "X-Apple-OAuth-State" = Some ("auth-" +:+ randomUUID env (uuids w)).
Proof.
  unfold idmsaHeaders, mbind, crypto_randomUUID.
  destruct session as [session|]; eexists; (split; [reflexivity|]).
  - split; [|split].
    + vm_compute. reflexivity.
    + vm_compute. reflexivity.
    + vm_compute. reflexivity.
  - repeat split; vm_compute; reflexivity.
Qed.

(** Steps of a computation that leave the world alone. *)
Ltac run_pure :=
  repeat first
    [ progress cbn [snd fst calls uuids heap]
    | progress unfold mbind, lift, ret, throw
    | match goal with
      | |- context [match ?x with _ => _ end] =>
          lazymatch x with
          | context [match _ with _ => _ end] => fail
          | _ => destruct x
          end
      end ].

Lemma idmsaGetPhoneNumbers_log env session w :
  exists req,
    in_session session "GET" "/appleauth/auth" req
    /\ logged_once env w (snd (idmsaGetPhoneNumbers env session w)) req.
Proof.
  unfold idmsaGetPhoneNumbers. unfold mbind at 1.
  destruct (idmsaHeaders_lookup env (Some session) w) as (headers & -> & Hsid & Hscnt & _).
  unfold mbind at 1. unfold appleRequest at 1.
  match goal with |- context [transport env _ ?req] => exists req end.
  split; [repeat split; assumption|].
  unfold logged_once. cbn [calls uuids heap].
  match goal with
  | |- context [transport env ?hist ?req] => generalize (transport env hist req)
  end.
  intros answer. run_pure; repeat split; reflexivity.
Qed.

Lemma idmsaRequestSms_run env session phoneId w :
  exists req,
    in_session session "PUT" "/appleauth/auth/verify/phone" req
    /\ Request.body req
       = Some (JSON_stringify env
                 (VObj [("phoneNumber", VObj [("id", phoneId)]); ("mode", VStr "sms")]))
    /\ idmsaRequestSms env session phoneId w
       = (match transport env (map fst (calls w)) req with
          | Ok resp =>
              if negb (Response.status resp =? 200) && negb (Response.status resp =? 202)
              then Throw (http_failure "IDMSA SMS request" resp)
              else Ok tt
          | Throw e => Throw e
          end,
          {| calls := calls w ++ [(req, transport env (map fst (calls w)) req)];
             uuids := S (uuids w); heap := heap w |}).
Proof.
  unfold idmsaRequestSms. unfold mbind at 1.
  destruct (idmsaHeaders_lookup env (Some session) w) as (headers & -> & Hsid & Hscnt & _).
  unfold mbind at 1. unfold appleRequest at 1.
  match goal with |- context [transport env _ ?req] => exists req end.
  split; [repeat split; assumption|]. split; [reflexivity|].
  cbn [calls uuids heap Request.body].
  match goal with
  | |- context [transport env ?hist ?req] => destruct (transport env hist req) as [resp|e]
  end; [|reflexivity].
  unfold throw, ret. destruct (_ && _); reflexivity.
Qed.

Lemma idmsaVerifySmsCode_run env session phoneId code w :
  exists req,
    in_session session "POST" "/appleauth/auth/verify/phone/securitycode" req
    /\ Request.body req
       = Some (JSON_stringify env
                 (VObj [("phoneNumber", VObj [("id", phoneId)]);
                        ("securityCode", VObj [("code", VStr code)]);
                        ("mode", VStr "sms")]))
    /\ idmsaVerifySmsCode env session phoneId code w
       = (match transport env (map fst (calls w)) req with
          | Ok resp =>
              if negb (Response.status resp =? 200) && negb (Response.status resp =? 204)
              then Throw (http_failure "IDMSA SMS verify" resp)
              else Ok tt
          | Throw e => Throw e
          end,
          {| calls := calls w ++ [(req, transport env (map fst (calls w)) req)];
             uuids := S (uuids w); heap := heap w |}).
Proof.
  unfold idmsaVerifySmsCode. unfold mbind at 1.
  destruct (idmsaHeaders_lookup env (Some session) w) as (headers & -> & Hsid & Hscnt & _).
  unfold mbind at 1. unfold appleRequest at 1.
  match goal with |- context [transport env _ ?req] => exists req end.
  split; [repeat split; assumption|]. split; [reflexivity|].
  cbn [calls uuids heap Request.body].
  match goal with
  | |- context [transport env ?hist ?req] => destruct (transport env hist req) as [resp|e]
  end; [|reflexivity].
  unfold throw, ret. destruct (_ && _); reflexivity.
Qed.

Lemma idmsaGetTrustToken_run env session w :
  exists req,
    in_session session "GET" "/appleauth/auth/2sv/trust" req
    /\ idmsaGetTrustToken env session w
       = (match transport env (map fst (calls w)) req with
          | Ok resp =>
              if negb (Response.status resp =? 200) && negb (Response.status resp =? 204)
              then Throw (http_failure "IDMSA trust token request" resp)
              else Ok (default ""%string (Response.headers resp !! "x-apple-twosv-trust-token"))
          | Throw e => Throw e
          end,
          {| calls := calls w ++ [(req, transport env (map fst (calls w)) req)];
             uuids := S (uuids w); heap := heap w |}).
Proof.
  unfold idmsaGetTrustToken. unfold mbind at 1.
  destruct (idmsaHeaders_lookup env (Some session) w) as (headers & -> & Hsid & Hscnt & _).
  unfold mbind at 1. unfold appleRequest at 1.
  match goal with |- context [transport env _ ?req] => exists req end.
  split; [repeat split; assumption|].
  cbn [calls uuids heap].
  match goal with
  | |- context [transport env ?hist ?req] => destruct (transport env hist req) as [resp|e]
  end; [|reflexivity].
  unfold throw, ret. destruct (_ && _); reflexivity.
Qed.

(** X6. Each of the four calls made within a session (the phone list, the
    SMS request, the code verification, the trust token) makes exactly one
    request, to idmsa.apple.com with its own method and path, carrying the
    session id and scnt of the session as headers and no cookies, and draws
    one UUID, whatever the answer. *)
Theorem session_calls_carry_session env session phoneId code w :
  (exists req,
      in_session session "GET" "/appleauth/auth" req
      /\ logged_once env w (snd (idmsaGetPhoneNumbers env session w)) req)
  /\ (exists req,
        in_session session "PUT" "/appleauth/auth/verify/phone" req
        /\ logged_once env w (snd (idmsaRequestSms env session phoneId w)) req)
  /\ (exists req,
        in_session session "POST" "/appleauth/auth/verify/phone/securitycode" req
        /\ logged_once env w (snd (idmsaVerifySmsCode env session phoneId code w)) req)
  /\ (exists req,
        in_session session "GET" "/appleauth/auth/2sv/trust" req
        /\ logged_once env w (snd (idmsaGetTrustToken env session w)) req).
Proof.
  split; [apply idmsaGetPhoneNumbers_log|]. split; [|split].
  - destruct (idmsaRequestSms_run env session phoneId w) as (req & Hreq & _ & ->).
    exists req. split; [exact Hreq|]. repeat split.
  - destruct (idmsaVerifySmsCode_run env session phoneId code w) as (req & Hreq & _ & ->).
    exists req. split; [exact Hreq|]. repeat split.
  - destruct (idmsaGetTrustToken_run env session w) as (req & Hreq & ->).
    exists req. split; [exact Hreq|]. repeat split.
Qed.

(** Case analysis on a run, until its result is plain. *)
Ltac run_M H :=
  unfold idmsaHeaders, crypto_randomUUID, appleRequest, mbind, lift, ret, throw in H;
  repeat first
    [ progress cbn beta iota in H
    | progress cbn [calls uuids heap] in H
    | match type of H with
      | context [match ?x with _ => _ end] =>
          lazymatch x with
          | context [match _ with _ => _ end] => fail
          | _ => destruct x eqn:?
          end
      end ].

(** The exchanges a run of [idmsaSignin] logs. *)
Lemma idmsaSignin_log env email password w :
  exists exchanges,
    calls (snd (idmsaSignin env email password w)) = calls w ++ exchanges
    /\ (length exchanges <= 2)%nat
    /\ Forall signin_exchange exchanges
    /\ heap (snd (idmsaSignin env email password w)) = heap w
    /\ (forall session, fst (idmsaSignin env email password w) = Ok session ->
                        length exchanges = 2%nat).
Proof.
  destruct (idmsaSignin env email password w) as [result w'] eqn:Hrun.
  unfold idmsaSignin in Hrun. run_M Hrun; injection Hrun as <- <-; cbn [snd fst calls heap].
  all: try (exists []; rewrite app_nil_r;
            repeat split; auto; try discriminate; apply List.Forall_nil).
  all: try (eexists [_]; split; [reflexivity|]; split; [cbn; lia|];
            split; [repeat constructor|]; split; [reflexivity|]; discriminate).
  all: eexists [_; _]; split; [rewrite <- app_assoc; reflexivity|]; split; [cbn; lia|];
       split; [repeat constructor|]; split; [reflexivity|]; reflexivity.
Qed.

(** X7. Whatever happens, [idmsaSignin] makes at most two requests, both
    POSTs to idmsa.apple.com without cookies, and leaves the cookie arrays
    alone; when it returns a session it has made exactly two. *)
Theorem idmsaSignin_requests env email password w :
  exists exchanges,
    calls (snd (idmsaSignin env email password w)) = calls w ++ exchanges
    /\ (length exchanges <= 2)%nat
    /\ Forall (fun x => Request.host (fst x) = "idmsa.apple.com"%string
                        /\ Request.method (fst x) = "POST"%string
                        /\ Request.cookies (fst x) = None) exchanges
    /\ heap (snd (idmsaSignin env email password w)) = heap w
    /\ (forall session, fst (idmsaSignin env email password w) = Ok session ->
                        length exchanges = 2%nat).
Proof.
  destruct (idmsaSignin_log env email password w)
    as (exchanges & Hlog & Hlen & Hall & Hheap & Hok).
  exists exchanges. repeat split; auto.
  eapply List.Forall_impl; [|exact Hall].
  intros x (Hhost & Hmethod & Hcookies & _). auto.
Qed.

Lemma readSession_Ok completeResp session :
  readSession completeResp = Ok session ->
  (Response.status completeResp = 200 \/ Response.status completeResp = 409)
  /\ Response.headers completeResp !! "x-apple-id-session-id" = Some (sessionId session)
  /\ Response.headers completeResp !! "scnt" = Some (scnt session)
  /\ sessionId session <> ""%string
  /\ scnt session <> ""%string.
Proof.
  unfold readSession.
  destruct (Z.eqb_spec (Response.status completeResp) 409) as [H409|H409];
    destruct (Z.eqb_spec (Response.status completeResp) 200) as [H200|H200];
    cbn [negb andb]; try discriminate.
  all: destruct (Response.headers completeResp !! "x-apple-id-session-id") as [sid|];
    [|destruct (Response.headers completeResp !! "scnt"); discriminate].
  all: destruct (Response.headers completeResp !! "scnt") as [tok|]; [|discriminate].
  all: destruct (String.eqb_spec sid "") as [|Hsid]; [discriminate|].
  all: destruct (String.eqb_spec tok "") as [|Htok]; [discriminate|].
  all: cbn [orb]; intros H; injection H as <-; cbn [sessionId scnt]; auto.
Qed.

(** X8. A session is only ever returned from an answer to
    /signin/complete: when [idmsaSignin] returns one, it has logged the
    exchange with /signin/init (answered 200) and then the one with
    /signin/complete (answered 200 or 409), and the session holds the two
    headers of that last answer, neither of them empty. *)
Theorem idmsaSignin_session_origin env email password w session w' :
  idmsaSignin env email password w = (Ok session, w') ->
  exists initReq initResp completeReq completeResp,
    calls w' = calls w ++ [(initReq, Ok initResp); (completeReq, Ok completeResp)]
    /\ Request.path initReq = "/appleauth/auth/signin/init"%string
    /\ Request.path completeReq
       = "/appleauth/auth/signin/complete?isRememberMeEnabled=true"%string
    /\ Response.status initResp = 200
    /\ (Response.status completeResp = 200 \/ Response.status completeResp = 409)
    /\ Response.headers completeResp !! "x-apple-id-session-id" = Some (sessionId session)
    /\ Response.headers completeResp !! "scnt" = Some (scnt session)
    /\ sessionId session <> ""%string
    /\ scnt session <> ""%string.
Proof.
  intros Hrun. unfold idmsaSignin in Hrun. run_M Hrun; try discriminate.
  injection Hrun as Hsession <-. cbn [calls].
  match goal with
  | H : negb (Response.status _ =? 200) = false |- _ =>
      apply negb_false_iff, Z.eqb_eq in H; rename H into Hinit
  end.
  eexists _, _, _, _. split; [rewrite <- app_assoc; reflexivity|].
  split; [reflexivity|]. split; [reflexivity|]. split; [exact Hinit|].
  apply readSession_Ok, Hsession.
Qed.

(** X9. When /signin/init answers with a status other than 200, the call
    fails with the status and status text in its message, after that one
    request: nothing is derived and /signin/complete is not called. *)
Theorem idmsaSignin_init_rejected env email password w cl initResp :
  newClient (srp env) (TextEncoder.encode email) [] = Ok cl ->
  (forall req, transport env (map fst (calls w)) req = Ok initResp) ->
  Response.status initResp <> 200 ->
  exists req,
    idmsaSignin env email password w
    = (Throw (Error ("IDMSA signin/init failed: HTTP "
                       +:+ decimal (Response.status initResp)
                       +:+ " " +:+ Response.statusText initResp)),
       {| calls := calls w ++ [(req, Ok initResp)];
          uuids := S (uuids w); heap := heap w |})
    /\ Request.host req = "idmsa.apple.com"%string
    /\ Request.method req = "POST"%string
    /\ Request.path req = "/appleauth/auth/signin/init"%string.
Proof.
  intros Hnew Hinit Hstatus.
  unfold idmsaSignin.
  rewrite (mbind_lift_Ok _ _ _ _ Hnew).
  unfold mbind at 1. destruct (idmsaHeaders_run env None w) as [headers ->].
  destruct (b64Encode_Ok (bytesFromBigint (srp env) (client_A (srp env) cl))) as [a Ha].
  rewrite (mbind_lift_Ok _ _ _ _ Ha).
  unfold mbind at 1. unfold appleRequest at 1. cbn [calls uuids heap].
  rewrite Hinit. apply Z.eqb_neq in Hstatus. rewrite Hstatus. cbn [negb].
  eexists. split; [reflexivity|]. repeat split.
Qed.

(** X10. When the salt or the server ephemeral of the /signin/init answer
    is no base64, or the key cannot be derived (an iteration count of zero,
    say), that failure is what [idmsaSignin] throws, and the only request
    made is the one to /signin/init. *)
Theorem idmsaSignin_bad_challenge env email password w cl initResp initData e :
  newClient (srp env) (TextEncoder.encode email) [] = Ok cl ->
  (forall req, transport env (map fst (calls w)) req = Ok initResp) ->
  Response.status initResp = 200 ->
  JSON_parse_init env (Response.body initResp) = Ok initData ->
  (let* saltBytes := b64Decode (salt initData) in
   let* _ := b64Decode (b initData) in
   derivePassword (protocol initData) (units password) saltBytes (iteration initData)) = Throw e ->
  exists req,
    idmsaSignin env email password w
    = (Throw e, {| calls := calls w ++ [(req, Ok initResp)];
                   uuids := S (uuids w); heap := heap w |})
    /\ Request.path req = "/appleauth/auth/signin/init"%string.
Proof.
  intros Hnew Hinit Hstatus Hparse Hfail.
  unfold idmsaSignin.
  rewrite (mbind_lift_Ok _ _ _ _ Hnew).
  unfold mbind at 1. destruct (idmsaHeaders_run env None w) as [headers ->].
  destruct (b64Encode_Ok (bytesFromBigint (srp env) (client_A (srp env) cl))) as [a Ha].
  rewrite (mbind_lift_Ok _ _ _ _ Ha).
  unfold mbind at 1. unfold appleRequest at 1. cbn [calls uuids heap].
  rewrite Hinit. rewrite Hstatus. cbn [Z.eqb Pos.eqb negb].
  rewrite (mbind_lift_Ok _ _ _ _ Hparse).
  eexists. split.
  - unfold mbind, lift.
    destruct (b64Decode (salt initData)) as [saltBytes|e1]; cbn [bind] in Hfail;
      [|injection Hfail as <-; reflexivity].
    destruct (b64Decode (b initData)) as [serverB|e2]; cbn [bind] in Hfail;
      [|injection Hfail as <-; reflexivity].
    rewrite Hfail. reflexivity.
  - reflexivity.
Qed.

Lemma mapR_toPhone items :
  forallb (fun p => negb (nullish p)) items = true ->
  mapR toPhone items = Ok (map phone_of items).
Proof.
  induction items as [|p items IH]; [reflexivity|].
  cbn [forallb]. intros H. apply andb_true_iff in H as [Hp Hrest].
  apply negb_true_iff in Hp.
  change (mapR toPhone (p :: items))
    with (let* y := toPhone p in let* ys := mapR toPhone items in Ok (y :: ys)).
  rewrite (IH Hrest). unfold toPhone, get. rewrite Hp. reflexivity.
Qed.

Lemma mapR_toPhone_nullish items :
  forallb (fun p => negb (nullish p)) items = false ->
  exists message, mapR toPhone items = Throw (TypeError message).
Proof.
  induction items as [|p items IH]; [discriminate|].
  change (mapR toPhone (p :: items))
    with (let* y := toPhone p in let* ys := mapR toPhone items in Ok (y :: ys)).
  cbn [forallb]. destruct (nullish p) eqn:Hp; cbn [negb andb].
  - intros _. unfold toPhone, get. rewrite Hp. cbn [bind]. eauto.
  - intros Hrest. destruct (IH Hrest) as [message ->].
    unfold toPhone, get. rewrite Hp. cbn [bind]. eauto.
Qed.

(** X11. The phone list of a 200 answer: without a [trustedPhoneNumbers]
    (absent or null) the list is empty; an array gives one phone per entry,
    in order, with the fields as the answer has them, unless an entry is
    null, which is a TypeError; anything else than an array is the
    TypeError of a missing [map]. *)
Theorem idmsaGetPhoneNumbers_list env session w resp data :
  (forall req, transport env (map fst (calls w)) req = Ok resp) ->
  Response.status resp = 200 ->
  JSON_parse env (Response.body resp) = Ok data ->
  nullish data = false ->
  let listed := get_opt data "trustedPhoneNumbers" in
  let result := fst (idmsaGetPhoneNumbers env session w) in
  (nullish listed = true ->
   exists r, result = Ok r /\ trustedPhoneNumbers r = [])
  /\ (forall items,
        listed = VArr items ->
        if forallb (fun p => negb (nullish p)) items
        then exists r, result = Ok r /\ trustedPhoneNumbers r = map phone_of items
        else exists message, result = Throw (TypeError message))
  /\ (nullish listed = false -> (forall items, listed <> VArr items) ->
      result = Throw (TypeError "map is not a function")).
Proof.
  intros Htr Hstatus Hparse Hdata. cbv zeta.
  assert (fst (idmsaGetPhoneNumbers env session w)
          = let* phones :=
              array_map toPhone (coalesce (get_opt data "trustedPhoneNumbers") (VArr [])) in
            Ok {| trustedPhoneNumbers := phones;
                  securityCodeCooldown :=
                    is_true (get_opt (get_opt data "securityCode") "tooManyCodesSent")
                    || is_true (get_opt (get_opt data "securityCode") "securityCodeCooldown");
                  tooManyCodesSent :=
                    is_true (get_opt (get_opt data "securityCode") "tooManyCodesSent");
                  securityCodeLocked :=
                    is_true (get_opt (get_opt data "securityCode") "securityCodeLocked") |})
    as ->.
  { unfold idmsaGetPhoneNumbers. unfold mbind at 1.
    destruct (idmsaHeaders_run env (Some session) w) as [headers ->].
    unfold mbind at 1. unfold appleRequest at 1. cbn [calls].
    rewrite Htr. rewrite Hstatus. cbn [Z.eqb Pos.eqb negb].
    rewrite (mbind_lift_Ok _ _ _ _ Hparse).
    assert (get data "trustedPhoneNumbers" = Ok (get_opt data "trustedPhoneNumbers"))
      as Hget by (unfold get; rewrite Hdata; reflexivity).
    rewrite (mbind_lift_Ok _ _ _ _ Hget).
    unfold mbind, lift, ret.
    destruct (array_map toPhone _); reflexivity. }
  split; [|split].
  - intros Hnull. unfold coalesce. rewrite Hnull. cbn. eauto.
  - intros items ->. cbn [coalesce nullish array_map].
    destruct (forallb _ items) eqn:Hall.
    + rewrite (mapR_toPhone _ Hall). cbn. eauto.
    + destruct (mapR_toPhone_nullish _ Hall) as [message ->]. cbn. eauto.
  - intros Hnull Hother. unfold coalesce. rewrite Hnull.
    destruct (get_opt data "trustedPhoneNumbers"); try reflexivity; try discriminate.
    exfalso. apply (Hother items). reflexivity.
Qed.

End IdmsaCalls.


(** *** Concrete runs *)

Section IdmsaCallsRuns.
Import Idmsa Mock.
Local Open Scope Z_scope.
Local Open Scope list_scope.

Lemma idmsaSignin_session_origin_witness :
  exists initReq initResp completeReq completeResp,
    calls (snd (idmsaSignin (Mock.env Mock.scenarioA_transport VNull (Ok quick_init))
                            "user@example.com" "hunter2" Mock.empty_world))
    = calls Mock.empty_world
        ++ [(initReq, Ok initResp); (completeReq, Ok completeResp)]
    /\ Request.path initReq = "/appleauth/auth/signin/init"%string
    /\ Request.path completeReq
       = "/appleauth/auth/signin/complete?isRememberMeEnabled=true"%string
    /\ Response.status initResp = 200
    /\ (Response.status completeResp = 200 \/ Response.status completeResp = 409)
    /\ Response.headers completeResp !! "x-apple-id-session-id" = Some "S1"%string
    /\ Response.headers completeResp !! "scnt" = Some "T1"%string
    /\ "S1"%string <> ""%string
    /\ "T1"%string <> ""%string.
Proof.
  apply (idmsaSignin_session_origin
           (Mock.env Mock.scenarioA_transport VNull (Ok quick_init))
           "user@example.com" "hunter2" Mock.empty_world
           {| sessionId := "S1"; scnt := "T1" |}).
  vm_compute. reflexivity.
Defined.

Lemma idmsaSignin_init_rejected_witness :
  exists req,
    idmsaSignin (Mock.env (Mock.always (Mock.response 503 [] "")) VNull (Ok quick_init))
                "user@example.com" "hunter2" Mock.empty_world
    = (Throw (Error "IDMSA signin/init failed: HTTP 503 "),
       {| calls := [(req, Ok (Mock.response 503 [] ""))]; uuids := 1; heap := [] |})
    /\ Request.host req = "idmsa.apple.com"%string
    /\ Request.method req = "POST"%string
    /\ Request.path req = "/appleauth/auth/signin/init"%string.
Proof.
  apply (idmsaSignin_init_rejected
           (Mock.env (Mock.always (Mock.response 503 [] "")) VNull (Ok quick_init))
           "user@example.com" "hunter2" Mock.empty_world tt (Mock.response 503 [] "")).
  - reflexivity.
  - intros req. reflexivity.
  - cbn. lia.
Defined.

Lemma idmsaSignin_bad_challenge_witness :
  exists req,
    idmsaSignin (Mock.env (Mock.always (Mock.response 200 [] "{}")) VNull
                          (Ok no_iterations_init))
                "user@example.com" "hunter2" Mock.empty_world
    = (Throw Subtle.OperationError,
       {| calls := [(req, Ok (Mock.response 200 [] "{}"))]; uuids := 1; heap := [] |})
    /\ Request.path req = "/appleauth/auth/signin/init"%string.
Proof.
  apply (idmsaSignin_bad_challenge
           (Mock.env (Mock.always (Mock.response 200 [] "{}")) VNull (Ok no_iterations_init))
           "user@example.com" "hunter2" Mock.empty_world tt (Mock.response 200 [] "{}")
           no_iterations_init Subtle.OperationError).
  - reflexivity.
  - intros req. reflexivity.
  - reflexivity.
  - reflexivity.
  - vm_compute. reflexivity.
Defined.

Lemma generate_failure_propagates_witness :
  exists req,
    idmsaSignin (with_srp srp_refusing
                   (Mock.env (Mock.always (Mock.response 200 [] "{}")) VNull (Ok quick_init)))
                "user@example.com" "hunter2" Mock.empty_world
    = (Throw (Error "bad server ephemeral"),
       {| calls := [(req, Ok (Mock.response 200 [] "{}"))]; uuids := 1; heap := [] |})
    /\ Request.path req = "/appleauth/auth/signin/init"%string.
Proof.
  apply (generate_failure_propagates
           (with_srp srp_refusing
              (Mock.env (Mock.always (Mock.response 200 [] "{}")) VNull (Ok quick_init)))
           "user@example.com" "hunter2" Mock.empty_world tt (Mock.response 200 [] "{}")
           quick_init
           [x00; x01; x02; x03; x04; x05; x06; x07; x08; x09; x0a; x0b; x0c; x0d; x0e; x0f]
           [x01; x02; x03; x04; x05; x06; x07; x08]).
  - reflexivity.
  - intros hist req _. reflexivity.
  - reflexivity.
  - reflexivity.
  - vm_compute. reflexivity.
  - vm_compute. reflexivity.
  - cbn. lia.
  - intros key. reflexivity.
Defined.

Lemma idmsaGetPhoneNumbers_list_witness :
  exists r,
    fst (idmsaGetPhoneNumbers
           (Mock.env (Mock.always (Mock.response 200 [] "{}")) Mock.too_many_codes
                     (Throw (Error "unused")))
           {| sessionId := "S1"; scnt := "T1" |} Mock.empty_world) = Ok r
    /\ trustedPhoneNumbers r
       = [{| id := VNum 1; numberWithDialCode := VStr "+1 (***) ***-**42";
             pushMode := VStr "sms" |}].
Proof.
  apply (proj1 (proj2
    (idmsaGetPhoneNumbers_list
       (Mock.env (Mock.always (Mock.response 200 [] "{}")) Mock.too_many_codes
                 (Throw (Error "unused")))
       {| sessionId := "S1"; scnt := "T1" |} Mock.empty_world
       (Mock.response 200 [] "{}") Mock.too_many_codes
       (fun req => eq_refl) eq_refl eq_refl eq_refl))
    [VObj [("id", VNum 1);
           ("numberWithDialCode", VStr "+1 (***) ***-**42");
           ("pushMode", VStr "sms")]]
    eq_refl).
Defined.

End IdmsaCallsRuns.

(** ** The SMS hook *)

Section SmsVerificationFacts.
Import Idmsa SmsVerification.
Local Open Scope Z_scope.
Local Open Scope list_scope.

Variable env : Env.
Variable ui : Ui.
Variables email password : string.

Ltac fields :=
  unfold signinFailed, seq_;
  cbn [fold_left sessionRef smsMode smsLoading phoneNumbers selectedPhoneId smsSent
       smsPhone smsError cooldown tooManyCodes codeLocked
       set_sessionRef setSmsMode setSmsLoading setPhoneNumbers setSelectedPhoneId
       setSmsSent setSmsPhone setSmsError setCooldown setTooManyCodes setCodeLocked].

Lemma initiateSms_settled s w :
  settled (fst (initiateSms env ui email password s w)).
Proof.
  unfold initiateSms, settled.
  destruct (idmsaSignin env email password w) as [[session|err] w1].
  - destruct (idmsaGetPhoneNumbers env session w1) as [[result|err] w2].
    + destruct (securityCodeLocked result);
        [|destruct (tooManyCodesSent result); [|destruct (securityCodeCooldown result)]].
      1-3: cbn [fst]; fields; repeat split; intros; congruence.
      destruct (trustedPhoneNumbers result) as [|phone [|phone' phones]].
      * cbn [fst]; fields; repeat split; intros; congruence.
      * destruct (idmsaRequestSms env session (id phone) w2) as [[[]|err] w3];
          cbn [fst]; fields; repeat split; intros; congruence.
      * cbn [fst]; fields; repeat split; intros; congruence.
    + cbn [fst]; fields; repeat split; intros; congruence.
  - cbn [fst]; fields; repeat split; intros; congruence.
Qed.

Lemma sendSms_settled phoneId s w :
  settled s -> settled (fst (sendSms env ui phoneId s w)).
Proof.
  intros (Hload & Hsent & Hmode & Hlocked & Htoo). unfold sendSms.
  destruct (sessionRef s) as [session|] eqn:Hsession.
  - destruct (is_null _).
    + cbn [fst]. unfold settled. rewrite Hsession. auto.
    + assert (smsMode s = true) as Hon by (apply Hmode; discriminate).
      destruct (idmsaRequestSms env session _ w) as [[[]|err] w'];
        cbn [fst]; unfold settled; fields; rewrite Hsession;
        repeat split; auto; intros;
        first [congruence | apply Hlocked; assumption | apply Htoo; assumption].
  - cbn [fst]. unfold settled. rewrite Hsession. auto.
Qed.

Lemma act_settled a s w :
  settled s -> settled (fst (act env ui email password a s w)).
Proof.
  intros Hs. destruct a as [|phoneId|id|]; cbn [act].
  - apply initiateSms_settled.
  - apply sendSms_settled, Hs.
  - destruct Hs as (Hload & Hsent & Hmode & Hlocked & Htoo).
    cbn [fst]. unfold settled. fields. auto.
  - cbn [fst]. unfold settled, resetSms. fields. repeat split; intros; congruence.
Qed.

(** X12. After any sequence of actions on the hook (initiate, send, select
    a phone, reset), in any order and whatever the identity provider
    answers: nothing is left loading, an SMS is reported as sent only while
    a session is held, a session is held only in SMS mode, and at most one
    of the flags codeLocked, tooManyCodes and cooldown is up. *)
Theorem hook_states_are_settled (l : list Action) (w : World) :
  settled (fst (acts env ui email password l initial w)).
Proof.
  assert (forall s w, settled s -> settled (fst (acts env ui email password l s w))) as Hall.
  { induction l as [|a l IH]; intros s w0 Hs; [exact Hs|].
    cbn [acts].
    pose proof (act_settled a s w0 Hs) as Hstep.
    destruct (act env ui email password a s w0) as [s' w']. apply IH, Hstep. }
  apply Hall. unfold settled, initial. cbn. repeat split; intros; congruence.
Qed.

Lemma path_of_signin_exchange x :
  signin_exchange x -> Request.path (fst x) <> "/appleauth/auth/verify/phone"%string.
Proof. intros (_ & _ & _ & [-> | ->]); discriminate. Qed.

(** X13. [initiateSms] asks for an SMS only when the account is under no
    rate limit and has exactly one trusted phone: if any request it made
    went to /verify/phone, then none of the three flags is up, the phone
    list has one entry, that phone is the selected one, and the request
    named its id. *)
Theorem initiateSms_texts_the_only_phone s w :
  let s' := fst (initiateSms env ui email password s w) in
  let w' := snd (initiateSms env ui email password s w) in
  exists exchanges,
    calls w' = calls w ++ exchanges
    /\ forall req answer,
         In (req, answer) exchanges ->
         Request.path req = "/appleauth/auth/verify/phone"%string ->
         codeLocked s' = false /\ tooManyCodes s' = false /\ cooldown s' = false
         /\ exists phone,
              phoneNumbers s' = [phone]
              /\ selectedPhoneId s' = id phone
              /\ Request.body req
                 = Some (JSON_stringify env
                           (VObj [("phoneNumber", VObj [("id", id phone)]);
                                  ("mode", VStr "sms")])).
Proof.
  cbv zeta. unfold initiateSms.
  destruct (idmsaSignin_log env email password w) as (ex1 & Hlog1 & _ & Hall1 & _).
  assert (forall req answer, In (req, answer) ex1 ->
            Request.path req <> "/appleauth/auth/verify/phone"%string) as Hno1.
  { intros req answer Hin. rewrite List.Forall_forall in Hall1.
    apply (path_of_signin_exchange _ (Hall1 _ Hin)). }
  destruct (idmsaSignin env email password w) as [[session|err] w1]; cbn [snd] in Hlog1.
  2:{ cbn [fst snd]. exists ex1. split; [exact Hlog1|].
      intros req answer Hin Hpath. destruct (Hno1 _ _ Hin Hpath). }
  destruct (idmsaGetPhoneNumbers_log env session w1) as (req2 & Hreq2 & Hlog2 & _).
  remember (transport env (map fst (calls w1)) req2) as answer2 eqn:Hanswer2.
  clear Hanswer2.
  assert (forall req answer,
            In (req, answer) (ex1 ++ [(req2, answer2)]) ->
            Request.path req <> "/appleauth/auth/verify/phone"%string) as Hno2.
  { intros req answer Hin. apply in_app_or in Hin as [Hin|[Hin|[]]].
    - apply (Hno1 _ _ Hin).
    - injection Hin as <- _. destruct Hreq2 as (_ & _ & -> & _). discriminate. }
  destruct (idmsaGetPhoneNumbers env session w1) as [[result|err] w2]; cbn [snd] in Hlog2.
  2:{ cbn [fst snd]. eexists. split; [rewrite Hlog2, Hlog1, <- app_assoc; reflexivity|].
      intros req answer Hin Hpath. destruct (Hno2 _ _ Hin Hpath). }
  assert (forall st, exists exchanges,
            calls w2 = calls w ++ exchanges
            /\ forall req answer, In (req, answer) exchanges ->
                 Request.path req = "/appleauth/auth/verify/phone"%string ->
                 codeLocked st = false /\ tooManyCodes st = false /\ cooldown st = false
                 /\ exists phone,
                      phoneNumbers st = [phone]
                      /\ selectedPhoneId st = id phone
                      /\ Request.body req
                         = Some (JSON_stringify env
                                   (VObj [("phoneNumber", VObj [("id", id phone)]);
                                          ("mode", VStr "sms")]))) as Hquiet.
  { intros st. eexists. split; [rewrite Hlog2, Hlog1, <- app_assoc; reflexivity|].
    intros req answer Hin Hpath. destruct (Hno2 _ _ Hin Hpath). }
  destruct (securityCodeLocked result); [apply Hquiet|].
  destruct (tooManyCodesSent result); [apply Hquiet|].
  destruct (securityCodeCooldown result); [apply Hquiet|].
  destruct (trustedPhoneNumbers result) as [|phone [|phone' phones]];
    [apply Hquiet | | apply Hquiet].
  destruct (idmsaRequestSms_run env session (id phone) w2) as (req3 & Hreq3 & Hbody3 & ->).
  match goal with
  | |- context [transport env ?hist req3] => generalize (transport env hist req3)
  end.
  intros answer3.
  eexists. split.
  - destruct answer3 as [resp|err]; [destruct (_ && _)|]; cbn [snd calls];
      rewrite Hlog2, Hlog1, <- !app_assoc; reflexivity.
  - intros req answer Hin Hpath.
    apply in_app_or in Hin as [Hin|Hin]; [destruct (Hno1 _ _ Hin Hpath)|].
    destruct Hin as [Hin|[Hin|[]]].
    + injection Hin as <- _. destruct Hreq2 as (_ & _ & Hp & _).
      rewrite Hp in Hpath. discriminate.
    + injection Hin as <- _.
      destruct answer3 as [resp|err]; [destruct (_ && _)|]; cbn [fst]; fields;
        (split; [reflexivity|]; split; [reflexivity|]; split; [reflexivity|]);
        exists phone; auto.
Qed.

(** X14. The rate limits in order: once the sign-in and the phone list have
    gone through, codeLocked is the lock of the answer, tooManyCodes its
    too-many-codes flag unless locked, cooldown its cooldown unless either;
    and when one of them is up nothing more is requested, no SMS is
    reported as sent, and the phones and the selection stay as they were. *)
Theorem initiateSms_rate_limited s w session w1 result w2 :
  idmsaSignin env email password w = (Ok session, w1) ->
  idmsaGetPhoneNumbers env session w1 = (Ok result, w2) ->
  let s' := fst (initiateSms env ui email password s w) in
  let w' := snd (initiateSms env ui email password s w) in
  codeLocked s' = securityCodeLocked result
  /\ tooManyCodes s' = negb (securityCodeLocked result) && tooManyCodesSent result
  /\ cooldown s'
     = negb (securityCodeLocked result) && negb (tooManyCodesSent result)
       && securityCodeCooldown result
  /\ (codeLocked s' || tooManyCodes s' || cooldown s' = true ->
      w' = w2 /\ smsSent s' = false /\ smsError s' = None
      /\ phoneNumbers s' = phoneNumbers s /\ selectedPhoneId s' = selectedPhoneId s).
Proof.
  intros Hsignin Hphones. cbv zeta. unfold initiateSms. rewrite Hsignin, Hphones.
  destruct (securityCodeLocked result);
    [|destruct (tooManyCodesSent result); [|destruct (securityCodeCooldown result)]].
  1-3: cbn [fst snd]; fields; repeat split; reflexivity.
  destruct (trustedPhoneNumbers result) as [|phone [|phone' phones]].
  - cbn [fst snd]; fields. repeat split; try reflexivity; discriminate.
  - destruct (idmsaRequestSms env session (id phone) w2) as [[[]|err] w3];
      cbn [fst snd]; fields; repeat split; try reflexivity; discriminate.
  - cbn [fst snd]; fields. repeat split; try reflexivity; discriminate.
Qed.

(** A run of [verifySmsCode] that has a session and a selection. *)
Lemma verifySmsCode_run code s w session :
  sessionRef s = Some session ->
  is_null (selectedPhoneId s) = false ->
  exists verifyReq trustReq,
    in_session session "POST" "/appleauth/auth/verify/phone/securitycode" verifyReq
    /\ Request.body verifyReq
       = Some (JSON_stringify env
                 (VObj [("phoneNumber", VObj [("id", selectedPhoneId s)]);
                        ("securityCode", VObj [("code", VStr code)]);
                        ("mode", VStr "sms")]))
    /\ in_session session "GET" "/appleauth/auth/2sv/trust" trustReq
    /\ verifySmsCode env ui code s w
       = let answer := transport env (map fst (calls w)) verifyReq in
         let refused err :=
           (Throw (Error (getErrorMessage ui err (t ui "errors.auth.smsVerifyFailed"))),
            {| calls := calls w ++ [(verifyReq, answer)];
               uuids := S (uuids w); heap := heap w |}) in
         match answer with
         | Ok resp =>
             if negb (Response.status resp =? 200) && negb (Response.status resp =? 204)
             then refused (http_failure "IDMSA SMS verify" resp)
             else
               (Ok tt,
                {| calls := calls w
                     ++ [(verifyReq, answer);
                         (trustReq,
                          transport env (map fst (calls w) ++ [verifyReq]) trustReq)];
                   uuids := S (S (uuids w)); heap := heap w |})
         | Throw err => refused err
         end.
Proof.
  intros Hsession Hselected.
  unfold verifySmsCode. rewrite Hsession, Hselected.
  destruct (idmsaVerifySmsCode_run env session (selectedPhoneId s) code w)
    as (req1 & Hreq1 & Hbody1 & ->).
  destruct (idmsaGetTrustToken_run env session
              {| calls := calls w ++ [(req1, transport env (map fst (calls w)) req1)];
                 uuids := S (uuids w); heap := heap w |})
    as (req2 & Hreq2 & Htrust).
  exists req1, req2. split; [exact Hreq1|]. split; [exact Hbody1|]. split; [exact Hreq2|].
  cbv zeta.
  destruct (transport env (map fst (calls w)) req1) as [resp|err]; [|reflexivity].
  destruct (_ && _); [reflexivity|].
  rewrite Htrust. cbn [calls uuids heap]. rewrite map_app, <- app_assoc. reflexivity.
Qed.

(** X15. The trust token is best-effort: when the code is verified (200 or
    204), [verifySmsCode] succeeds whatever the trust endpoint answers,
    having made two requests within the session: the code for the selected
    phone, then the trust token. *)
Theorem trust_token_is_best_effort code s w session resp :
  sessionRef s = Some session ->
  is_null (selectedPhoneId s) = false ->
  (forall req,
      Request.path req = "/appleauth/auth/verify/phone/securitycode"%string ->
      transport env (map fst (calls w)) req = Ok resp) ->
  Response.status resp = 200 \/ Response.status resp = 204 ->
  exists verifyReq trustReq trustAnswer w',
    verifySmsCode env ui code s w = (Ok tt, w')
    /\ calls w' = calls w ++ [(verifyReq, Ok resp); (trustReq, trustAnswer)]
    /\ in_session session "POST" "/appleauth/auth/verify/phone/securitycode" verifyReq
    /\ Request.body verifyReq
       = Some (JSON_stringify env
                 (VObj [("phoneNumber", VObj [("id", selectedPhoneId s)]);
                        ("securityCode", VObj [("code", VStr code)]);
                        ("mode", VStr "sms")]))
    /\ in_session session "GET" "/appleauth/auth/2sv/trust" trustReq.
Proof.
  intros Hsession Hselected Hverify Hstatus.
  destruct (verifySmsCode_run code s w session Hsession Hselected)
    as (req1 & req2 & Hreq1 & Hbody1 & Hreq2 & ->).
  cbv zeta. rewrite Hverify by apply Hreq1.
  assert (negb (Response.status resp =? 200) && negb (Response.status resp =? 204) = false)
    as ->.
  { destruct Hstatus as [-> | ->]; reflexivity. }
  exists req1, req2. eexists _, _. split; [reflexivity|].
  split; [reflexivity|]. auto.
Qed.

(** X16. When the identity provider refuses the code (a status other than
    200 and 204), [verifySmsCode] throws a plain Error whose message is the
    one [getErrorMessage] gives for the failure, and the trust token is not
    asked for: one request has been made. *)
Theorem refused_code_stops code s w session resp :
  sessionRef s = Some session ->
  is_null (selectedPhoneId s) = false ->
  (forall req,
      Request.path req = "/appleauth/auth/verify/phone/securitycode"%string ->
      transport env (map fst (calls w)) req = Ok resp) ->
  Response.status resp <> 200 ->
  Response.status resp <> 204 ->
  exists verifyReq w',
    verifySmsCode env ui code s w
    = (Throw (Error (getErrorMessage ui (http_failure "IDMSA SMS verify" resp)
                                     (t ui "errors.auth.smsVerifyFailed"))), w')
    /\ calls w' = calls w ++ [(verifyReq, Ok resp)]
    /\ in_session session "POST" "/appleauth/auth/verify/phone/securitycode" verifyReq.
Proof.
  intros Hsession Hselected Hverify H200 H204.
  destruct (verifySmsCode_run code s w session Hsession Hselected)
    as (req1 & req2 & Hreq1 & Hbody1 & Hreq2 & ->).
  cbv zeta. rewrite Hverify by apply Hreq1.
  apply Z.eqb_neq in H200, H204. rewrite H200, H204. cbn [negb andb].
  eexists _, _. split; [reflexivity|]. split; [reflexivity | exact Hreq1].
Qed.

(** X17. [sendSms] does nothing at all without a session or without a phone
    to text (none given and none selected). Otherwise it makes exactly one
    request, within the session, for the phone given, or the selected one
    when none is given; on success that phone becomes the selected one, on
    failure the selection and the sent flag stay and the error is shown. *)
Theorem sendSms_request phoneId s w :
  let s' := fst (sendSms env ui phoneId s w) in
  let w' := snd (sendSms env ui phoneId s w) in
  let targetId := if nullish phoneId then selectedPhoneId s else phoneId in
  match sessionRef s with
  | Some session =>
      if is_null targetId then s' = s /\ w' = w
      else
        exists req,
          in_session session "PUT" "/appleauth/auth/verify/phone" req
          /\ Request.body req
             = Some (JSON_stringify env
                       (VObj [("phoneNumber", VObj [("id", targetId)]);
                              ("mode", VStr "sms")]))
          /\ calls w' = calls w ++ [(req, transport env (map fst (calls w)) req)]
          /\ match fst (idmsaRequestSms env session targetId w) with
             | Ok _ =>
                 smsSent s' = true /\ selectedPhoneId s' = targetId /\ smsError s' = None
             | Throw err =>
                 smsSent s' = smsSent s /\ selectedPhoneId s' = selectedPhoneId s
                 /\ smsError s'
                    = Some (getErrorMessage ui err (t ui "errors.auth.smsRequestFailed"))
             end
  | None => s' = s /\ w' = w
  end.
Proof.
  cbv zeta. unfold sendSms. fold (coalesce phoneId (selectedPhoneId s)).
  destruct (sessionRef s) as [session|]; [|auto].
  destruct (is_null _); [auto|].
  destruct (idmsaRequestSms_run env session (coalesce phoneId (selectedPhoneId s)) w)
    as (req & Hreq & Hbody & ->).
  exists req. split; [exact Hreq|]. split; [exact Hbody|].
  cbn [fst].
  destruct (transport env (map fst (calls w)) req) as [resp|err];
    [destruct (_ && _)|]; cbn [fst snd calls]; fields; auto.
Qed.

End SmsVerificationFacts.


(** *** Concrete runs *)

Section SmsVerificationRuns.
Import Idmsa SmsVerification Mock.
Local Open Scope Z_scope.
Local Open Scope list_scope.

Lemma initiateSms_rate_limited_witness :
  let s' :=
    fst (initiateSms (Mock.env Mock.scenarioA_transport Mock.too_many_codes (Ok quick_init))
                     ui "user@example.com" "hunter2" initial Mock.empty_world) in
  codeLocked s' = false /\ tooManyCodes s' = true /\ cooldown s' = false.
Proof.
  destruct (initiateSms_rate_limited
              (Mock.env Mock.scenarioA_transport Mock.too_many_codes (Ok quick_init))
              ui "user@example.com" "hunter2" initial Mock.empty_world
              {| sessionId := "S1"; scnt := "T1" |}
              (snd (idmsaSignin
                      (Mock.env Mock.scenarioA_transport Mock.too_many_codes (Ok quick_init))
                      "user@example.com" "hunter2" Mock.empty_world))
              {| trustedPhoneNumbers :=
                   [{| id := VNum 1; numberWithDialCode := VStr "+1 (***) ***-**42";
                       pushMode := VStr "sms" |}];
                 securityCodeCooldown := true;
                 tooManyCodesSent := true;
                 securityCodeLocked := false |}
              (snd (idmsaGetPhoneNumbers
                      (Mock.env Mock.scenarioA_transport Mock.too_many_codes (Ok quick_init))
                      {| sessionId := "S1"; scnt := "T1" |}
                      (snd (idmsaSignin
                              (Mock.env Mock.scenarioA_transport Mock.too_many_codes
                                        (Ok quick_init))
                              "user@example.com" "hunter2" Mock.empty_world)))))
    as (Hlocked & Htoo & Hcool & _).
  - vm_compute. reflexivity.
  - vm_compute. reflexivity.
  - cbv zeta. rewrite Hlocked, Htoo, Hcool. repeat split.
Defined.

Lemma trust_token_is_best_effort_witness :
  exists verifyReq trustReq trustAnswer w',
    verifySmsCode (Mock.env accepting VNull (Throw (Error "unused"))) ui "123456" texted
                  Mock.empty_world
    = (Ok tt, w')
    /\ calls w' = [(verifyReq, Ok (Mock.response 204 [] "")); (trustReq, trustAnswer)].
Proof.
  destruct (trust_token_is_best_effort
              (Mock.env accepting VNull (Throw (Error "unused"))) ui "123456" texted
              Mock.empty_world {| sessionId := "S1"; scnt := "T1" |}
              (Mock.response 204 [] ""))
    as (verifyReq & trustReq & trustAnswer & w' & Hrun & Hlog & _).
  - reflexivity.
  - reflexivity.
  - intros req Hpath. cbn. unfold accepting. rewrite Hpath. reflexivity.
  - right. reflexivity.
  - exists verifyReq, trustReq, trustAnswer, w'. split; [exact Hrun | exact Hlog].
Defined.

Lemma refused_code_stops_witness :
  exists verifyReq w',
    verifySmsCode (Mock.env refusing VNull (Throw (Error "unused"))) ui "123456" texted
                  Mock.empty_world
    = (Throw (Error "IDMSA SMS verify failed: HTTP 401 "), w')
    /\ calls w' = [(verifyReq, Ok (Mock.response 401 [] ""))].
Proof.
  destruct (refused_code_stops
              (Mock.env refusing VNull (Throw (Error "unused"))) ui "123456" texted
              Mock.empty_world {| sessionId := "S1"; scnt := "T1" |}
              (Mock.response 401 [] ""))
    as (verifyReq & w' & Hrun & Hlog & _).
  - reflexivity.
  - reflexivity.
  - intros req _. reflexivity.
  - cbn. lia.
  - cbn. lia.
  - exists verifyReq, w'. split; [exact Hrun | exact Hlog].
Defined.

End SmsVerificationRuns.

(** ** The account-service sign-in *)

Section AuthenticateFacts.
Import Authenticate.
Local Open Scope Z_scope.
Local Open Scope list_scope.

Variable env : Env.
Variables email password : string.
Variable code : option string.
Variable deviceId : string.
Variable smsVerified : bool.

Local Abbreviation request_of :=
  (Authenticate.request_of env email password code deviceId smsVerified).
Local Abbreviation answer_of :=
  (Authenticate.answer_of env email password code deviceId smsVerified).
Local Abbreviation logged :=
  (Authenticate.logged env email password code deviceId smsVerified).
Local Abbreviation reaches_plist := (Authenticate.reaches_plist env code).
Local Abbreviation failure_message := (Authenticate.failure_message env).
Local Abbreviation followable := (Authenticate.followable env).
Local Abbreviation address_message := (Authenticate.address_message env).
Local Abbreviation read_without_retry := (Authenticate.read_without_retry env).
Local Abbreviation retried_once := (Authenticate.retried_once env code).
Local Abbreviation run_loop fuel :=
  (loop fuel env email password code deviceId smsVerified).
Local Abbreviation run_block :=
  (tryBlock env email password code deviceId smsVerified).


Lemma send_run st w :
  send env email password code deviceId smsVerified (st, w)
  = (match answer_of st w with
     | Ok response => Normal response
     | Throw e => Abruptly (Thrown e)
     end, (st, logged st w)).
Proof.
  unfold send, liftM, appleRequest, Authenticate.logged, Authenticate.answer_of,
    Authenticate.request_of.
  destruct (transport env _ _); reflexivity.
Qed.

Lemma readStoreFront_run response st w :
  exists front,
    readStoreFront response (st, w) = (Normal tt, (set_storeFront front st, w)).
Proof.
  unfold readStoreFront, when, assign, retB.
  destruct (negb (header_missing _)).
  - destruct (negb (_ =? _)%string).
    + eexists. reflexivity.
    + exists (storeFront st). destruct st; reflexivity.
  - exists (storeFront st). destruct st; reflexivity.
Qed.

(** The merge of a response touches the heap and [cookies] only. *)
Lemma mergeCookies_run raw st w flow st' w' :
  mergeCookies env raw (st, w) = (flow, (st', w')) ->
  calls w' = calls w /\ uuids w' = uuids w
  /\ st' = set_cookies (l_cookies st') st
  /\ flow = Normal tt.
Proof.
  unfold mergeCookies. intros H.
  destruct (extractAndMergeCookies env raw (contents w (l_cookies st)))
    as [merged|given merged] eqn:Hm;
    injection H as Hf Hs Hw; subst flow st' w';
    cbn [calls uuids heap set_heap l_cookies set_cookies];
    repeat split; auto; destruct st; reflexivity.
Qed.

(** What it does to the heap, given that [cookies] names a live array: the
    other arrays stay as they are, and [cookies] ends up naming a live array
    (the same, or one allocated by the merge) that holds the merged cookies. *)
Lemma mergeCookies_heap raw st w flow st' w' :
  mergeCookies env raw (st, w) = (flow, (st', w')) ->
  (l_cookies st < length (heap w))%nat ->
  (length (heap w) <= length (heap w'))%nat
  /\ (l_cookies st' < length (heap w'))%nat
  /\ (l_cookies st' = l_cookies st \/ (length (heap w) <= l_cookies st')%nat)
  /\ (forall r, r <> l_cookies st -> (r < length (heap w))%nat ->
                heap w' !! r = heap w !! r)
  /\ contents w' (l_cookies st')
     = Spec.after_merge (extractAndMergeCookies env raw (contents w (l_cookies st))).
Proof.
  unfold mergeCookies. intros H Hlive.
  destruct (extractAndMergeCookies env raw (contents w (l_cookies st)))
    as [merged|given merged] eqn:Hm;
    injection H as Hf Hs Hw; subst flow st' w';
    cbn [calls uuids heap set_heap l_cookies set_cookies Spec.after_merge].
  - repeat split; auto.
    + rewrite length_insert. lia.
    + rewrite length_insert. lia.
    + intros r Hr _. apply list_lookup_insert_ne. congruence.
    + unfold contents, set_heap. cbn [heap]. rewrite list_lookup_insert_eq by lia. reflexivity.
  - repeat split; auto.
    + rewrite length_app, length_insert. lia.
    + rewrite length_app, !length_insert. cbn. lia.
    + right. rewrite length_insert. lia.
    + intros r Hr Hlt. rewrite lookup_app_l by (rewrite length_insert; lia).
      apply list_lookup_insert_ne. congruence.
    + unfold contents, set_heap. cbn [heap].
      rewrite lookup_app_r by lia. rewrite Nat.sub_diag. reflexivity.
Qed.

(** Case analysis on a run of the block, until its result is plain. *)
Ltac run_body H :=
  repeat first
    [ progress unfold bindB, liftR, throwB, continueB, retB, assign, locals in H
    | progress cbn beta iota in H
    | match type of H with
      | context [match ?x with _ => _ end] =>
          lazymatch x with
          | context [match _ with _ => _ end] => fail
          | _ => destruct x eqn:?
          end
      end ].

(** After the merge, a pass leaves the world alone; and it either follows a
    redirect, giving the attempt back and counting a hop, or it leaves the
    locals alone. A [continue] without a redirect is the retry of the first
    attempt. *)
Lemma interpret_run response st w flow st' w' :
  interpret env email password code deviceId response (st, w) = (flow, (st', w')) ->
  w' = w
  /\ l_cookies st' = l_cookies st /\ lastError st' = lastError st
  /\ storeFront st' = storeFront st
  /\ ((flow = Abruptly Continue /\ Response.status response = 302
       /\ currentAttempt st' = currentAttempt st - 1
       /\ redirectAttempt st' = redirectAttempt st + 1)
      \/ (st' = st
          /\ (flow = Abruptly Continue ->
              currentAttempt st = 1 /\ Response.status response <> 302)))
  /\ (forall account, flow = Normal account -> cookies account = l_cookies st).
Proof.
  unfold interpret, readPlist. cbv zeta. intros H.
  run_body H; injection H as <- <- <-; cbn;
    repeat split; try discriminate; auto.
  all: try (right; split; [reflexivity|]; intros; try discriminate).
  all: try (left; repeat split; auto; lia).
  all: try (intros; match goal with H : Normal _ = Normal _ |- _ => injection H as <-; reflexivity end).
  match goal with
  | Hb : _ && (currentAttempt st =? 1) = true |- _ =>
      apply andb_true_iff in Hb as [_ Hone]; apply Z.eqb_eq in Hone
  end.
  match goal with
  | Hb : (Response.status response =? 302) = false |- _ => apply Z.eqb_neq in Hb
  end.
  auto.
Qed.

(** One pass of the block: the exchange it logs, and what becomes of the
    counters. *)
Lemma tryBlock_run st w flow st' w' :
  tryBlock env email password code deviceId smsVerified (st, w) = (flow, (st', w')) ->
  calls w' = calls w ++ [(request_of st w, answer_of st w)]
  /\ uuids w' = uuids w
  /\ lastError st' = lastError st
  /\ ((flow = Abruptly Continue
       /\ (exists response,
             answer_of st w = Ok response /\ Response.status response = 302)
       /\ currentAttempt st' = currentAttempt st - 1
       /\ redirectAttempt st' = redirectAttempt st + 1)
      \/ (currentAttempt st' = currentAttempt st
          /\ redirectAttempt st' = redirectAttempt st
          /\ requestHost st' = requestHost st
          /\ requestPath st' = requestPath st
          /\ (flow = Abruptly Continue -> currentAttempt st = 1)))
  /\ (forall account, flow = Normal account -> cookies account = l_cookies st').
Proof.
  unfold tryBlock. unfold bindB at 1. rewrite send_run.
  destruct (answer_of st w) as [response|e] eqn:Hans.
  - unfold bindB at 1.
    destruct (mergeCookies env (Response.rawHeaders response) (st, logged st w))
      as [f1 [st1 w1]] eqn:Hmerge.
    destruct (mergeCookies_run _ _ _ _ _ _ Hmerge) as (Hc1 & Hu1 & Hst1 & Hf1).
    unfold Authenticate.logged in Hc1, Hu1. cbn [calls uuids] in Hc1, Hu1. rewrite Hans in Hc1.
    destruct f1 as [[]|how].
    + unfold bindB at 1.
      destruct (readStoreFront_run response st1 w1) as [front ->].
      intros Hrun.
      destruct (interpret_run _ _ _ _ _ _ Hrun) as (-> & Hck & Hle & Hsf & Hcnt & Hacc).
      rewrite Hst1 in Hle, Hcnt. cbn in Hck, Hle.
      split; [exact Hc1|]. split; [exact Hu1|]. split; [exact Hle|]. split.
      * destruct Hcnt as [(-> & H302 & Hcur & Hred) | (-> & Hcont)].
        -- left. cbn in Hcur, Hred. repeat split; eauto.
        -- right. cbn. cbn in Hcont. repeat split; auto.
           intros Hc. apply Hcont in Hc as [Hone _]. exact Hone.
      * intros account ->. rewrite Hck. apply (Hacc account eq_refl).
    + discriminate.
  - intros Hrun. injection Hrun as <- <- <-.
    unfold Authenticate.logged. cbn [calls uuids]. rewrite Hans.
    split; [reflexivity|]. split; [reflexivity|]. split; [reflexivity|]. split.
    + right. repeat split; auto. discriminate.
    + discriminate.
Qed.

(** The same pass, on the heap. *)
Lemma tryBlock_heap st w flow st' w' :
  tryBlock env email password code deviceId smsVerified (st, w) = (flow, (st', w')) ->
  (l_cookies st < length (heap w))%nat ->
  (length (heap w) <= length (heap w'))%nat
  /\ (l_cookies st' < length (heap w'))%nat
  /\ (l_cookies st' = l_cookies st \/ (length (heap w) <= l_cookies st')%nat)
  /\ (forall r, r <> l_cookies st -> (r < length (heap w))%nat ->
                heap w' !! r = heap w !! r)
  /\ contents w' (l_cookies st')
     = Spec.accumulated env (contents w (l_cookies st))
                        [(request_of st w, answer_of st w)].
Proof.
  unfold tryBlock. unfold bindB at 1. rewrite send_run. cbn [Spec.accumulated fold_left snd].
  destruct (answer_of st w) as [response|e] eqn:Hans.
  - unfold bindB at 1.
    destruct (mergeCookies env (Response.rawHeaders response) (st, logged st w))
      as [f1 [st1 w1]] eqn:Hmerge.
    intros Hrun Hlive.
    destruct (mergeCookies_heap _ _ _ _ _ _ Hmerge Hlive) as (Hlen & Hlive1 & Hfresh & Hframe & Hcont).
    destruct f1 as [[]|how].
    + unfold bindB at 1 in Hrun.
      destruct (readStoreFront_run response st1 w1) as [front Hfront].
      rewrite Hfront in Hrun.
      destruct (interpret_run _ _ _ _ _ _ Hrun) as (-> & Hck & _).
      cbn in Hck. rewrite Hck. auto.
    + destruct (mergeCookies_run _ _ _ _ _ _ Hmerge) as (_ & _ & _ & Hflow). discriminate.
  - intros Hrun Hlive. injection Hrun as <- <- <-.
    cbn [Authenticate.logged heap]. repeat split; auto.
Qed.

(** *** The loop *)


Lemma loop_exit fuel st w :
  in_budget st = false ->
  run_loop (S fuel) st w
  = Some (Throw (default (Error (i18n_t env "errors.auth.unknownReason" []))
                         (lastError st)), w).
Proof. intros H. cbn [loop]. rewrite H. reflexivity. Qed.

Lemma loop_pass fuel st w :
  in_budget st = true ->
  run_loop (S fuel) st w
  = match run_block (set_currentAttempt (currentAttempt st + 1) st, w) with
    | (Normal account, (_, w')) => Some (Ok account, w')
    | (Abruptly Continue, (st', w')) => run_loop fuel st' w'
    | (Abruptly (Thrown e), (st', w')) =>
        if instanceofAuthenticationError e then Some (Throw e, w')
        else run_loop fuel (set_lastError (asError e) st') w'
    end.
Proof. intros H. cbn [loop]. rewrite H. reflexivity. Qed.

(** The loop ends: a pass uses up an attempt or a hop, and there are two of
    the first and four of the second. *)
Lemma loop_returns fuel st w :
  (passes_left st < fuel)%nat -> exists outcome, run_loop fuel st w = Some outcome.
Proof.
  revert st w. induction fuel as [|fuel IH]; intros st w Hfuel; [lia|].
  destruct (in_budget st) eqn:Hin.
  - rewrite (loop_pass _ _ _ Hin).
    destruct (run_block _) as [flow [st' w']] eqn:Hrun.
    destruct (tryBlock_run _ _ _ _ _ Hrun) as (_ & _ & _ & Hcnt & _).
    cbn [currentAttempt redirectAttempt set_currentAttempt] in Hcnt.
    assert (passes_left st' < fuel)%nat as Hless.
    { unfold passes_left in *. rewrite Hin in Hfuel.
      unfold in_budget in *.
      apply andb_true_iff in Hin as [Hcur Hred].
      apply Z.ltb_lt in Hcur. apply Z.leb_le in Hred.
      destruct Hcnt as [(_ & _ & -> & ->) | (-> & -> & _)];
        destruct (_ && _) eqn:Hin'; lia. }
    destruct flow as [account|[|e]].
    + eauto.
    + apply IH, Hless.
    + destruct (instanceofAuthenticationError e); [eauto|].
      apply IH. exact Hless.
  - rewrite (loop_exit _ _ _ Hin). eauto.
Qed.

Lemma accumulated_app start xs ys :
  Spec.accumulated env start (xs ++ ys)
  = Spec.accumulated env (Spec.accumulated env start xs) ys.
Proof. unfold Spec.accumulated. apply fold_left_app. Qed.

(** The loop on the heap and the log. With [cookies] naming a live array
    that is not one of the first [n], the loop leaves the first [n] arrays
    as they are; what it logs comes after what was logged; and the account
    it returns holds a live array, not among the first [n], with the
    cookies accumulated over the exchanges. *)
Lemma loop_frame n fuel st w result w' :
  run_loop fuel st w = Some (result, w') ->
  (n <= l_cookies st < length (heap w))%nat ->
  (forall r, (r < n)%nat -> heap w' !! r = heap w !! r)
  /\ exists exchanges,
      calls w' = calls w ++ exchanges
      /\ forall account,
          result = Ok account ->
          (n <= cookies account < length (heap w'))%nat
          /\ contents w' (cookies account)
             = Spec.accumulated env (contents w (l_cookies st)) exchanges.
Proof.
  revert st w result w'.
  induction fuel as [|fuel IH]; intros st w result w' Hloop Hlive; [discriminate|].
  destruct (in_budget st) eqn:Hin.
  - rewrite (loop_pass _ _ _ Hin) in Hloop.
    destruct (run_block _) as [flow [st' w1]] eqn:Hrun.
    destruct (tryBlock_run _ _ _ _ _ Hrun) as (Hcalls & _ & _ & _ & Hacc).
    destruct (tryBlock_heap _ _ _ _ _ Hrun) as (Hlen & Hlive' & Hfresh & Hframe & Hheld);
      [cbn; lia|].
    cbn [l_cookies set_currentAttempt] in *.
    assert (forall r, (r < n)%nat -> heap w1 !! r = heap w !! r) as Hframe'.
    { intros r Hr. apply Hframe; lia. }
    assert (n <= l_cookies st' < length (heap w1))%nat as Hlive1 by lia.
    assert (forall st2 result w',
      l_cookies st2 = l_cookies st' ->
      run_loop fuel st2 w1 = Some (result, w') ->
      (forall r, (r < n)%nat -> heap w' !! r = heap w !! r)
      /\ exists exchanges,
          calls w' = calls w ++ exchanges
          /\ forall account,
              result = Ok account ->
              (n <= cookies account < length (heap w'))%nat
              /\ contents w' (cookies account)
                 = Spec.accumulated env (contents w (l_cookies st)) exchanges) as Hrest.
    { intros st2 result2 w2 Hsame Hloop2.
      destruct (IH st2 w1 _ _ Hloop2) as (Hfr & log & Hlog & Hok); [rewrite Hsame; exact Hlive1|].
      split.
      - intros r Hr. rewrite Hfr by exact Hr. apply Hframe', Hr.
      - eexists. split.
        + rewrite Hlog, Hcalls, <- app_assoc. reflexivity.
        + intros account Hacct. destruct (Hok account Hacct) as [Hrange Hcont].
          split; [exact Hrange|].
          rewrite Hcont, Hsame, Hheld, <- accumulated_app. reflexivity. }
    destruct flow as [account|[|e]].
    + injection Hloop as <- <-. split; [exact Hframe'|].
      eexists. split; [exact Hcalls|].
      intros account' Hacct. injection Hacct as <-.
      rewrite (Hacc account eq_refl). split; [exact Hlive1 | exact Hheld].
    + apply (Hrest st' result w' eq_refl Hloop).
    + destruct (instanceofAuthenticationError e).
      * injection Hloop as <- <-. split; [exact Hframe'|].
        eexists. split; [exact Hcalls|]. intros account Hacct. discriminate.
      * apply (Hrest (set_lastError (asError e) st') result w' eq_refl Hloop).
  - rewrite (loop_exit _ _ _ Hin) in Hloop. injection Hloop as <- <-.
    split; [reflexivity|]. exists []. split; [symmetry; apply app_nil_r|].
    intros account Hacct. discriminate.
Qed.

(** Before the loop: the caller's cookies are copied into a new array, the
    last of the heap, and nothing is sent. *)
Lemma prelude_run existingCookies result w w0 :
  prelude env existingCookies deviceId w = (result, w0) ->
  calls w0 = calls w /\ uuids w0 = uuids w
  /\ heap w0 = heap w ++ [match existingCookies with
                           | Some r => contents w r
                           | None => []
                           end]
  /\ forall st, result = Ok st ->
      l_cookies st = length (heap w) /\ storeFront st = ""%string
      /\ lastError st = None
      /\ currentAttempt st = 0 /\ redirectAttempt st = 0.
Proof.
  unfold prelude, mbind, lift, ret. intros H.
  destruct (new_URL env (defaultAuthURL env)) as [u0|e0];
    [destruct (fetchBag env deviceId) as [bag|e1];
     [destruct (new_URL env (authURL bag)) as [u1|e2]|]|];
    injection H as <- <-; cbn [calls uuids heap set_heap];
    (split; [reflexivity|]; split; [reflexivity|]; split; [reflexivity|]);
    intros st Hst; [|discriminate..].
  injection Hst as <-. cbn. auto.
Qed.

Lemma loop_log fuel st w result w' :
  run_loop fuel st w = Some (result, w') -> exists exchanges, calls w' = calls w ++ exchanges.
Proof.
  revert st w. induction fuel as [|fuel IH]; intros st w Hloop; [discriminate|].
  destruct (in_budget st) eqn:Hin.
  - rewrite (loop_pass _ _ _ Hin) in Hloop.
    destruct (run_block _) as [flow [st' w1]] eqn:Hrun.
    destruct (tryBlock_run _ _ _ _ _ Hrun) as (Hcalls & _).
    assert (forall st2, run_loop fuel st2 w1 = Some (result, w') ->
                        exists exchanges, calls w' = calls w ++ exchanges) as Hrest.
    { intros st2 Hloop2. destruct (IH _ _ Hloop2) as [log Hlog].
      eexists. rewrite Hlog, Hcalls, <- app_assoc. reflexivity. }
    destruct flow as [account|[|e]].
    + injection Hloop as <- <-. eauto.
    + eauto.
    + destruct (instanceofAuthenticationError e); [|eauto].
      injection Hloop as <- <-. eauto.
  - rewrite (loop_exit _ _ _ Hin) in Hloop. injection Hloop as <- <-.
    exists []. symmetry. apply app_nil_r.
Qed.

(** *** What a pass makes of a response *)


Lemma tryBlock_received st w response :
  answer_of st w = Ok response ->
  exists r front h,
    run_block (st, w)
    = interpret env email password code deviceId response
        (set_storeFront front (set_cookies r st), set_heap h (logged st w)).
Proof.
  intros Hans. unfold tryBlock. unfold bindB at 1. rewrite send_run, Hans.
  unfold bindB at 1. unfold mergeCookies.
  destruct (extractAndMergeCookies env _ _) as [merged|given merged] eqn:Hm.
  - unfold bindB at 1.
    destruct (readStoreFront_run response st
                (set_heap (<[l_cookies st:=merged]> (heap (logged st w))) (logged st w)))
      as [front ->].
    exists (l_cookies st), front. eexists.
    replace (set_cookies (l_cookies st) st) with st by (destruct st; reflexivity).
    reflexivity.
  - unfold bindB at 1.
    match goal with
    | |- context [readStoreFront response (?s1, ?w1)] =>
        destruct (readStoreFront_run response s1 w1) as [front ->]
    end.
    eexists _, front, _. reflexivity.
Qed.

Lemma interpret_redirect response st w location url :
  Response.status response = 302 ->
  Response.headers response !! "location" = Some location ->
  location <> ""%string ->
  new_URL env location = Ok url ->
  interpret env email password code deviceId response (st, w)
  = (Abruptly Continue,
     (set_redirectAttempt (redirectAttempt st + 1)
        (set_currentAttempt (currentAttempt st - 1)
           (set_target (hostname url) (pathname url +:+ search url) st)), w)).
Proof.
  intros Hstatus Hloc Hne Hurl. unfold interpret. cbv zeta.
  rewrite Hstatus, Hloc. cbn [Z.eqb Pos.eqb header_missing].
  apply String.eqb_neq in Hne. rewrite Hne.
  change (default ""%string (Some location)) with location.
  rewrite Hurl. reflexivity.
Qed.

Lemma interpret_no_location response st w :
  Response.status response = 302 ->
  header_missing (Response.headers response !! "location") = true ->
  interpret env email password code deviceId response (st, w)
  = (Abruptly (Thrown (Error (i18n_t env "errors.auth.redirectLocation" []))), (st, w)).
Proof.
  intros Hstatus Hloc. unfold interpret. cbv zeta.
  rewrite Hstatus, Hloc. reflexivity.
Qed.

Lemma interpret_404 response st w :
  Response.status response = 404 ->
  no_code code = true ->
  interpret env email password code deviceId response (st, w)
  = (Abruptly (Thrown (requiresVerification env)), (st, w)).
Proof.
  intros Hstatus Hcode. unfold interpret. cbv zeta.
  rewrite Hstatus, Hcode. reflexivity.
Qed.

Lemma interpret_parsed response dict st w :
  reaches_plist response dict ->
  exists pod,
    interpret env email password code deviceId response (st, w)
    = readPlist env email password code deviceId pod dict (st, w).
Proof.
  intros (H302 & H404 & Hbody & Hparse & Hdict). unfold interpret. cbv zeta.
  apply Z.eqb_neq in H302. rewrite H302.
  assert ((Response.status response =? 404) && no_code code = false) as ->.
  { destruct (Z.eqb_spec (Response.status response) 404) as [H|H]; [|reflexivity].
    cbn. apply H404, H. }
  apply String.eqb_neq in Hbody. rewrite Hbody, Hparse.
  eexists. reflexivity.
Qed.

Lemma get_present dict key : nullish dict = false -> get dict key = Ok (get_opt dict key).
Proof. unfold get. intros ->. reflexivity. Qed.

Lemma readPlist_locked pod dict st w :
  nullish dict = false ->
  is_string (get_opt dict "failureType") "5020" = true ->
  readPlist env email password code deviceId pod dict (st, w)
  = (Abruptly (Thrown (new_Error
       (coalesce (coalesce (get_opt (get_opt dict "dialog") "explanation")
                           (get_opt dict "customerMessage"))
                 (VStr "Account locked")))), (st, w)).
Proof.
  intros Hdict Hft. unfold readPlist. unfold bindB at 1.
  rewrite (get_present _ _ Hdict). cbn [liftR retB]. unfold bindB, locals.
  rewrite Hft. reflexivity.
Qed.

Lemma is_string_other v s t : is_string v s = true -> s <> t -> is_string v t = false.
Proof.
  destruct v; try discriminate. cbn. intros Hs Hne.
  apply String.eqb_eq in Hs. subst. apply String.eqb_neq, Hne.
Qed.

Lemma readPlist_minus5000_first pod dict st w :
  nullish dict = false ->
  is_string (get_opt dict "failureType") "-5000" = true ->
  currentAttempt st = 1 ->
  readPlist env email password code deviceId pod dict (st, w)
  = (Abruptly Continue, (st, w)).
Proof.
  intros Hdict Hft Hone. unfold readPlist. unfold bindB at 1.
  rewrite (get_present _ _ Hdict). cbn [liftR retB]. unfold bindB, locals.
  rewrite (is_string_other _ _ "5020" Hft) by discriminate.
  rewrite Hft, Hone. reflexivity.
Qed.

Lemma readPlist_minus5000_again pod dict st w :
  nullish dict = false ->
  is_string (get_opt dict "failureType") "-5000" = true ->
  currentAttempt st <> 1 ->
  truthy (get_opt dict "accountInfo") = false ->
  readPlist env email password code deviceId pod dict (st, w)
  = (Abruptly (Thrown (new_Error (failure_message dict))), (st, w)).
Proof.
  intros Hdict Hft Hone Hinfo. unfold readPlist. unfold bindB at 1.
  rewrite (get_present _ _ Hdict). cbn [liftR retB]. unfold bindB, locals.
  rewrite (is_string_other _ _ "5020" Hft) by discriminate.
  rewrite (is_string_other _ _ "" Hft) by discriminate.
  apply Z.eqb_neq in Hone. rewrite Hft, Hone, Hinfo. reflexivity.
Qed.

Lemma new_Error_plain v :
  instanceofAuthenticationError (new_Error v) = false
  /\ asError (new_Error v) = new_Error v.
Proof. destruct v; split; reflexivity. Qed.

(** The start of the loop, when the endpoint has been resolved. *)
Lemma authenticate_start existingCookies w :
  isOk (fst (prelude env existingCookies deviceId w)) = true ->
  exists st w0,
    authenticate env email password code existingCookies deviceId smsVerified w
    = run_loop passes st w0
    /\ calls w0 = calls w
    /\ currentAttempt st = 0 /\ redirectAttempt st = 0 /\ lastError st = None.
Proof.
  intros Hok. unfold authenticate.
  destruct (prelude env existingCookies deviceId w) as [[st|e] w0] eqn:Hpre;
    [|discriminate].
  destruct (prelude_run _ _ _ _ Hpre) as (Hcalls & _ & _ & Hst).
  destruct (Hst st eq_refl) as (_ & _ & Hlast & Hcur & Hred).
  exists st, w0. auto.
Qed.

(** A pass in which a response is received. *)
Lemma pass_received fuel st w response :
  in_budget st = true ->
  transport env (map fst (calls w))
    (request_of (set_currentAttempt (currentAttempt st + 1) st) w) = Ok response ->
  exists r front h,
    let st1 := set_storeFront front
                 (set_cookies r (set_currentAttempt (currentAttempt st + 1) st)) in
    let w1 := set_heap h (logged (set_currentAttempt (currentAttempt st + 1) st) w) in
    calls w1 = calls w
                 ++ [(request_of (set_currentAttempt (currentAttempt st + 1) st) w,
                      Ok response)]
    /\ run_loop (S fuel) st w
       = match interpret env email password code deviceId response (st1, w1) with
         | (Normal account, (_, w')) => Some (Ok account, w')
         | (Abruptly Continue, (st', w')) => run_loop fuel st' w'
         | (Abruptly (Thrown e), (st', w')) =>
             if instanceofAuthenticationError e then Some (Throw e, w')
             else run_loop fuel (set_lastError (asError e) st') w'
         end.
Proof.
  intros Hin Hans.
  destruct (tryBlock_received _ w response Hans) as (r & front & h & Hrun).
  exists r, front, h. cbv zeta. split.
  - unfold Authenticate.logged, set_heap. cbn [calls].
    unfold Authenticate.answer_of. rewrite Hans. reflexivity.
  - rewrite (loop_pass _ _ _ Hin), Hrun. reflexivity.
Qed.

(** C4. When the first answer is a 404 and no code was supplied, sign-in
    raises the verification-required signal at once: one request has been
    sent, and no other follows. *)
Theorem verification_required_on_404 existingCookies w response :
  isOk (fst (prelude env existingCookies deviceId w)) = true ->
  (forall req, transport env (map fst (calls w)) req = Ok response) ->
  Response.status response = 404 ->
  no_code code = true ->
  exists req w',
    authenticate env email password code existingCookies deviceId smsVerified w
    = Some (Throw (AuthenticationError
                     (i18n_t env "errors.auth.requiresVerification" []) true), w')
    /\ calls w' = calls w ++ [(req, Ok response)].
Proof.
  intros Hpre Hfirst H404 Hcode.
  destruct (authenticate_start _ _ Hpre) as (st & w0 & -> & Hcalls & Hcur & Hred & _).
  assert (in_budget st = true) as Hin.
  { unfold in_budget. rewrite Hcur, Hred. reflexivity. }
  destruct (pass_received 5%nat st w0 response Hin) as (r & front & h & Hlog & Hpass);
    [rewrite Hcalls; apply Hfirst |].
  cbv zeta in Hpass. unfold passes. rewrite Hpass.
  rewrite (interpret_404 _ _ _ H404 Hcode). cbn [requiresVerification instanceofAuthenticationError].
  eexists _, _. split; [reflexivity|].
  rewrite Hlog, Hcalls. reflexivity.
Qed.

(** The lock, whatever the collaborators: when the first answer carries
    failureType "5020", the error of the first pass is kept as [lastError]
    and the request goes out a second time. *)
Lemma locked_answer_is_retried existingCookies w response dict :
  isOk (fst (prelude env existingCookies deviceId w)) = true ->
  (forall req, transport env (map fst (calls w)) req = Ok response) ->
  reaches_plist response dict ->
  is_string (get_opt dict "failureType") "5020" = true ->
  exists result w' req1 second rest,
    authenticate env email password code existingCookies deviceId smsVerified w
    = Some (result, w')
    /\ calls w' = calls w ++ (req1, Ok response) :: second :: rest.
Proof.
  intros Hpre Hfirst Hreach Hft.
  destruct (authenticate_start _ _ Hpre) as (st & w0 & -> & Hcalls & Hcur & Hred & _).
  assert (in_budget st = true) as Hin.
  { unfold in_budget. rewrite Hcur, Hred. reflexivity. }
  destruct (pass_received 5%nat st w0 response Hin) as (r & front & h & Hlog & Hpass);
    [rewrite Hcalls; apply Hfirst |].
  cbv zeta in Hpass. unfold passes. rewrite Hpass. clear Hpass.
  set (st1 := set_storeFront front
                (set_cookies r (set_currentAttempt (currentAttempt st + 1) st))) in *.
  set (w1 := set_heap h (logged (set_currentAttempt (currentAttempt st + 1) st) w0)) in *.
  destruct (interpret_parsed response dict st1 w1 Hreach) as [pod1 ->].
  rewrite readPlist_locked; [|apply Hreach | exact Hft].
  rewrite (proj1 (new_Error_plain _)), (proj2 (new_Error_plain _)).
  match goal with
  | |- context [run_loop 5%nat ?s w1] => set (st2 := s)
  end.
  assert (in_budget st2 = true) as Hin2.
  { unfold in_budget. subst st2 st1. cbn. rewrite Hcur, Hred. reflexivity. }
  destruct (loop_returns 5%nat st2 w1) as [[result w'] Hloop].
  { unfold passes_left. rewrite Hin2. subst st2 st1. cbn. rewrite Hcur, Hred. cbn. lia. }
  exists result, w'. rewrite Hloop.
  rewrite (loop_pass _ _ _ Hin2) in Hloop.
  destruct (run_block _) as [flow [st3 w2]] eqn:Hrun.
  destruct (tryBlock_run _ _ _ _ _ Hrun) as (Hcalls2 & _).
  assert (exists rest, calls w' = calls w2 ++ rest) as [rest Hrest].
  { destruct flow as [account|[|e]].
    - injection Hloop as <- <-. exists []. symmetry. apply app_nil_r.
    - apply (loop_log _ _ _ _ _ Hloop).
    - destruct (instanceofAuthenticationError e).
      + injection Hloop as <- <-. exists []. symmetry. apply app_nil_r.
      + apply (loop_log _ _ _ _ _ Hloop). }
  eexists _, _, rest. split; [reflexivity|].
  rewrite Hrest, Hcalls2, Hlog, Hcalls, <- !app_assoc. reflexivity.
Qed.

(** A pass that follows a redirect gives the attempt back and counts a hop. *)
Lemma redirect_pass fuel st w :
  in_budget st = true ->
  followable (transport env (map fst (calls w))
                (request_of (set_currentAttempt (currentAttempt st + 1) st) w)) ->
  exists st' w' exchange,
    run_loop (S fuel) st w = run_loop fuel st' w'
    /\ currentAttempt st' = currentAttempt st
    /\ redirectAttempt st' = redirectAttempt st + 1
    /\ lastError st' = lastError st
    /\ calls w' = calls w ++ [exchange].
Proof.
  intros Hin (response & location & url & Hans & H302 & Hloc & Hne & Hurl).
  destruct (pass_received fuel st w response Hin Hans)
    as (r & front & h & Hlog & Hpass).
  cbv zeta in Hpass. rewrite Hpass.
  rewrite (interpret_redirect _ _ _ _ _ H302 Hloc Hne Hurl).
  eexists _, _, _. split; [reflexivity|]. cbn.
  split; [lia|]. split; [reflexivity|]. split; [reflexivity|]. exact Hlog.
Qed.

Lemma redirect_passes n :
  forall fuel st w,
    (forall hist req, followable (transport env hist req)) ->
    currentAttempt st < 2 ->
    redirectAttempt st + Z.of_nat n = 4 ->
    exists w' exchanges,
      run_loop (n + S fuel) st w
      = Some (Throw (default (Error (i18n_t env "errors.auth.unknownReason" []))
                             (lastError st)), w')
      /\ calls w' = calls w ++ exchanges
      /\ length exchanges = n.
Proof.
  induction n as [|n IH]; intros fuel st w Hall Hcur Hred.
  - exists w, []. rewrite app_nil_r. split; [|auto].
    apply loop_exit. unfold in_budget.
    replace (redirectAttempt st) with 4 by lia. apply andb_false_r.
  - assert (in_budget st = true) as Hin.
    { unfold in_budget. apply andb_true_iff. split; [apply Z.ltb_lt | apply Z.leb_le]; lia. }
    destruct (redirect_pass (n + S fuel) st w Hin (Hall _ _))
      as (st' & w1 & exchange & Hpass & Hcur' & Hred' & Hlast & Hlog).
    destruct (IH fuel st' w1 Hall) as (w' & exchanges & Hloop & Hlog' & Hlen); [lia..|].
    exists w', (exchange :: exchanges).
    cbn [Nat.add]. rewrite Hpass, Hloop, Hlast. split; [reflexivity|]. split.
    + rewrite Hlog', Hlog, <- app_assoc. reflexivity.
    + cbn. lia.
Qed.

(** A pass that gets a 302 without a location uses up its attempt: the
    error is caught, the attempt counter stays incremented, and the hops
    and the target are as they were. *)
Lemma lost_redirect_pass fuel st w response :
  in_budget st = true ->
  transport env (map fst (calls w))
    (request_of (set_currentAttempt (currentAttempt st + 1) st) w) = Ok response ->
  Response.status response = 302 ->
  header_missing (Response.headers response !! "location") = true ->
  exists st' w' exchange,
    run_loop (S fuel) st w = run_loop fuel st' w'
    /\ currentAttempt st' = currentAttempt st + 1
    /\ redirectAttempt st' = redirectAttempt st
    /\ lastError st' = Some (Error (i18n_t env "errors.auth.redirectLocation" []))
    /\ requestHost st' = requestHost st
    /\ requestPath st' = requestPath st
    /\ calls w' = calls w ++ [exchange].
Proof.
  intros Hin Hans H302 Hloc.
  destruct (pass_received fuel st w response Hin Hans)
    as (r & front & h & Hlog & Hpass).
  cbv zeta in Hpass. rewrite Hpass.
  rewrite (interpret_no_location _ _ _ H302 Hloc).
  cbn [instanceofAuthenticationError asError].
  eexists _, _, _. split; [reflexivity|].
  cbn. repeat split; try exact Hlog.
Qed.

(** C3, as the code has it. A 302 that names a location the loop can parse
    leaves the attempt counter where it was and counts one hop; when every
    answer is such a redirect, sign-in fails after four requests; whatever
    the answers, sign-in returns. A 302 without a location is not fatal: its
    error is caught and uses up the credential attempt it arrives in,
    whichever that is, the hops and the target staying as they were; the
    error is thrown by the call when no attempt is left after it, that is
    when it arrives in the second attempt; and when every answer is such a
    302, sign-in fails with that error after two requests. *)
Theorem redirects_are_bounded :
  (forall fuel st w,
      in_budget st = true ->
      followable (transport env (map fst (calls w))
                    (request_of (set_currentAttempt (currentAttempt st + 1) st) w)) ->
      exists st' w' exchange,
        run_loop (S fuel) st w = run_loop fuel st' w'
        /\ currentAttempt st' = currentAttempt st
        /\ redirectAttempt st' = redirectAttempt st + 1
        /\ lastError st' = lastError st
        /\ calls w' = calls w ++ [exchange])
  /\ (forall existingCookies w,
        isOk (fst (prelude env existingCookies deviceId w)) = true ->
        (forall hist req, followable (transport env hist req)) ->
        exists w' exchanges,
          authenticate env email password code existingCookies deviceId smsVerified w
          = Some (Throw (Error (i18n_t env "errors.auth.unknownReason" [])), w')
          /\ calls w' = calls w ++ exchanges
          /\ length exchanges = 4%nat)
  /\ (forall existingCookies w,
        exists outcome,
          authenticate env email password code existingCookies deviceId smsVerified w
          = Some outcome)
  /\ (forall fuel st w response,
        in_budget st = true ->
        transport env (map fst (calls w))
          (request_of (set_currentAttempt (currentAttempt st + 1) st) w) = Ok response ->
        Response.status response = 302 ->
        header_missing (Response.headers response !! "location") = true ->
        exists st' w' exchange,
          run_loop (S fuel) st w = run_loop fuel st' w'
          /\ currentAttempt st' = currentAttempt st + 1
          /\ redirectAttempt st' = redirectAttempt st
          /\ lastError st' = Some (Error (i18n_t env "errors.auth.redirectLocation" []))
          /\ requestHost st' = requestHost st
          /\ requestPath st' = requestPath st
          /\ calls w' = calls w ++ [exchange])
  /\ (forall fuel st w response,
        currentAttempt st = 1 ->
        redirectAttempt st <= 3 ->
        transport env (map fst (calls w))
          (request_of (set_currentAttempt (currentAttempt st + 1) st) w) = Ok response ->
        Response.status response = 302 ->
        header_missing (Response.headers response !! "location") = true ->
        exists w' exchange,
          run_loop (S (S fuel)) st w
          = Some (Throw (Error (i18n_t env "errors.auth.redirectLocation" [])), w')
          /\ calls w' = calls w ++ [exchange])
  /\ (forall existingCookies w,
        isOk (fst (prelude env existingCookies deviceId w)) = true ->
        (forall hist req,
            exists response,
              transport env hist req = Ok response
              /\ Response.status response = 302
              /\ header_missing (Response.headers response !! "location") = true) ->
        exists w' first second,
          authenticate env email password code existingCookies deviceId smsVerified w
          = Some (Throw (Error (i18n_t env "errors.auth.redirectLocation" [])), w')
          /\ calls w' = calls w ++ [first; second]).
Proof.
  assert (forall fuel st w response,
        currentAttempt st = 1 ->
        redirectAttempt st <= 3 ->
        transport env (map fst (calls w))
          (request_of (set_currentAttempt (currentAttempt st + 1) st) w) = Ok response ->
        Response.status response = 302 ->
        header_missing (Response.headers response !! "location") = true ->
        exists w' exchange,
          run_loop (S (S fuel)) st w
          = Some (Throw (Error (i18n_t env "errors.auth.redirectLocation" [])), w')
          /\ calls w' = calls w ++ [exchange]) as Hlast_attempt.
  { intros fuel st w response Hcur Hred Hans H302 Hloc.
    assert (in_budget st = true) as Hin.
    { unfold in_budget. apply andb_true_iff. split; [apply Z.ltb_lt | apply Z.leb_le]; lia. }
    destruct (lost_redirect_pass (S fuel) st w response Hin Hans H302 Hloc)
      as (st' & w' & exchange & Hpass & Hcur' & _ & Hlast & _ & _ & Hlog).
    rewrite Hpass, loop_exit.
    - rewrite Hlast. eexists _, _. split; [reflexivity | exact Hlog].
    - unfold in_budget. rewrite Hcur', Hcur. reflexivity. }
  split; [exact redirect_pass|]. split; [|split; [|split; [|split]]].
  - intros existingCookies w Hpre Hall.
    destruct (authenticate_start _ _ Hpre) as (st & w0 & -> & Hcalls & Hcur & Hred & Hlast).
    destruct (redirect_passes 4 1 st w0 Hall) as (w' & exchanges & Hloop & Hlog & Hlen);
      [lia..|].
    exists w', exchanges. rewrite <- Hcalls.
    change passes with (4 + 2)%nat. rewrite Hloop, Hlast. auto.
  - intros existingCookies w. unfold authenticate.
    destruct (prelude env existingCookies deviceId w) as [[st|e] w0] eqn:Hpre; [|eauto].
    destruct (prelude_run _ _ _ _ Hpre) as (_ & _ & _ & Hst).
    destruct (Hst st eq_refl) as (_ & _ & _ & Hcur & Hred).
    apply loop_returns. unfold passes_left, in_budget, passes.
    rewrite Hcur, Hred. cbn. lia.
  - exact lost_redirect_pass.
  - exact Hlast_attempt.
  - intros existingCookies w Hpre Hall.
    destruct (authenticate_start _ _ Hpre) as (st & w0 & -> & Hcalls & Hcur & Hred & _).
    assert (in_budget st = true) as Hin.
    { unfold in_budget. rewrite Hcur, Hred. reflexivity. }
    destruct (Hall (map fst (calls w0))
                (request_of (set_currentAttempt (currentAttempt st + 1) st) w0))
      as (r1 & Hans1 & H302 & Hloc).
    destruct (lost_redirect_pass 5%nat st w0 r1 Hin Hans1 H302 Hloc)
      as (st1 & w1 & first & Hpass & Hcur1 & Hred1 & _ & _ & _ & Hlog1).
    destruct (Hall (map fst (calls w1))
                (request_of (set_currentAttempt (currentAttempt st1 + 1) st1) w1))
      as (r2 & Hans2 & H302' & Hloc').
    destruct (Hlast_attempt 3%nat st1 w1 r2) as (w' & second & Hloop & Hlog2);
      try assumption; try lia.
    exists w', first, second. unfold passes. rewrite Hpass, Hloop.
    split; [reflexivity|].
    rewrite Hlog2, Hlog1, Hcalls, <- app_assoc. reflexivity.
Qed.

(** C9. Sign-in works on a copy of the caller's cookies: whatever comes of
    the call, every array the caller had is as it was; and the account
    returned holds another array, allocated during the call, with the
    cookies accumulated over its exchanges. *)
Theorem caller_cookies_untouched existingCookies w :
  (forall r, existingCookies = Some r -> (r < length (heap w))%nat) ->
  exists result w' exchanges,
    authenticate env email password code existingCookies deviceId smsVerified w
    = Some (result, w')
    /\ (forall r, (r < length (heap w))%nat -> heap w' !! r = heap w !! r)
    /\ calls w' = calls w ++ exchanges
    /\ (forall account,
          result = Ok account ->
          Some (cookies account) <> existingCookies
          /\ (length (heap w) <= cookies account)%nat
          /\ heap w' !! cookies account
             = Some (Spec.accumulated env
                       (match existingCookies with
                        | Some r => contents w r
                        | None => []
                        end) exchanges)).
Proof.
  intros Hlive. unfold authenticate.
  destruct (prelude env existingCookies deviceId w) as [[st|e] w0] eqn:Hpre;
    destruct (prelude_run _ _ _ _ Hpre) as (Hcalls & _ & Hheap & Hst).
  - destruct (Hst st eq_refl) as (Hck & _ & _ & Hcur & Hred).
    destruct (loop_returns passes st w0) as [[result w'] Hloop].
    { unfold passes_left, in_budget, passes. rewrite Hcur, Hred. cbn. lia. }
    destruct (loop_frame (length (heap w)) _ _ _ _ _ Hloop)
      as (Hframe & exchanges & Hlog & Hacct).
    { rewrite Hck, Hheap, length_app. cbn. lia. }
    exists result, w', exchanges. split; [exact Hloop|]. split; [|split].
    + intros r Hr. rewrite (Hframe r Hr), Hheap. apply lookup_app_l, Hr.
    + rewrite Hlog, Hcalls. reflexivity.
    + intros account Hok. destruct (Hacct account Hok) as [Hrange Hheld].
      split; [|split].
      * intros Heq. specialize (Hlive _ (eq_sym Heq)). lia.
      * lia.
      * assert (contents w0 (l_cookies st)
                = match existingCookies with Some r => contents w r | None => [] end) as Hcopy.
        { unfold contents at 1. rewrite Hck, Hheap.
          rewrite lookup_app_r by lia. rewrite Nat.sub_diag. reflexivity. }
        rewrite Hcopy in Hheld. rewrite <- Hheld. unfold contents.
        destruct (lookup_lt_is_Some_2 (heap w') (cookies account)) as [held Hsome]; [lia|].
        rewrite Hsome. reflexivity.
  - exists (Throw e), w0, []. split; [reflexivity|]. split; [|split].
    + intros r Hr. rewrite Hheap. apply lookup_app_l, Hr.
    + rewrite Hcalls, app_nil_r. reflexivity.
    + intros account Hok. discriminate.
Qed.

(** *** The requests of a call *)

(** What the loop logs: no more exchanges than the counters allow passes,
    each the request of some pass. *)
Lemma loop_exchanges fuel st w result w' :
  run_loop fuel st w = Some (result, w') ->
  exists exchanges,
    calls w' = calls w ++ exchanges
    /\ (length exchanges <= passes_left st)%nat
    /\ Forall (fun x => exists st0 w0, fst x = request_of st0 w0) exchanges.
Proof.
  revert st w. induction fuel as [|fuel IH]; intros st w Hloop; [discriminate|].
  destruct (in_budget st) eqn:Hin.
  - rewrite (loop_pass _ _ _ Hin) in Hloop.
    destruct (run_block _) as [flow [st' w1]] eqn:Hrun.
    destruct (tryBlock_run _ _ _ _ _ Hrun) as (Hcalls & _ & _ & Hcnt & _).
    cbn [currentAttempt redirectAttempt set_currentAttempt] in Hcnt.
    assert (forall st2, currentAttempt st2 = currentAttempt st' ->
                        redirectAttempt st2 = redirectAttempt st' ->
                        (passes_left st2 + 1 <= passes_left st)%nat) as Hless.
    { intros st2 Hc Hr. unfold passes_left. rewrite Hin.
      unfold in_budget in *. rewrite Hc, Hr.
      apply andb_true_iff in Hin as [Hcur Hred].
      apply Z.ltb_lt in Hcur. apply Z.leb_le in Hred.
      destruct Hcnt as [(_ & _ & -> & ->) | (-> & -> & _)];
        destruct (_ && _) eqn:Hin'; try lia;
        apply andb_true_iff in Hin' as [Hcur' Hred'];
        apply Z.ltb_lt in Hcur'; apply Z.leb_le in Hred'; lia. }
    assert (forall st2, currentAttempt st2 = currentAttempt st' ->
                        redirectAttempt st2 = redirectAttempt st' ->
                        run_loop fuel st2 w1 = Some (result, w') ->
              exists exchanges,
                calls w' = calls w ++ exchanges
                /\ (length exchanges <= passes_left st)%nat
                /\ Forall (fun x => exists st0 w0, fst x = request_of st0 w0) exchanges)
      as Hrest.
    { intros st2 Hc Hr Hloop2.
      destruct (IH _ _ Hloop2) as (rest & Hlog & Hlen & Hall).
      eexists. split; [rewrite Hlog, Hcalls, <- app_assoc; reflexivity|].
      split; [cbn [length app]; specialize (Hless st2 Hc Hr); lia|].
      apply List.Forall_cons; [eauto | exact Hall]. }
    assert (exists exchanges,
              calls w1 = calls w ++ exchanges
              /\ (length exchanges <= passes_left st)%nat
              /\ Forall (fun x => exists st0 w0, fst x = request_of st0 w0) exchanges)
      as Hone.
    { eexists. split; [exact Hcalls|].
      split; [cbn [length]; specialize (Hless st' eq_refl eq_refl); lia|].
      apply List.Forall_cons; [eauto | apply List.Forall_nil]. }
    destruct flow as [account|[|e]].
    + injection Hloop as <- <-. exact Hone.
    + apply (Hrest st' eq_refl eq_refl Hloop).
    + destruct (instanceofAuthenticationError e).
      * injection Hloop as <- <-. exact Hone.
      * apply (Hrest (set_lastError (asError e) st') eq_refl eq_refl Hloop).
  - rewrite (loop_exit _ _ _ Hin) in Hloop. injection Hloop as <- <-.
    exists []. rewrite app_nil_r. split; [reflexivity|]. split; [cbn; lia|].
    apply List.Forall_nil.
Qed.

(** What a call logs. *)
Lemma authenticate_exchanges existingCookies w :
  exists result w' exchanges,
    authenticate env email password code existingCookies deviceId smsVerified w
    = Some (result, w')
    /\ calls w' = calls w ++ exchanges
    /\ (length exchanges <= 5)%nat
    /\ Forall (fun x => exists st0 w0, fst x = request_of st0 w0) exchanges.
Proof.
  unfold authenticate.
  destruct (prelude env existingCookies deviceId w) as [[st|e] w0] eqn:Hpre;
    destruct (prelude_run _ _ _ _ Hpre) as (Hcalls & _ & _ & Hst).
  - destruct (Hst st eq_refl) as (_ & _ & _ & Hcur & Hred).
    destruct (loop_returns passes st w0) as [[result w'] Hloop].
    { unfold passes_left, in_budget, passes. rewrite Hcur, Hred. cbn. lia. }
    destruct (loop_exchanges _ _ _ _ _ Hloop) as (exchanges & Hlog & Hlen & Hall).
    exists result, w', exchanges. split; [exact Hloop|].
    split; [rewrite Hlog, Hcalls; reflexivity|]. split; [|exact Hall].
    unfold passes_left, in_budget in Hlen. rewrite Hcur, Hred in Hlen. cbn in Hlen. lia.
  - exists (Throw e), w0, []. split; [reflexivity|].
    split; [rewrite Hcalls, app_nil_r; reflexivity|]. split; [cbn; lia|].
    apply List.Forall_nil.
Qed.

(** X18. Sign-in always returns, and it never sends more than five
    requests: the two counters allow two attempts and four redirects, and
    the loop stops at the second attempt or the fourth redirect. *)
Theorem at_most_five_requests existingCookies w :
  exists result w' exchanges,
    authenticate env email password code existingCookies deviceId smsVerified w
    = Some (result, w')
    /\ calls w' = calls w ++ exchanges
    /\ (length exchanges <= 5)%nat.
Proof.
  destruct (authenticate_exchanges existingCookies w)
    as (result & w' & exchanges & Hrun & Hlog & Hlen & _).
  exists result, w', exchanges. auto.
Qed.

(** X19. Every request of a sign-in is a POST with the one form of the
    call, url-encoded: the same Apple ID, attempt tag, device id and
    password from the first request to the last, with the array of cookies
    held at that point. Only host, path and cookies change. *)
Theorem every_request_carries_the_form existingCookies w :
  exists result w' exchanges,
    authenticate env email password code existingCookies deviceId smsVerified w
    = Some (result, w')
    /\ calls w' = calls w ++ exchanges
    /\ Forall (fun x =>
                 Request.method (fst x) = "POST"%string
                 /\ Request.headers (fst x)
                    = {[ "Content-Type"%string := "application/x-www-form-urlencoded"%string ]}
                 /\ Request.body (fst x)
                    = Some (signInForm env email password code deviceId smsVerified)
                 /\ Request.cookies (fst x) <> None) exchanges.
Proof.
  destruct (authenticate_exchanges existingCookies w)
    as (result & w' & exchanges & Hrun & Hlog & _ & Hall).
  exists result, w', exchanges. split; [exact Hrun|]. split; [exact Hlog|].
  eapply List.Forall_impl; [|exact Hall].
  intros x (st0 & w0 & ->). repeat split. discriminate.
Qed.

(** *** Before the first request *)

(** X20. Without an endpoint nothing is sent: when the default URL does
    not parse (though it is never used), or the bag cannot be fetched, or
    its authURL does not parse, sign-in throws that failure and makes no
    request. *)
Theorem no_endpoint_no_request existingCookies w e :
  new_URL env (defaultAuthURL env) = Throw e
  \/ (isOk (new_URL env (defaultAuthURL env)) = true
      /\ (fetchBag env deviceId = Throw e
          \/ exists bag, fetchBag env deviceId = Ok bag
                         /\ new_URL env (authURL bag) = Throw e)) ->
  exists w',
    authenticate env email password code existingCookies deviceId smsVerified w
    = Some (Throw e, w')
    /\ calls w' = calls w.
Proof.
  intros Hfail. unfold authenticate.
  destruct (prelude env existingCookies deviceId w) as [result w0] eqn:Hpre.
  destruct (prelude_run _ _ _ _ Hpre) as (Hcalls & _).
  assert (result = Throw e) as ->.
  { unfold prelude, mbind, lift, ret in Hpre.
    destruct Hfail as [H0 | [H0 [H1 | (bag & H1 & H2)]]].
    - rewrite H0 in Hpre. injection Hpre as <- _. reflexivity.
    - destruct (new_URL env (defaultAuthURL env)); [|discriminate].
      rewrite H1 in Hpre. injection Hpre as <- _. reflexivity.
    - destruct (new_URL env (defaultAuthURL env)); [|discriminate].
      rewrite H1, H2 in Hpre. injection Hpre as <- _. reflexivity. }
  exists w0. split; [reflexivity | exact Hcalls].
Qed.

(** The locals and the world the loop starts from. *)
Lemma prelude_endpoint existingCookies w u0 bag u :
  new_URL env (defaultAuthURL env) = Ok u0 ->
  fetchBag env deviceId = Ok bag ->
  new_URL env (authURL bag) = Ok u ->
  prelude env existingCookies deviceId w
  = (Ok {| l_cookies := length (heap w);
           storeFront := "";
           lastError := None;
           requestHost := hostname (searchParams_set env u "guid" deviceId);
           requestPath := pathname (searchParams_set env u "guid" deviceId)
                          +:+ search (searchParams_set env u "guid" deviceId);
           currentAttempt := 0;
           redirectAttempt := 0 |},
     set_heap (heap w ++ [match existingCookies with
                          | Some r => contents w r
                          | None => []
                          end]) w).
Proof.
  intros H0 H1 H2. unfold prelude, mbind, lift, ret. rewrite H0, H1, H2. reflexivity.
Qed.

Lemma contents_last (w : World) held :
  contents (set_heap (heap w ++ [held]) w) (length (heap w)) = held.
Proof.
  unfold contents, set_heap. cbn [heap].
  rewrite lookup_app_r by lia. rewrite Nat.sub_diag. reflexivity.
Qed.

(** X21. The first request goes to the endpoint of the bag, host and
    path with the guid set to the device id, and carries the cookies the
    caller passed, or none. *)
Theorem first_request_goes_to_the_bag_endpoint existingCookies w u0 bag u :
  new_URL env (defaultAuthURL env) = Ok u0 ->
  fetchBag env deviceId = Ok bag ->
  new_URL env (authURL bag) = Ok u ->
  let endpoint := searchParams_set env u "guid" deviceId in
  exists result w' req answer rest,
    authenticate env email password code existingCookies deviceId smsVerified w
    = Some (result, w')
    /\ calls w' = calls w ++ (req, answer) :: rest
    /\ Request.host req = hostname endpoint
    /\ Request.path req = pathname endpoint +:+ search endpoint
    /\ Request.cookies req = Some (match existingCookies with
                                   | Some r => contents w r
                                   | None => []
                                   end).
Proof.
  intros H0 H1 H2. cbv zeta. unfold authenticate.
  rewrite (prelude_endpoint existingCookies w u0 bag u H0 H1 H2).
  match goal with
  | |- context [loop passes _ _ _ _ _ _ ?s ?w1] => set (st := s); set (w0 := w1)
  end.
  destruct (loop_returns passes st w0) as [[result w'] Hloop].
  { unfold passes_left, in_budget, passes. cbn. lia. }
  exists result, w'. rewrite Hloop.
  change passes with (S 5) in Hloop. rewrite loop_pass in Hloop by reflexivity.
  destruct (run_block _) as [flow [st' w1]] eqn:Hrun.
  destruct (tryBlock_run _ _ _ _ _ Hrun) as (Hcalls & _).
  assert (exists rest, calls w' = calls w1 ++ rest) as [rest Hrest].
  { destruct flow as [account|[|e]].
    - injection Hloop as <- <-. exists []. symmetry. apply app_nil_r.
    - apply (loop_log _ _ _ _ _ Hloop).
    - destruct (instanceofAuthenticationError e).
      + injection Hloop as <- <-. exists []. symmetry. apply app_nil_r.
      + apply (loop_log _ _ _ _ _ Hloop). }
  eexists _, _, rest. split; [reflexivity|]. split.
  { rewrite Hrest, Hcalls, <- app_assoc. reflexivity. }
  split; [reflexivity|]. split; [reflexivity|].
  cbn [Authenticate.request_of signInRequest Request.cookies l_cookies set_currentAttempt].
  subst st w0. cbn [l_cookies]. rewrite contents_last. reflexivity.
Qed.

(** *** What a pass makes of an answer, in full *)

(** The store front after a response. *)
Lemma readStoreFront_exact response st w :
  readStoreFront response (st, w)
  = (Normal tt,
     (set_storeFront
        (let storeHeader := Response.headers response !! "x-set-apple-store-front" in
         if header_missing storeHeader then storeFront st
         else if (before_dash (default "" storeHeader) =? "")%string then storeFront st
              else before_dash (default "" storeHeader)) st, w)).
Proof.
  unfold readStoreFront, when, assign, retB. cbv zeta.
  destruct (header_missing _); cbn [negb]; [destruct st; reflexivity|].
  destruct (_ =? _)%string; cbn [negb]; [destruct st; reflexivity | reflexivity].
Qed.

Lemma store_front_first (h : option string) :
  (if header_missing h then ""%string
   else if (before_dash (default "" h) =? "")%string then ""%string
        else before_dash (default "" h))
  = before_dash (default "" h).
Proof.
  destruct h as [s|]; [|reflexivity].
  change (default ""%string (Some s)) with s. cbn [header_missing].
  destruct (String.eqb_spec s "") as [->|_]; [reflexivity|].
  destruct (String.eqb_spec (before_dash s) "") as [Hs|_]; [|reflexivity].
  symmetry. exact Hs.
Qed.

(** A pass whose exchange fails. *)
Lemma tryBlock_failed st w e :
  answer_of st w = Throw e ->
  run_block (st, w) = (Abruptly (Thrown e), (st, logged st w)).
Proof.
  intros Hans. unfold tryBlock. unfold bindB at 1. rewrite send_run, Hans. reflexivity.
Qed.

(** A pass in which a response is received: the merge, the store front,
    then the reading of the response. *)
Lemma tryBlock_answered st w response :
  answer_of st w = Ok response ->
  (l_cookies st < length (heap w))%nat ->
  exists r h,
    let st1 :=
      set_storeFront
        (let storeHeader := Response.headers response !! "x-set-apple-store-front" in
         if header_missing storeHeader then storeFront st
         else if (before_dash (default "" storeHeader) =? "")%string then storeFront st
              else before_dash (default "" storeHeader)) (set_cookies r st) in
    let w1 := set_heap h (logged st w) in
    run_block (st, w) = interpret env email password code deviceId response (st1, w1)
    /\ calls w1 = calls w ++ [(request_of st w, Ok response)]
    /\ (r < length h)%nat
    /\ contents w1 r
       = Spec.after_merge
           (extractAndMergeCookies env (Response.rawHeaders response)
                                   (contents w (l_cookies st))).
Proof.
  intros Hans Hlive. unfold tryBlock. unfold bindB at 1. rewrite send_run, Hans.
  unfold bindB at 1.
  destruct (mergeCookies env (Response.rawHeaders response) (st, logged st w))
    as [f1 [st1 w1]] eqn:Hmerge.
  destruct (mergeCookies_run _ _ _ _ _ _ Hmerge) as (Hc1 & Hu1 & Hst1 & ->).
  destruct (mergeCookies_heap _ _ _ _ _ _ Hmerge Hlive) as (_ & Hlive1 & _ & _ & Hheld).
  unfold bindB at 1. rewrite readStoreFront_exact.
  exists (l_cookies st1), (heap w1). cbv zeta.
  assert (set_heap (heap w1) (logged st w) = w1) as ->.
  { destruct w1. unfold set_heap. cbn in *. rewrite Hc1, Hu1. reflexivity. }
  rewrite <- Hst1.
  assert (storeFront st1 = storeFront st) as -> by (rewrite Hst1; reflexivity).
  split; [reflexivity|]. split.
  { rewrite Hc1. unfold Authenticate.logged, Authenticate.answer_of. cbn [calls].
    unfold Authenticate.answer_of in Hans. rewrite Hans. reflexivity. }
  split; [exact Hlive1 | exact Hheld].
Qed.

(** The reading of a response that is a document. *)
Lemma interpret_document response dict st w :
  reaches_plist response dict ->
  interpret env email password code deviceId response (st, w)
  = readPlist env email password code deviceId
      (if header_missing (Response.headers response !! "pod") then None
       else Response.headers response !! "pod") dict (st, w).
Proof.
  intros (H302 & H404 & Hbody & Hparse & Hdict). unfold interpret. cbv zeta.
  apply Z.eqb_neq in H302. rewrite H302.
  assert ((Response.status response =? 404) && no_code code = false) as ->.
  { destruct (Z.eqb_spec (Response.status response) 404) as [H|H]; [|reflexivity].
    cbn. apply H404, H. }
  apply String.eqb_neq in Hbody. rewrite Hbody, Hparse. reflexivity.
Qed.

Lemma readPlist_bad_login pod dict st w :
  nullish dict = false ->
  is_string (get_opt dict "failureType") "" = true ->
  no_code code = true ->
  is_string (get_opt dict "customerMessage") "MZFinance.BadLogin.Configurator_message" = true ->
  readPlist env email password code deviceId pod dict (st, w)
  = (Abruptly (Thrown (requiresVerification env)), (st, w)).
Proof.
  intros Hdict Hft Hcode Hcm. unfold readPlist. unfold bindB at 1.
  rewrite (get_present _ _ Hdict). cbn [liftR retB]. unfold bindB, locals.
  rewrite (is_string_other _ _ "5020" Hft) by discriminate.
  rewrite (is_string_other _ _ "-5000" Hft) by discriminate.
  rewrite Hft, Hcode, Hcm. reflexivity.
Qed.

Lemma readPlist_account pod dict st w :
  nullish dict = false ->
  is_string (get_opt dict "failureType") "5020" = false ->
  is_string (get_opt dict "failureType") "-5000" && (currentAttempt st =? 1) = false ->
  is_string (get_opt dict "failureType") "" && no_code code
    && is_string (get_opt dict "customerMessage") "MZFinance.BadLogin.Configurator_message"
  = false ->
  truthy (get_opt dict "accountInfo") = true ->
  truthy (get_opt (get_opt dict "accountInfo") "address") = true ->
  readPlist env email password code deviceId pod dict (st, w)
  = (Normal
       {| Authenticate.email := email;
          Authenticate.password := password;
          appleId := coalesce (get_opt (get_opt dict "accountInfo") "appleId") (VStr "");
          store := storeFront st;
          firstName :=
            coalesce (get_opt (get_opt (get_opt dict "accountInfo") "address") "firstName")
                     (VStr "");
          lastName :=
            coalesce (get_opt (get_opt (get_opt dict "accountInfo") "address") "lastName")
                     (VStr "");
          passwordToken := coalesce (get_opt dict "passwordToken") (VStr "");
          directoryServicesIdentifier :=
            String_ (coalesce (get_opt dict "dsPersonId") (VStr ""));
          cookies := l_cookies st;
          deviceIdentifier := deviceId;
          pod := pod |}, (st, w)).
Proof.
  intros Hdict H5020 H5000 Hbad Hinfo Haddress. unfold readPlist. unfold bindB at 1.
  rewrite (get_present _ _ Hdict). cbn [liftR retB]. unfold bindB, locals.
  rewrite H5020, H5000, Hbad, Hinfo, Haddress. reflexivity.
Qed.

(** The start of the loop, on the heap. *)
Lemma authenticate_begin existingCookies w :
  isOk (fst (prelude env existingCookies deviceId w)) = true ->
  exists st w0,
    authenticate env email password code existingCookies deviceId smsVerified w
    = run_loop passes st w0
    /\ calls w0 = calls w
    /\ currentAttempt st = 0 /\ redirectAttempt st = 0 /\ lastError st = None
    /\ storeFront st = ""%string
    /\ (l_cookies st < length (heap w0))%nat
    /\ contents w0 (l_cookies st)
       = match existingCookies with Some r => contents w r | None => [] end.
Proof.
  intros Hok. unfold authenticate.
  destruct (prelude env existingCookies deviceId w) as [[st|e] w0] eqn:Hpre;
    [|discriminate].
  destruct (prelude_run _ _ _ _ Hpre) as (Hcalls & _ & Hheap & Hst).
  destruct (Hst st eq_refl) as (Hck & Hfront & Hlast & Hcur & Hred).
  exists st, w0. repeat split; auto.
  - rewrite Hck, Hheap, length_app. cbn. lia.
  - unfold contents at 1. rewrite Hck, Hheap.
    rewrite lookup_app_r by lia. rewrite Nat.sub_diag. reflexivity.
Qed.

(** X22. When the first answer is a document with an empty failureType
    and the customer message MZFinance.BadLogin.Configurator_message, and
    no code was supplied, sign-in raises the verification-required signal at
    once: one request has been sent, and no other follows. *)
Theorem bad_login_asks_for_a_code existingCookies w response dict :
  isOk (fst (prelude env existingCookies deviceId w)) = true ->
  (forall req, transport env (map fst (calls w)) req = Ok response) ->
  reaches_plist response dict ->
  is_string (get_opt dict "failureType") "" = true ->
  is_string (get_opt dict "customerMessage") "MZFinance.BadLogin.Configurator_message" = true ->
  no_code code = true ->
  exists req w',
    authenticate env email password code existingCookies deviceId smsVerified w
    = Some (Throw (AuthenticationError
                     (i18n_t env "errors.auth.requiresVerification" []) true), w')
    /\ calls w' = calls w ++ [(req, Ok response)].
Proof.
  intros Hpre Hfirst Hreach Hft Hcm Hcode.
  destruct (authenticate_start _ _ Hpre) as (st & w0 & -> & Hcalls & Hcur & Hred & _).
  assert (in_budget st = true) as Hin.
  { unfold in_budget. rewrite Hcur, Hred. reflexivity. }
  destruct (pass_received 5%nat st w0 response Hin) as (r & front & h & Hlog & Hpass);
    [rewrite Hcalls; apply Hfirst |].
  cbv zeta in Hpass. unfold passes. rewrite Hpass.
  rewrite (interpret_document _ _ _ _ Hreach).
  rewrite readPlist_bad_login by (try apply Hreach; assumption).
  cbn [requiresVerification instanceofAuthenticationError].
  eexists _, _. split; [reflexivity|].
  rewrite Hlog, Hcalls. reflexivity.
Qed.

(** X23. The account of a first answer that signs in (a document with
    account info and an address, and no failure among the three the loop
    knows): e-mail, password and device id are the caller's; the Apple ID,
    the names and the password token are the answer's, the empty string
    when absent; the directory-services id is the answer's made a string,
    for an id that prints exactly (a string, or a number that is a safe
    integer); the store is the store-front header up to its first dash; the
    pod is the pod header unless empty. One request has been sent. *)
Theorem account_of_a_signed_in_answer existingCookies w response dict :
  isOk (fst (prelude env existingCookies deviceId w)) = true ->
  (forall req, transport env (map fst (calls w)) req = Ok response) ->
  reaches_plist response dict ->
  let failureType := get_opt dict "failureType" in
  let accountInfo := get_opt dict "accountInfo" in
  let address := get_opt accountInfo "address" in
  is_string failureType "5020" = false ->
  is_string failureType "-5000" = false ->
  is_string failureType "" && no_code code
    && is_string (get_opt dict "customerMessage") "MZFinance.BadLogin.Configurator_message"
  = false ->
  truthy accountInfo = true ->
  truthy address = true ->
  prints_exactly (get_opt dict "dsPersonId") = true ->
  exists account req w',
    authenticate env email password code existingCookies deviceId smsVerified w
    = Some (Ok account, w')
    /\ calls w' = calls w ++ [(req, Ok response)]
    /\ Authenticate.email account = email
    /\ Authenticate.password account = password
    /\ deviceIdentifier account = deviceId
    /\ appleId account = coalesce (get_opt accountInfo "appleId") (VStr "")
    /\ firstName account = coalesce (get_opt address "firstName") (VStr "")
    /\ lastName account = coalesce (get_opt address "lastName") (VStr "")
    /\ passwordToken account = coalesce (get_opt dict "passwordToken") (VStr "")
    /\ directoryServicesIdentifier account
       = String_ (coalesce (get_opt dict "dsPersonId") (VStr ""))
    /\ store account
       = before_dash (default "" (Response.headers response !! "x-set-apple-store-front"))
    /\ pod account
       = (if header_missing (Response.headers response !! "pod") then None
          else Response.headers response !! "pod").
Proof.
  intros Hpre Hfirst Hreach. cbv zeta. intros H5020 H5000 Hbad Hinfo Haddress _.
  destruct (authenticate_begin _ _ Hpre)
    as (st & w0 & -> & Hcalls & Hcur & Hred & _ & Hfront & Hlive & _).
  assert (in_budget st = true) as Hin.
  { unfold in_budget. rewrite Hcur, Hred. reflexivity. }
  unfold passes. rewrite (loop_pass _ _ _ Hin).
  set (st0 := set_currentAttempt (currentAttempt st + 1) st).
  destruct (tryBlock_answered st0 w0 response) as (r & h & Hrun & Hlog & _).
  { unfold Authenticate.answer_of. rewrite Hcalls. apply Hfirst. }
  { exact Hlive. }
  cbv zeta in Hrun, Hlog. rewrite Hrun.
  rewrite (interpret_document _ _ _ _ Hreach).
  rewrite readPlist_account; try assumption; [|apply Hreach | rewrite H5000; reflexivity].
  eexists _, _, _. split; [reflexivity|].
  split; [rewrite Hlog, Hcalls; reflexivity|].
  cbn [Authenticate.email Authenticate.password deviceIdentifier appleId firstName lastName
       passwordToken directoryServicesIdentifier store pod storeFront set_storeFront].
  repeat (split; [reflexivity|]). split; [|reflexivity].
  subst st0. cbn [storeFront set_cookies set_currentAttempt]. rewrite Hfront.
  apply store_front_first.
Qed.

(** *** The second request *)

(** X24. When the first exchange fails (the transport throws something
    else than an AuthenticationError), the very same request is sent once
    more; and when that one fails again, nothing more is sent and the error
    thrown is the second one. *)
Theorem failed_exchange_is_retried existingCookies w e1 :
  isOk (fst (prelude env existingCookies deviceId w)) = true ->
  (forall req, transport env (map fst (calls w)) req = Throw e1) ->
  instanceofAuthenticationError e1 = false ->
  exists req answer2 rest result w',
    authenticate env email password code existingCookies deviceId smsVerified w
    = Some (result, w')
    /\ calls w' = calls w ++ (req, Throw e1) :: (req, answer2) :: rest
    /\ answer2 = transport env (map fst (calls w) ++ [req]) req
    /\ (forall e2,
          answer2 = Throw e2 ->
          instanceofAuthenticationError e2 = false ->
          rest = [] /\ result = Throw (asError e2)).
Proof.
  intros Hpre Hfirst Hplain.
  destruct (authenticate_start _ _ Hpre) as (st & w0 & -> & Hcalls & Hcur & Hred & _).
  assert (in_budget st = true) as Hin.
  { unfold in_budget. rewrite Hcur, Hred. reflexivity. }
  unfold passes. rewrite (loop_pass _ _ _ Hin).
  set (st0 := set_currentAttempt (currentAttempt st + 1) st).
  rewrite (tryBlock_failed st0 w0 e1)
    by (unfold Authenticate.answer_of; rewrite Hcalls; apply Hfirst).
  rewrite Hplain.
  set (st1 := set_lastError (asError e1) st0).
  set (w1 := logged st0 w0).
  assert (in_budget st1 = true) as Hin1.
  { unfold in_budget. subst st1 st0. cbn. rewrite Hcur, Hred. reflexivity. }
  set (st1' := set_currentAttempt (currentAttempt st1 + 1) st1).
  assert (request_of st1' w1 = request_of st0 w0) as Hsame by reflexivity.
  assert (calls w1 = calls w ++ [(request_of st0 w0, Throw e1)]) as Hlog1.
  { subst w1. unfold Authenticate.logged, Authenticate.answer_of. cbn [calls].
    rewrite Hcalls, Hfirst. reflexivity. }
  assert (answer_of st1' w1
          = transport env (map fst (calls w) ++ [request_of st0 w0]) (request_of st0 w0))
    as Hans2.
  { unfold Authenticate.answer_of. fold (request_of st1' w1).
    rewrite Hsame, Hlog1, map_app. reflexivity. }
  destruct (loop_returns 5%nat st1 w1) as [[result w'] Hloop].
  { unfold passes_left. rewrite Hin1. subst st1 st0. cbn. rewrite Hcur, Hred. cbn. lia. }
  rewrite Hloop. rewrite (loop_pass _ _ _ Hin1) in Hloop. fold st1' in Hloop.
  destruct (run_block (st1', w1)) as [flow [st2 w2]] eqn:Hrun.
  destruct (tryBlock_run _ _ _ _ _ Hrun) as (Hcalls2 & _).
  rewrite Hsame, Hans2 in Hcalls2.
  assert (exists rest, calls w' = calls w2 ++ rest) as [rest Hrest].
  { destruct flow as [account|[|e]].
    - injection Hloop as <- <-. exists []. symmetry. apply app_nil_r.
    - apply (loop_log _ _ _ _ _ Hloop).
    - destruct (instanceofAuthenticationError e).
      + injection Hloop as <- <-. exists []. symmetry. apply app_nil_r.
      + apply (loop_log _ _ _ _ _ Hloop). }
  eexists _, _, rest, result, w'. split; [reflexivity|]. split.
  { rewrite Hrest, Hcalls2, Hlog1, <- !app_assoc. reflexivity. }
  split; [reflexivity|].
  intros e2 He2 Hplain2. rewrite <- Hans2 in He2.
  rewrite (tryBlock_failed st1' w1 e2 He2) in Hrun. injection Hrun as <- <- <-.
  rewrite Hplain2 in Hloop.
  rewrite loop_exit in Hloop
    by (unfold in_budget; subst st1' st1 st0; cbn; rewrite Hcur; reflexivity).
  injection Hloop as <- <-. split; [|reflexivity].
  apply (app_inv_head (calls (logged st1' w1))). rewrite app_nil_r. symmetry. exact Hrest.
Qed.

(** X25. A redirect is followed with its cookies: after a 302 that names
    a location, the next request goes to the host and path of the location,
    with the same method and form, and carries the cookies sent first with
    the headers of the redirect merged in. *)
Theorem redirect_is_followed_with_its_cookies existingCookies w response location url :
  isOk (fst (prelude env existingCookies deviceId w)) = true ->
  (forall req, transport env (map fst (calls w)) req = Ok response) ->
  Response.status response = 302 ->
  Response.headers response !! "location" = Some location ->
  location <> ""%string ->
  new_URL env location = Ok url ->
  exists req1 req2 answer2 rest result w',
    authenticate env email password code existingCookies deviceId smsVerified w
    = Some (result, w')
    /\ calls w' = calls w ++ (req1, Ok response) :: (req2, answer2) :: rest
    /\ Request.cookies req1
       = Some (match existingCookies with Some r => contents w r | None => [] end)
    /\ Request.host req2 = hostname url
    /\ Request.path req2 = pathname url +:+ search url
    /\ Request.method req2 = Request.method req1
    /\ Request.body req2 = Request.body req1
    /\ Request.cookies req2
       = Some (Spec.after_merge
                 (extractAndMergeCookies env (Response.rawHeaders response)
                    (match existingCookies with Some r => contents w r | None => [] end))).
Proof.
  intros Hpre Hfirst H302 Hloc Hne Hurl.
  destruct (authenticate_begin _ _ Hpre)
    as (st & w0 & -> & Hcalls & Hcur & Hred & _ & _ & Hlive & Hheld).
  assert (in_budget st = true) as Hin.
  { unfold in_budget. rewrite Hcur, Hred. reflexivity. }
  unfold passes. rewrite (loop_pass _ _ _ Hin).
  set (st0 := set_currentAttempt (currentAttempt st + 1) st).
  destruct (tryBlock_answered st0 w0 response) as (r & h & Hrun & Hlog & Hr & Hmerged).
  { unfold Authenticate.answer_of. rewrite Hcalls. apply Hfirst. }
  { exact Hlive. }
  cbv zeta in Hrun, Hlog, Hmerged. rewrite Hrun.
  rewrite (interpret_redirect _ _ _ _ _ H302 Hloc Hne Hurl).
  match goal with
  | |- context [run_loop 5%nat ?s ?wx] => set (st1 := s); set (w1 := wx) in *
  end.
  assert (in_budget st1 = true) as Hin1.
  { unfold in_budget. subst st1 st0. cbn. rewrite Hcur, Hred. reflexivity. }
  destruct (loop_returns 5%nat st1 w1) as [[result w'] Hloop].
  { unfold passes_left. rewrite Hin1. subst st1 st0. cbn. rewrite Hcur, Hred. cbn. lia. }
  rewrite Hloop. rewrite (loop_pass _ _ _ Hin1) in Hloop.
  set (st1' := set_currentAttempt (currentAttempt st1 + 1) st1) in *.
  destruct (run_block (st1', w1)) as [flow [st2 w2]] eqn:Hrun2.
  destruct (tryBlock_run _ _ _ _ _ Hrun2) as (Hcalls2 & _).
  assert (exists rest, calls w' = calls w2 ++ rest) as [rest Hrest].
  { destruct flow as [account|[|e]].
    - injection Hloop as <- <-. exists []. symmetry. apply app_nil_r.
    - apply (loop_log _ _ _ _ _ Hloop).
    - destruct (instanceofAuthenticationError e).
      + injection Hloop as <- <-. exists []. symmetry. apply app_nil_r.
      + apply (loop_log _ _ _ _ _ Hloop). }
  exists (request_of st0 w0), (request_of st1' w1), (answer_of st1' w1), rest, result, w'.
  split; [reflexivity|]. split.
  { rewrite Hrest, Hcalls2, Hlog, Hcalls, <- !app_assoc. reflexivity. }
  split.
  { cbn [Authenticate.request_of signInRequest Request.cookies]. subst st0.
    cbn [l_cookies set_currentAttempt]. rewrite Hheld. reflexivity. }
  repeat (split; [reflexivity|]).
  cbn [Authenticate.request_of signInRequest Request.cookies]. subst st1' st1.
  cbn [l_cookies set_currentAttempt set_redirectAttempt set_target set_storeFront set_cookies].
  rewrite Hmerged. subst st0. cbn [l_cookies set_currentAttempt]. rewrite Hheld. reflexivity.
Qed.

(** *** The heap of a call *)

(** A call leaves the arrays it finds as they are. *)
Lemma authenticate_frame existingCookies w :
  (forall r, existingCookies = Some r -> (r < length (heap w))%nat) ->
  exists result w',
    authenticate env email password code existingCookies deviceId smsVerified w
    = Some (result, w')
    /\ forall r, (r < length (heap w))%nat -> heap w' !! r = heap w !! r.
Proof.
  intros Hlive. unfold authenticate.
  destruct (prelude env existingCookies deviceId w) as [[st|e] w0] eqn:Hpre;
    destruct (prelude_run _ _ _ _ Hpre) as (Hcalls & _ & Hheap & Hst).
  - destruct (Hst st eq_refl) as (Hck & _ & _ & Hcur & Hred).
    destruct (loop_returns passes st w0) as [[result w'] Hloop].
    { unfold passes_left, in_budget, passes. rewrite Hcur, Hred. cbn. lia. }
    destruct (loop_frame (length (heap w)) _ _ _ _ _ Hloop) as (Hframe & _).
    { rewrite Hck, Hheap, length_app. cbn. lia. }
    exists result, w'. split; [exact Hloop|].
    intros r Hr. rewrite (Hframe r Hr), Hheap. apply lookup_app_l, Hr.
  - exists (Throw e), w0. split; [reflexivity|].
    intros r Hr. rewrite Hheap. apply lookup_app_l, Hr.
Qed.

(** *** The verification signal *)

(** Where the reading of a response throws an [AuthenticationError], it is
    the verification signal, and no code was supplied. *)
Lemma interpret_signal response st w e st' w' :
  plain_collaborators env deviceId ->
  interpret env email password code deviceId response (st, w)
  = (Abruptly (Thrown e), (st', w')) ->
  instanceofAuthenticationError e = true ->
  e = requiresVerification env /\ no_code code = true.
Proof.
  intros (_ & Hurl & Hplist & _). unfold interpret, readPlist. cbv zeta. intros H Hauth.
  run_body H; try discriminate; injection H as <- <- <-;
    try discriminate;
    try (rewrite (proj1 (new_Error_plain _)) in Hauth; discriminate).
  all: try match goal with
           | Hx : new_URL env _ = Throw _ |- _ =>
               rewrite (Hurl _ _ Hx) in Hauth; discriminate
           | Hx : parsePlist env _ = Throw _ |- _ =>
               rewrite (Hplist _ _ Hx) in Hauth; discriminate
           | Hx : get _ _ = Throw _ |- _ =>
               unfold get in Hx; destruct (nullish _); [|discriminate];
               injection Hx as <-; discriminate
           end.
  all: split; [reflexivity|].
  all: repeat match goal with
              | Hb : _ && _ = true |- _ => apply andb_true_iff in Hb as [? ?]
              end; assumption.
Qed.

Lemma tryBlock_signal st w e st' w' :
  plain_collaborators env deviceId ->
  run_block (st, w) = (Abruptly (Thrown e), (st', w')) ->
  instanceofAuthenticationError e = true ->
  e = requiresVerification env /\ no_code code = true.
Proof.
  intros Hplain Hrun Hauth.
  destruct (answer_of st w) as [response|e0] eqn:Hans.
  - destruct (tryBlock_received st w response Hans) as (r & front & h & Hreceived).
    rewrite Hreceived in Hrun. apply (interpret_signal _ _ _ _ _ _ Hplain Hrun Hauth).
  - rewrite (tryBlock_failed st w e0 Hans) in Hrun.
    assert (e0 = e) as <- by congruence.
    destruct Hplain as (Htransport & _).
    unfold Authenticate.answer_of in Hans. rewrite (Htransport _ _ _ Hans) in Hauth.
    discriminate.
Qed.

Lemma asError_plain e :
  instanceofAuthenticationError e = false ->
  instanceofAuthenticationError (asError e) = false.
Proof. destruct e; auto. Qed.

Lemma loop_signal fuel st w e w' :
  plain_collaborators env deviceId ->
  (forall e0, lastError st = Some e0 -> instanceofAuthenticationError e0 = false) ->
  run_loop fuel st w = Some (Throw e, w') ->
  instanceofAuthenticationError e = true ->
  e = requiresVerification env /\ no_code code = true.
Proof.
  intros Hplain. revert st w.
  induction fuel as [|fuel IH]; intros st w Hlast Hloop Hauth; [discriminate|].
  destruct (in_budget st) eqn:Hin.
  - rewrite (loop_pass _ _ _ Hin) in Hloop.
    destruct (run_block _) as [flow [st' w1]] eqn:Hrun.
    destruct (tryBlock_run _ _ _ _ _ Hrun) as (_ & _ & Hkept & _).
    cbn [lastError set_currentAttempt] in Hkept.
    destruct flow as [account|[|e1]].
    + discriminate.
    + apply (IH st' w1); [rewrite Hkept; exact Hlast | exact Hloop | exact Hauth].
    + destruct (instanceofAuthenticationError e1) eqn:Hauth1.
      * injection Hloop as <- <-. apply (tryBlock_signal _ _ _ _ _ Hplain Hrun Hauth1).
      * apply (IH (set_lastError (asError e1) st') w1); [|exact Hloop | exact Hauth].
        cbn [lastError set_lastError]. intros e0 He0. injection He0 as <-.
        apply asError_plain, Hauth1.
  - rewrite (loop_exit _ _ _ Hin) in Hloop. injection Hloop as <- <-.
    destruct (lastError st) as [e0|]; cbn in Hauth; [|discriminate].
    rewrite (Hlast e0 eq_refl) in Hauth. discriminate.
Qed.

(** X26. With a code supplied, sign-in never raises the verification
    signal: provided the collaborators raise no AuthenticationError of
    their own, the only AuthenticationError a call throws is the
    verification-required one, with codeRequired set, and it throws it only
    when no code was supplied. *)
Theorem verification_signal_only_without_a_code existingCookies w message codeRequired w' :
  plain_collaborators env deviceId ->
  authenticate env email password code existingCookies deviceId smsVerified w
  = Some (Throw (AuthenticationError message codeRequired), w') ->
  no_code code = true
  /\ codeRequired = true
  /\ message = i18n_t env "errors.auth.requiresVerification" [].
Proof.
  intros Hplain Hrun. unfold authenticate in Hrun.
  destruct (prelude env existingCookies deviceId w) as [[st|e] w0] eqn:Hpre.
  - destruct (prelude_run _ _ _ _ Hpre) as (_ & _ & _ & Hst).
    destruct (Hst st eq_refl) as (_ & _ & Hlast & _).
    destruct (loop_signal passes st w0 (AuthenticationError message codeRequired) w' Hplain)
      as [Hsignal Hcode];
      [rewrite Hlast; discriminate | exact Hrun | reflexivity |].
    unfold requiresVerification in Hsignal. injection Hsignal as -> ->. auto.
  - injection Hrun as -> _. exfalso.
    destruct Hplain as (_ & Hurl & _ & Hbag).
    unfold prelude, mbind, lift, ret in Hpre. revert Hpre.
    case_eq (new_URL env (defaultAuthURL env)); [intros u0 H0 | intros e0 H0].
    + case_eq (fetchBag env deviceId); [intros bag H1 | intros e1 H1].
      * case_eq (new_URL env (authURL bag)); [intros u H2 | intros e2 H2];
          intros Hpre; [discriminate|].
        injection Hpre as -> _. specialize (Hurl _ _ H2). discriminate.
      * intros Hpre. injection Hpre as -> _. specialize (Hbag _ H1). discriminate.
    + intros Hpre. injection Hpre as -> _. specialize (Hurl _ _ H0). discriminate.
Qed.

(** *** The retry of the first attempt *)

(** A "-5000" document outside the first attempt is read like any other. *)
Lemma readPlist_minus5000_second pod dict st w :
  nullish dict = false ->
  is_string (get_opt dict "failureType") "-5000" = true ->
  currentAttempt st <> 1 ->
  exists flow,
    readPlist env email password code deviceId pod dict (st, w) = (flow, (st, w))
    /\ (truthy (get_opt dict "accountInfo") = false ->
        flow = Abruptly (Thrown (new_Error (failure_message dict))))
    /\ (truthy (get_opt dict "accountInfo") = true ->
        truthy (get_opt (get_opt dict "accountInfo") "address") = false ->
        flow = Abruptly (Thrown (new_Error (address_message dict))))
    /\ (truthy (get_opt dict "accountInfo") = true ->
        truthy (get_opt (get_opt dict "accountInfo") "address") = true ->
        exists account, flow = Normal account).
Proof.
  intros Hdict Hft Hone. unfold readPlist. unfold bindB at 1.
  rewrite (get_present _ _ Hdict). cbn [liftR retB]. unfold bindB, locals.
  rewrite (is_string_other _ _ "5020" Hft) by discriminate.
  rewrite (is_string_other _ _ "" Hft) by discriminate.
  apply Z.eqb_neq in Hone. rewrite Hft, Hone. cbn [andb negb].
  destruct (truthy (get_opt dict "accountInfo")); cbn [negb].
  - destruct (truthy (get_opt (get_opt dict "accountInfo") "address")); cbn [negb].
    + eexists. split; [reflexivity|]. repeat split; try discriminate. eauto.
    + eexists. split; [reflexivity|]. repeat split; try discriminate.
  - eexists. split; [reflexivity|]. repeat split; discriminate.
Qed.

Lemma new_Error_message (message : Value) :
  Authenticate.throws_message (Throw (new_Error message)) message.
Proof.
  unfold Authenticate.throws_message.
  destruct message as [| | | |text| |]; eexists; (split; [reflexivity|]);
    intros s' Hs; try discriminate.
  injection Hs as <-. reflexivity.
Qed.

(** Once the first attempt is used up, a pass is the last one unless it
    follows a redirect. *)
Lemma last_attempt_log fuel :
  forall st w result w',
    currentAttempt st = 1 ->
    run_loop fuel st w = Some (result, w') ->
    exists exchanges,
      calls w' = calls w ++ exchanges
      /\ Authenticate.only_redirects_before_last exchanges
      /\ (in_budget st = true ->
          exists rest,
            exchanges
            = (request_of (set_currentAttempt (currentAttempt st + 1) st) w,
               answer_of (set_currentAttempt (currentAttempt st + 1) st) w) :: rest).
Proof.
  induction fuel as [|fuel IH]; intros st w result w' Hcur Hloop; [discriminate|].
  assert (forall x : Request.t * Result Response.t,
            Authenticate.only_redirects_before_last [x]) as Hone.
  { intros x [|i] exchange _ Hlen; cbn in Hlen; lia. }
  destruct (in_budget st) eqn:Hin.
  - rewrite (loop_pass _ _ _ Hin) in Hloop.
    set (st0 := set_currentAttempt (currentAttempt st + 1) st) in *.
    destruct (run_block (st0, w)) as [flow [st2 w2]] eqn:Hrun.
    destruct (tryBlock_run _ _ _ _ _ Hrun) as (Hcalls2 & _ & _ & Hcnt & _).
    assert (currentAttempt st0 = 2) as Hcur0 by (subst st0; cbn; lia).
    assert (forall stx,
              currentAttempt stx = 2 ->
              run_loop fuel stx w2 = Some (result, w') -> w' = w2) as Hstop.
    { intros stx Hx Hend. destruct fuel as [|fuel']; [discriminate|].
      rewrite loop_exit in Hend by (unfold in_budget; rewrite Hx; reflexivity).
      injection Hend as _ <-. reflexivity. }
    destruct flow as [account|[|e]].
    + injection Hloop as <- <-. eexists. split; [exact Hcalls2|]. split; [apply Hone|].
      intros _. eexists. reflexivity.
    + destruct Hcnt as [(_ & (response & Hans & H302) & Hcur2 & _) | (_ & _ & _ & _ & Habs)];
        [|specialize (Habs eq_refl); lia].
      destruct (IH st2 w2 result w') as (exchanges & Hcalls & Honly & _);
        [lia | exact Hloop |].
      eexists. split; [rewrite Hcalls, Hcalls2, <- app_assoc; reflexivity|]. split.
      * intros [|i] exchange Hlook Hlen.
        -- injection Hlook as <-. exists response. split; [exact Hans | exact H302].
        -- apply (Honly i exchange Hlook). cbn in Hlen. lia.
      * intros _. eexists. reflexivity.
    + destruct Hcnt as [(Habs & _) | (Hcur2 & _)]; [discriminate|].
      assert (w' = w2) as ->.
      { destruct (instanceofAuthenticationError e).
        - injection Hloop as _ <-. reflexivity.
        - apply (Hstop (set_lastError (asError e) st2)); [cbn; lia | exact Hloop]. }
      eexists. split; [exact Hcalls2|]. split; [apply Hone|].
      intros _. eexists. reflexivity.
  - destruct (loop_exit fuel st w Hin) as [].
    rewrite (loop_exit _ _ _ Hin) in Hloop. injection Hloop as _ <-.
    exists []. split; [symmetry; apply app_nil_r|]. split.
    + intros i exchange Hlook. destruct i; discriminate.
    + discriminate.
Qed.

(** The second attempt, answered by a "-5000" document. *)
Lemma minus5000_second fuel st w second dict result w' :
  currentAttempt st = 1 ->
  in_budget st = true ->
  answer_of (set_currentAttempt (currentAttempt st + 1) st) w = Ok second ->
  reaches_plist second dict ->
  is_string (get_opt dict "failureType") "-5000" = true ->
  run_loop fuel st w = Some (result, w') ->
  calls w'
  = calls w ++ [(request_of (set_currentAttempt (currentAttempt st + 1) st) w, Ok second)]
  /\ read_without_retry dict result.
Proof.
  intros Hcur Hin Hans Hreach Hft Hloop.
  destruct fuel as [|fuel]; [discriminate|].
  destruct (pass_received fuel st w second Hin Hans) as (r & front & h & Hlog & Hpass).
  cbv zeta in Hpass. rewrite Hpass in Hloop. clear Hpass.
  rewrite (interpret_document _ _ _ _ Hreach) in Hloop.
  match type of Hloop with
  | context [readPlist _ _ _ _ _ ?pod dict (?s, ?x)] =>
      destruct (readPlist_minus5000_second pod dict s x) as (flow & Hread & Hnone & Hnoaddr & Hboth);
        [apply Hreach | exact Hft | cbn; lia |];
        rewrite Hread in Hloop; clear Hread; set (w2 := x) in *; set (st2 := s) in *
  end.
  assert (forall m, flow = Abruptly (Thrown (new_Error m)) ->
                    w' = w2 /\ result = Throw (new_Error m)) as Hthrown.
  { intros m ->. rewrite (proj1 (new_Error_plain m)) in Hloop.
    destruct fuel as [|fuel]; [discriminate|].
    rewrite loop_exit in Hloop by (unfold in_budget; subst st2; cbn; rewrite Hcur; reflexivity).
    cbn in Hloop. rewrite (proj2 (new_Error_plain m)) in Hloop.
    injection Hloop as <- <-. split; reflexivity. }
  assert (w' = w2) as ->.
  { destruct (truthy (get_opt dict "accountInfo")) eqn:Hinfo.
    - destruct (truthy (get_opt (get_opt dict "accountInfo") "address")) eqn:Haddr.
      + destruct (Hboth eq_refl eq_refl) as [account ->]. injection Hloop as _ <-. reflexivity.
      + apply (Hthrown _ (Hnoaddr eq_refl eq_refl)).
    - apply (Hthrown _ (Hnone eq_refl)). }
  split; [exact Hlog|].
  unfold Authenticate.read_without_retry. cbv zeta. split; [|split].
  - intros Hinfo. destruct (Hthrown _ (Hnone Hinfo)) as [_ ->]. apply new_Error_message.
  - intros Hinfo Haddr. destruct (Hthrown _ (Hnoaddr Hinfo Haddr)) as [_ ->].
    apply new_Error_message.
  - intros Hinfo Haddr. destruct (Hboth Hinfo Haddr) as [account ->].
    injection Hloop as <-. eauto.
Qed.

(** The first attempt, answered by a "-5000" document. *)
Lemma minus5000_first fuel st w first dict :
  currentAttempt st = 0 ->
  redirectAttempt st <= 3 ->
  (passes_left st <= fuel)%nat ->
  transport env (map fst (calls w))
    (request_of (set_currentAttempt (currentAttempt st + 1) st) w) = Ok first ->
  reaches_plist first dict ->
  is_string (get_opt dict "failureType") "-5000" = true ->
  retried_once (run_loop (S fuel) st w) w first.
Proof.
  intros Hcur Hred Hfuel Hans Hreach Hft.
  assert (in_budget st = true) as Hin.
  { unfold in_budget. apply andb_true_iff. split; [apply Z.ltb_lt | apply Z.leb_le]; lia. }
  (* the first pass *)
  destruct (pass_received fuel st w first Hin Hans) as (r & front & h & Hlog & Hpass).
  cbv zeta in Hpass.
  set (st0 := set_currentAttempt (currentAttempt st + 1) st) in *.
  set (st1 := set_storeFront front (set_cookies r st0)) in *.
  set (w1 := set_heap h (logged st0 w)) in *.
  destruct (interpret_parsed first dict st1 w1 Hreach) as [pod1 Hparsed].
  rewrite Hparsed in Hpass.
  rewrite readPlist_minus5000_first in Hpass;
    [|apply Hreach | exact Hft | subst st1 st0; cbn; lia].
  (* the passes that follow *)
  assert (currentAttempt st1 = 1) as Hcur1 by (subst st1 st0; cbn; lia).
  assert (in_budget st1 = true) as Hin1.
  { unfold in_budget. rewrite Hcur1. subst st1 st0. cbn.
    apply Z.leb_le. exact Hred. }
  destruct (loop_returns fuel st1 w1) as [[result w'] Hloop].
  { unfold passes_left in *. rewrite Hin in Hfuel. rewrite Hin1, Hcur1.
    replace (redirectAttempt st1) with (redirectAttempt st) by (subst st1 st0; reflexivity).
    rewrite Hcur in Hfuel. lia. }
  destruct (last_attempt_log fuel st1 w1 result w' Hcur1 Hloop)
    as (exchanges & Hcalls & Honly & Hhead).
  destruct (Hhead Hin1) as [rest ->].
  set (st1' := set_currentAttempt (currentAttempt st1 + 1) st1) in *.
  exists (request_of st0 w), (request_of st1' w1), (answer_of st1' w1), rest, result, w'.
  split; [rewrite Hpass; exact Hloop|]. split.
  { rewrite Hcalls, Hlog, <- app_assoc. reflexivity. }
  split.
  { unfold Authenticate.answer_of. rewrite Hlog, map_app. reflexivity. }
  do 5 (split; [reflexivity|]).
  split; [exact Honly|].
  intros second dict2 Hans2 Hreach2 Hft2.
  destruct (minus5000_second fuel st1 w1 second dict2 result w' Hcur1 Hin1 Hans2 Hreach2 Hft2 Hloop)
    as [Hcalls2 Hread].
  split; [|exact Hread].
  rewrite Hcalls in Hcalls2. apply app_inv_head in Hcalls2.
  injection Hcalls2 as _ Hrest. exact Hrest.
Qed.

(** C2, as the code has it. When the loop gets failureType "-5000" in a
    first credential attempt (the attempt counter at 0 before the pass, be
    it the first request of the call or one that follows redirects), the
    request is sent once more, with the same method, host, path, headers
    and body. The retry is the last credential attempt: every request that
    follows it follows a 302, so that the call-count is 2 whenever the
    second answer is not a 302. When the second answer is again a "-5000"
    document, nothing more is sent and the document is read like any other:
    its failure message is thrown when it has no account info, or no
    address in it, and the account is returned when it has both. The first
    part holds of the loop given the passes its counters still allow; the
    second is the first at the start of [authenticate]. *)
Theorem retry_once_on_minus_5000 :
  (forall fuel st w first dict,
      currentAttempt st = 0 ->
      redirectAttempt st <= 3 ->
      (passes_left st <= fuel)%nat ->
      transport env (map fst (calls w))
        (request_of (set_currentAttempt (currentAttempt st + 1) st) w) = Ok first ->
      reaches_plist first dict ->
      is_string (get_opt dict "failureType") "-5000" = true ->
      retried_once (run_loop (S fuel) st w) w first)
  /\ (forall existingCookies w first dict,
        isOk (fst (prelude env existingCookies deviceId w)) = true ->
        (forall req, transport env (map fst (calls w)) req = Ok first) ->
        reaches_plist first dict ->
        is_string (get_opt dict "failureType") "-5000" = true ->
        retried_once
          (authenticate env email password code existingCookies deviceId smsVerified w)
          w first).
Proof.
  split; [exact minus5000_first|].
  intros existingCookies w first dict Hpre Hfirst Hreach Hft.
  destruct (authenticate_start _ _ Hpre) as (st & w0 & -> & Hcalls & Hcur & Hred & _).
  destruct (minus5000_first 5%nat st w0 first dict) as
    (req1 & req2 & answer2 & rest & result & w' & Hrun & Hlog & Hans2 & Hrest);
    try assumption; try lia.
  - unfold passes_left, in_budget. rewrite Hcur, Hred. cbn. lia.
  - rewrite Hcalls. apply Hfirst.
  - exists req1, req2, answer2, rest, result, w'.
    rewrite Hcalls in Hlog, Hans2.
    split; [exact Hrun|]. split; [exact Hlog|]. split; [exact Hans2|].
    exact Hrest.
Qed.

End AuthenticateFacts.

(** *** Concrete runs *)

Section AuthenticateRuns.
Import Authenticate.
Local Open Scope Z_scope.
Local Open Scope list_scope.

(** C1. The lock is retried. Every answer is the plist of a locked account
    (failureType "5020"); the error thrown in the first pass is caught as
    [lastError] like any other, the loop goes round again, and the request
    is sent a second time before the message is surfaced. *)
Theorem account_locked_is_retried :
  exists req1 req2 w',
    authenticate (Mock.env (Mock.always Mock.locked_response) Mock.locked (Throw (Error "unused")))
                 "user@example.com" "hunter2" None None "0123456789ab" false
                 Mock.empty_world
    = Some (Throw (Error "This Apple ID has been locked for security reasons."), w')
    /\ calls w' = [(req1, Ok Mock.locked_response); (req2, Ok Mock.locked_response)]
    /\ Request.body req2 = Request.body req1.
Proof.
  eexists _, _, _. split; [vm_compute; reflexivity|]. split; reflexivity.
Qed.

(** Against the last part of C3: a 302 without a location is not fatal.
    The first answer is such a 302, the second a signed-in account; sign-in
    sends the request again and returns the account. *)
Lemma redirect_without_location_is_retried :
  Response.status Mock.lost_redirect = 302
  /\ Response.headers Mock.lost_redirect !! "location" = None
  /\ exists account req1 req2 w',
       authenticate
         (Mock.env (Mock.scripted [Mock.lost_redirect] Mock.plist_response)
                   Mock.signed_in (Throw (Error "unused")))
         "user@example.com" "hunter2" None None "0123456789ab" false Mock.empty_world
       = Some (Ok account, w')
       /\ calls w' = [(req1, Ok Mock.lost_redirect); (req2, Ok Mock.plist_response)].
Proof.
  split; [reflexivity|]. split; [vm_compute; reflexivity|].
  eexists _, _, _, _. split; [vm_compute; reflexivity | reflexivity].
Qed.

Lemma verification_required_on_404_witness :
  exists req w',
    authenticate (Mock.env (Mock.always (Mock.response 404 [] "")) VNull (Throw (Error "unused")))
                 "user@example.com" "hunter2" None None "0123456789ab" false
                 Mock.empty_world
    = Some (Throw (AuthenticationError "errors.auth.requiresVerification" true), w')
    /\ calls w' = [(req, Ok (Mock.response 404 [] ""))].
Proof.
  apply (verification_required_on_404
           (Mock.env (Mock.always (Mock.response 404 [] "")) VNull (Throw (Error "unused")))
           "user@example.com" "hunter2" None "0123456789ab" false
           None Mock.empty_world (Mock.response 404 [] "")).
  - reflexivity.
  - intros req. reflexivity.
  - reflexivity.
  - reflexivity.
Defined.

Lemma retry_once_on_minus_5000_witness :
  exists req1 req2 w',
    authenticate (Mock.env (Mock.always Mock.plist_response) Mock.bad_login
                           (Throw (Error "unused")))
                 "user@example.com" "hunter2" None None "0123456789ab" false
                 Mock.empty_world
    = Some (Throw (Error "Your Apple ID or password is incorrect."), w')
    /\ calls w' = [(req1, Ok Mock.plist_response); (req2, Ok Mock.plist_response)]
    /\ Request.body req2 = Request.body req1.
Proof.
  destruct (proj2 (retry_once_on_minus_5000
                     (Mock.env (Mock.always Mock.plist_response) Mock.bad_login
                               (Throw (Error "unused")))
                     "user@example.com" "hunter2" None "0123456789ab" false)
              None Mock.empty_world Mock.plist_response Mock.bad_login)
    as (req1 & req2 & ans2 & rest & result & w' & Hrun & Hcalls & Hans2
        & _ & _ & _ & _ & Hbody & _ & Hagain).
  - reflexivity.
  - intros req. reflexivity.
  - repeat split; discriminate.
  - reflexivity.
  - change (ans2 = Ok Mock.plist_response) in Hans2.
    destruct (Hagain Mock.plist_response Mock.bad_login Hans2) as [-> Hread].
    + repeat split; discriminate.
    + reflexivity.
    + destruct Hread as (Hnone & _).
      destruct (Hnone eq_refl) as (text & -> & Htext).
      rewrite (Htext "Your Apple ID or password is incorrect."%string eq_refl) in Hrun.
      exists req1, req2, w'. rewrite Hans2 in Hcalls. auto.
Defined.

(** Against C2 as written, on two counts. A second "-5000" answer is not
    always surfaced: when every answer is a "-5000" document that carries
    account info and an address, the second one signs in. And the call-count
    is not always 2: with a 302 for second answer, a third request is sent
    before the "-5000" failure of the third answer is thrown. *)
Lemma second_minus_5000_signs_in :
  is_string (get_opt Mock.rejected_with_account "failureType") "-5000" = true
  /\ is_string (get_opt Mock.bad_login "failureType") "-5000" = true
  /\ (exists account req1 req2 w',
        authenticate
          (Mock.env (Mock.always Mock.plist_response) Mock.rejected_with_account
                    (Throw (Error "unused")))
          "user@example.com" "hunter2" None None "0123456789ab" false Mock.empty_world
        = Some (Ok account, w')
        /\ calls w' = [(req1, Ok Mock.plist_response); (req2, Ok Mock.plist_response)])
  /\ (exists req1 req2 req3 w',
        authenticate
          (Mock.env (Mock.scripted [Mock.plist_response; Mock.redirect] Mock.plist_response)
                    Mock.bad_login (Throw (Error "unused")))
          "user@example.com" "hunter2" None None "0123456789ab" false Mock.empty_world
        = Some (Throw (Error "Your Apple ID or password is incorrect."), w')
        /\ calls w' = [(req1, Ok Mock.plist_response); (req2, Ok Mock.redirect);
                       (req3, Ok Mock.plist_response)]).
Proof.
  split; [reflexivity|]. split; [reflexivity|]. split.
  - eexists _, _, _, _. split; [vm_compute; reflexivity | reflexivity].
  - eexists _, _, _, _. split; [vm_compute; reflexivity | reflexivity].
Qed.

Lemma redirects_are_bounded_witness :
  exists w' exchanges,
    authenticate
      (Mock.env (Mock.always Mock.redirect) VNull (Throw (Error "unused")))
      "user@example.com" "hunter2" None None "0123456789ab" false Mock.empty_world
    = Some (Throw (Error "errors.auth.unknownReason"), w')
    /\ calls w' = calls Mock.empty_world ++ exchanges
    /\ length exchanges = 4%nat.
Proof.
  apply (proj1 (proj2
           (redirects_are_bounded
              (Mock.env (Mock.always Mock.redirect) VNull (Throw (Error "unused")))
              "user@example.com" "hunter2" None "0123456789ab" false))
           None Mock.empty_world).
  - reflexivity.
  - intros hist req. exists Mock.redirect, "https://p25-buy.itunes.apple.com/auth"%string.
    eexists. repeat split; try discriminate.
Defined.

Lemma caller_cookies_untouched_witness :
  exists result w' exchanges,
    authenticate
      (Mock.env (Mock.always Mock.plist_response) Mock.signed_in (Throw (Error "unused")))
      "user@example.com" "hunter2" None (Some 0%nat) "0123456789ab" false Mock.caller_world
    = Some (result, w')
    /\ (forall r, (r < 1)%nat -> heap w' !! r = heap Mock.caller_world !! r)
    /\ calls w' = calls Mock.caller_world ++ exchanges
    /\ (forall account,
          result = Ok account ->
          Some (cookies account) <> Some 0%nat
          /\ (1 <= cookies account)%nat
          /\ heap w' !! cookies account
             = Some (Spec.accumulated
                       (Mock.env (Mock.always Mock.plist_response) Mock.signed_in
                                 (Throw (Error "unused")))
                       (contents Mock.caller_world 0) exchanges)).
Proof.
  apply (caller_cookies_untouched
           (Mock.env (Mock.always Mock.plist_response) Mock.signed_in (Throw (Error "unused")))
           "user@example.com" "hunter2" None "0123456789ab" false
           (Some 0%nat) Mock.caller_world).
  intros r Hr. injection Hr as <-. cbn. lia.
Defined.

(** The bound of five is reached: three redirects, then two failures. *)
Example five_requests :
  exists result w',
    authenticate
      (Mock.env (Mock.scripted [Mock.redirect; Mock.redirect; Mock.redirect]
                               (Mock.response 500 [] ""))
                VNull (Throw (Error "unused")))
      "user@example.com" "hunter2" None None "0123456789ab" false Mock.empty_world
    = Some (result, w')
    /\ length (calls w') = 5%nat.
Proof. eexists _, _. split; [vm_compute; reflexivity | reflexivity]. Qed.

Lemma no_endpoint_no_request_witness :
  exists w',
    authenticate
      (Mock.without_bag (Mock.env (Mock.always Mock.plist_response) Mock.signed_in
                             (Throw (Error "unused"))))
      "user@example.com" "hunter2" None None "0123456789ab" false Mock.empty_world
    = Some (Throw (Error "bag unavailable"), w')
    /\ calls w' = calls Mock.empty_world.
Proof.
  apply (no_endpoint_no_request
           (Mock.without_bag (Mock.env (Mock.always Mock.plist_response) Mock.signed_in
                                  (Throw (Error "unused"))))
           "user@example.com" "hunter2" None "0123456789ab" false None Mock.empty_world).
  right. split; [reflexivity|]. left. reflexivity.
Defined.

Lemma first_request_goes_to_the_bag_endpoint_witness :
  exists result w' req answer rest,
    authenticate
      (Mock.env (Mock.always Mock.plist_response) Mock.signed_in (Throw (Error "unused")))
      "user@example.com" "hunter2" None (Some 0%nat) "0123456789ab" false Mock.caller_world
    = Some (result, w')
    /\ calls w' = calls Mock.caller_world ++ (req, answer) :: rest
    /\ Request.host req = "https://auth.itunes.apple.com/auth"%string
    /\ Request.path req = "/?guid=0123456789ab"%string
    /\ Request.cookies req
       = Some [{| name := "itspod"; value := "12"; domain := ".apple.com" |}].
Proof.
  apply (first_request_goes_to_the_bag_endpoint
           (Mock.env (Mock.always Mock.plist_response) Mock.signed_in
                     (Throw (Error "unused")))
           "user@example.com" "hunter2" None "0123456789ab" false
           (Some 0%nat) Mock.caller_world
           {| hostname := "https://buy.itunes.apple.com/auth"; pathname := "/"; search := "" |}
           {| authURL := "https://auth.itunes.apple.com/auth" |}
           {| hostname := "https://auth.itunes.apple.com/auth"; pathname := "/"; search := "" |}).
  - reflexivity.
  - reflexivity.
  - reflexivity.
Defined.

Lemma bad_login_asks_for_a_code_witness :
  exists req w',
    authenticate
      (Mock.env (Mock.always Mock.plist_response) Mock.wants_code (Throw (Error "unused")))
      "user@example.com" "hunter2" None None "0123456789ab" false Mock.empty_world
    = Some (Throw (AuthenticationError "errors.auth.requiresVerification" true), w')
    /\ calls w' = calls Mock.empty_world ++ [(req, Ok Mock.plist_response)].
Proof.
  apply (bad_login_asks_for_a_code
           (Mock.env (Mock.always Mock.plist_response) Mock.wants_code (Throw (Error "unused")))
           "user@example.com" "hunter2" None "0123456789ab" false
           None Mock.empty_world Mock.plist_response Mock.wants_code).
  - reflexivity.
  - intros req. reflexivity.
  - repeat split; discriminate.
  - reflexivity.
  - reflexivity.
  - reflexivity.
Defined.

Lemma account_of_a_signed_in_answer_witness :
  exists account req w',
    authenticate
      (Mock.env (Mock.always Mock.store_response) Mock.signed_in (Throw (Error "unused")))
      "user@example.com" "hunter2" None None "0123456789ab" false Mock.empty_world
    = Some (Ok account, w')
    /\ calls w' = calls Mock.empty_world ++ [(req, Ok Mock.store_response)]
    /\ appleId account = VStr "user@example.com"
    /\ firstName account = VStr "Ada"
    /\ passwordToken account = VStr "token"
    /\ directoryServicesIdentifier account = "123456789"%string
    /\ store account = "143441"%string
    /\ pod account = Some "25"%string.
Proof.
  destruct (account_of_a_signed_in_answer
              (Mock.env (Mock.always Mock.store_response) Mock.signed_in (Throw (Error "unused")))
              "user@example.com" "hunter2" None "0123456789ab" false
              None Mock.empty_world Mock.store_response Mock.signed_in)
    as (account & req & w' & Hrun & Hlog & _ & _ & _ & Hid & Hfirst & _ & Htoken & Hds
        & Hstore & Hpod).
  - reflexivity.
  - intros req. reflexivity.
  - repeat split; discriminate.
  - reflexivity.
  - reflexivity.
  - reflexivity.
  - reflexivity.
  - reflexivity.
  - reflexivity.
  - exists account, req, w'. split; [exact Hrun|]. split; [exact Hlog|].
    rewrite Hid, Hfirst, Htoken, Hds, Hstore, Hpod. repeat split.
Defined.

Lemma failed_exchange_is_retried_witness :
  exists req w',
    authenticate (Mock.env Mock.unreachable VNull (Throw (Error "unused")))
                 "user@example.com" "hunter2" None None "0123456789ab" false
                 Mock.empty_world
    = Some (Throw (Error "network unreachable"), w')
    /\ calls w' = [(req, Throw (Error "network unreachable"));
                   (req, Throw (Error "network unreachable"))].
Proof.
  destruct (failed_exchange_is_retried
              (Mock.env Mock.unreachable VNull (Throw (Error "unused")))
              "user@example.com" "hunter2" None "0123456789ab" false
              None Mock.empty_world (Error "network unreachable"))
    as (req & answer2 & rest & result & w' & Hrun & Hlog & Hanswer2 & Hlast).
  - reflexivity.
  - intros req. reflexivity.
  - reflexivity.
  - change (answer2 = Throw (Error "network unreachable")) in Hanswer2.
    destruct (Hlast (Error "network unreachable") Hanswer2 eq_refl) as [-> ->].
    exists req, w'. rewrite Hanswer2 in Hlog. split; [exact Hrun | exact Hlog].
Defined.

Lemma redirect_is_followed_with_its_cookies_witness :
  exists req1 req2 answer2 rest result w',
    authenticate (Mock.env (Mock.always Mock.redirect) VNull (Throw (Error "unused")))
                 "user@example.com" "hunter2" None None "0123456789ab" false
                 Mock.empty_world
    = Some (result, w')
    /\ calls w' = (req1, Ok Mock.redirect) :: (req2, answer2) :: rest
    /\ Request.cookies req1 = Some []
    /\ Request.host req2 = "https://p25-buy.itunes.apple.com/auth"%string
    /\ Request.cookies req2
       = Some [{| name := "location"; value := "https://p25-buy.itunes.apple.com/auth";
                  domain := "" |}].
Proof.
  destruct (redirect_is_followed_with_its_cookies
              (Mock.env (Mock.always Mock.redirect) VNull (Throw (Error "unused")))
              "user@example.com" "hunter2" None "0123456789ab" false
              None Mock.empty_world Mock.redirect "https://p25-buy.itunes.apple.com/auth"
              {| hostname := "https://p25-buy.itunes.apple.com/auth"; pathname := "/";
                 search := "" |})
    as (req1 & req2 & answer2 & rest & result & w' & Hrun & Hlog & Hsent & Hhost & _ & _ & _
        & Hcookies).
  - reflexivity.
  - intros req. reflexivity.
  - reflexivity.
  - reflexivity.
  - discriminate.
  - reflexivity.
  - exists req1, req2, answer2, rest, result, w'. auto.
Defined.

Lemma verification_signal_only_without_a_code_witness :
  no_code None = true
  /\ true = true
  /\ "errors.auth.requiresVerification"%string
     = i18n_t (Mock.env (Mock.always (Mock.response 404 [] "")) VNull
                        (Throw (Error "unused")))
              "errors.auth.requiresVerification" [].
Proof.
  apply (verification_signal_only_without_a_code
           (Mock.env (Mock.always (Mock.response 404 [] "")) VNull (Throw (Error "unused")))
           "user@example.com" "hunter2" None "0123456789ab" false None Mock.empty_world
           "errors.auth.requiresVerification" true
           (match
              authenticate
                (Mock.env (Mock.always (Mock.response 404 [] "")) VNull
                          (Throw (Error "unused")))
                "user@example.com" "hunter2" None None "0123456789ab" false
                Mock.empty_world
            with
            | Some (_, w') => w'
            | None => Mock.empty_world
            end)).
  - split; [|split; [|split]].
    + intros hist req e H. discriminate H.
    + intros url e H. cbn in H. unfold Mock.url in H.
      destruct (url =? "")%string; [injection H as <-; reflexivity | discriminate H].
    + intros body e H. discriminate H.
    + intros e H. discriminate H.
  - vm_compute. reflexivity.
Defined.

End AuthenticateRuns.

(** ** The two pages *)

Section PagesFacts.
Import Idmsa SmsVerification.
Local Open Scope Z_scope.
Local Open Scope list_scope.

Variable env : Env.
Variable ui : Ui.
Variable store : AccountStore.

(** The form of a sign-in that follows a verified SMS code. *)
Lemma signInForm_verified email password code deviceId :
  Authenticate.signInForm env email password code deviceId true
  = URLSearchParams_toString env
      [("appleId", email); ("attempt", "4"); ("guid", deviceId);
       ("password", password); ("rmp", "0"); ("why", "signIn")]%string.
Proof. unfold Authenticate.signInForm. rewrite andb_false_r. reflexivity. Qed.

Section AddAccountFormFacts.
Import AddAccountForm.

(** X27. On the add-account form, a code sent by SMS is verified with the
    identity provider before anything goes to the account service: when the
    provider refuses the code, the one request made is that verification,
    no sign-in request follows, and the form shows the failure, still
    asking for a code, without navigating. *)
Theorem refused_code_sends_no_password sms s w session resp :
  smsSent sms = true ->
  needsCode s = true ->
  code s <> ""%string ->
  sessionRef sms = Some session ->
  is_null (selectedPhoneId sms) = false ->
  (forall req,
      Request.path req = "/appleauth/auth/verify/phone/securitycode"%string ->
      transport env (map fst (calls w)) req = Ok resp) ->
  Response.status resp <> 200 ->
  Response.status resp <> 204 ->
  exists verifyReq s' w',
    handleSubmit env ui store sms s w = Some (s', w')
    /\ calls w' = calls w ++ [(verifyReq, Ok resp)]
    /\ Request.host verifyReq = "idmsa.apple.com"%string
    /\ needsCode s' = true
    /\ loading s' = false
    /\ navigated s' = navigated s
    /\ toasts s'
       = toasts s
           ++ [(getErrorMessage ui
                  (Error (getErrorMessage ui (http_failure "IDMSA SMS verify" resp)
                                          (t ui "errors.auth.smsVerifyFailed")))
                  (t ui "accounts.addForm.authFailed"), "error"%string)].
Proof.
  intros Hsent Hneeds Hcode Hsession Hselected Hverify H200 H204.
  unfold handleSubmit. cbv zeta.
  cbn [needsCode code deviceId setDeviceId setLoading].
  apply String.eqb_neq in Hcode. rewrite Hsent, Hneeds, Hcode. cbn [andb negb].
  destruct (verifySmsCode_run env ui (code s) sms w session Hsession Hselected)
    as (req1 & req2 & Hreq1 & _ & _ & ->).
  cbv zeta. rewrite Hverify by apply Hreq1.
  apply Z.eqb_neq in H200, H204. rewrite H200, H204. cbn [negb andb bind].
  eexists _, _, _. split; [reflexivity|]. cbn.
  repeat split; try reflexivity; [apply Hreq1 | exact Hneeds].
Qed.

(** X28. On the add-account form, once the identity provider has verified
    the SMS code, the sign-in that follows sends the password alone: after
    the verification and the trust-token request come at most five sign-in
    requests, each with attempt 4, the password without the code, and the
    device id with its colons and spaces taken out. *)
Theorem verified_sign_in_sends_the_password_alone sms s w session resp :
  smsSent sms = true ->
  needsCode s = true ->
  code s <> ""%string ->
  sessionRef sms = Some session ->
  is_null (selectedPhoneId sms) = false ->
  (forall req,
      Request.path req = "/appleauth/auth/verify/phone/securitycode"%string ->
      transport env (map fst (calls w)) req = Ok resp) ->
  Response.status resp = 200 \/ Response.status resp = 204 ->
  exists verifyReq trustReq trustAnswer signIn s' w',
    handleSubmit env ui store sms s w = Some (s', w')
    /\ calls w' = calls w ++ (verifyReq, Ok resp) :: (trustReq, trustAnswer) :: signIn
    /\ Request.host verifyReq = "idmsa.apple.com"%string
    /\ Request.host trustReq = "idmsa.apple.com"%string
    /\ (length signIn <= 5)%nat
    /\ Forall (fun x =>
                 Request.body (fst x)
                 = Some (URLSearchParams_toString env
                           [("appleId", email s); ("attempt", "4");
                            ("guid", without_colons_and_spaces (deviceId s));
                            ("password", password s); ("rmp", "0");
                            ("why", "signIn")]%string)) signIn.
Proof.
  intros Hsent Hneeds Hcode Hsession Hselected Hverify Hstatus.
  unfold handleSubmit. cbv zeta.
  cbn [needsCode code deviceId email password setDeviceId setLoading].
  apply String.eqb_neq in Hcode. rewrite Hsent, Hneeds, Hcode. cbn [andb negb].
  destruct (verifySmsCode_run env ui (code s) sms w session Hsession Hselected)
    as (req1 & req2 & Hreq1 & _ & Hreq2 & ->).
  cbv zeta. rewrite Hverify by apply Hreq1.
  assert (negb (Response.status resp =? 200) && negb (Response.status resp =? 204) = false)
    as ->.
  { destruct Hstatus as [-> | ->]; reflexivity. }
  match goal with
  | |- context [Authenticate.authenticate env ?e ?p ?c None ?d true ?w1] =>
      destruct (authenticate_exchanges env e p c d true None w1)
        as (result & w' & exchanges & -> & Hlog & Hlen & Hall)
  end.
  cbn [calls] in Hlog.
  eexists req1, req2, _, exchanges, _, w'. split; [reflexivity|].
  split; [rewrite Hlog, <- app_assoc; reflexivity|].
  split; [apply Hreq1|]. split; [apply Hreq2|]. split; [exact Hlen|].
  eapply List.Forall_impl; [|exact Hall].
  intros x (st0 & w0 & ->). cbn [Authenticate.request_of Authenticate.signInRequest Request.body].
  rewrite andb_false_r. reflexivity.
Qed.

(** X29. On the add-account form, a first submit answered by a 404 makes
    the form ask for a code: one request has been sent, the form now needs
    a code and shows the verification-required message, it is no longer
    loading and has not navigated. *)
Theorem a_404_makes_the_form_ask_for_a_code sms s w response :
  needsCode s = false ->
  isOk (fst (Authenticate.prelude env None (without_colons_and_spaces (deviceId s)) w))
  = true ->
  (forall req, transport env (map fst (calls w)) req = Ok response) ->
  Response.status response = 404 ->
  exists req s' w',
    handleSubmit env ui store sms s w = Some (s', w')
    /\ calls w' = calls w ++ [(req, Ok response)]
    /\ needsCode s' = true
    /\ loading s' = false
    /\ navigated s' = navigated s
    /\ toasts s'
       = toasts s ++ [(i18n_t env "errors.auth.requiresVerification" [], "error"%string)].
Proof.
  intros Hneeds Hpre Hfirst H404.
  unfold handleSubmit. cbv zeta.
  cbn [needsCode code deviceId email password setDeviceId setLoading].
  rewrite Hneeds, andb_false_r. cbn [andb].
  unfold code_if_needed. cbn [andb].
  destruct (authenticate_start env (email s) (password s) None
              (without_colons_and_spaces (deviceId s)) false None w Hpre)
    as (st & w0 & -> & Hcalls & Hcur & Hred & _).
  assert (Authenticate.in_budget st = true) as Hin.
  { unfold Authenticate.in_budget. rewrite Hcur, Hred. reflexivity. }
  destruct (pass_received env (email s) (password s) None
              (without_colons_and_spaces (deviceId s)) false 5%nat st w0 response Hin)
    as (r & front & h & Hlog & Hpass);
    [rewrite Hcalls; apply Hfirst |].
  cbv zeta in Hpass. unfold Authenticate.passes. rewrite Hpass.
  rewrite (interpret_404 env (email s) (password s) None
             (without_colons_and_spaces (deviceId s)) _ _ _ H404 eq_refl).
  cbn [Authenticate.requiresVerification instanceofAuthenticationError bind failed].
  eexists _, _, _. split; [reflexivity|].
  split; [rewrite Hlog, Hcalls; reflexivity|]. cbn. repeat split.
Qed.

End AddAccountFormFacts.

Section AccountDetailFacts.
Import AccountDetail.

(** The heap after [verifySmsCode]. *)
Lemma verifySmsCode_heap code sms w :
  heap (snd (verifySmsCode env ui code sms w)) = heap w.
Proof.
  unfold verifySmsCode.
  destruct (sessionRef sms) as [session|]; [|reflexivity].
  destruct (is_null _); [reflexivity|].
  destruct (idmsaVerifySmsCode_run env session (selectedPhoneId sms) code w)
    as (req1 & _ & _ & ->).
  destruct (transport env (map fst (calls w)) req1) as [resp|err]; [|reflexivity].
  destruct (_ && _); [reflexivity|].
  match goal with
  | |- context [idmsaGetTrustToken env session ?w1] =>
      destruct (idmsaGetTrustToken_run env session w1) as (req2 & _ & ->)
  end.
  reflexivity.
Qed.

(** X30. Re-authenticating from the account page leaves every cookie array
    that was there as it was, the stored account's among them, whether the
    SMS code is verified first or not and whatever the outcome; and the
    page is no longer re-authenticating when it is over. *)
Theorem reauth_leaves_the_stored_cookies sms account s w :
  (Authenticate.cookies account < length (heap w))%nat ->
  exists s' w',
    handleReauth env ui store sms (Some account) s w = Some (s', w')
    /\ (forall r, (r < length (heap w))%nat -> heap w' !! r = heap w !! r)
    /\ reauthing s' = false.
Proof.
  intros Hlive. unfold handleReauth. cbv zeta.
  cbn [needsCode reauthCode setReauthing].
  match goal with
  | |- context [if ?b then verifySmsCode env ui ?c sms w else ?x] =>
      set (verified := if b then verifySmsCode env ui c sms w else x)
  end.
  assert (heap (snd verified) = heap w) as Hheap.
  { subst verified. destruct (_ && _); [apply verifySmsCode_heap | reflexivity]. }
  destruct verified as [[[]|err] w1]; cbn [snd] in Hheap.
  - match goal with
    | |- context [Authenticate.authenticate env ?e ?p ?c ?x ?d ?v w1] =>
        destruct (authenticate_frame env e p c d v x w1)
          as (result & w' & -> & Hframe)
    end.
    { intros r Hr. injection Hr as <-. rewrite Hheap. exact Hlive. }
    eexists _, w'. split; [reflexivity|]. split.
    + intros r Hr. rewrite Hframe by (rewrite Hheap; exact Hr). rewrite Hheap. reflexivity.
    + reflexivity.
  - eexists _, w1. split; [reflexivity|]. split; [|reflexivity].
    intros r Hr. rewrite Hheap. reflexivity.
Qed.

End AccountDetailFacts.
End PagesFacts.

(** *** Concrete runs *)

Section PagesRuns.
Import Idmsa SmsVerification.
Local Open Scope Z_scope.
Local Open Scope list_scope.

Lemma refused_code_sends_no_password_witness :
  exists verifyReq s' w',
    AddAccountForm.handleSubmit (Mock.env Mock.refusing VNull (Throw (Error "unused")))
      Mock.ui Mock.account_store Mock.texted Mock.form_with_code Mock.empty_world
    = Some (s', w')
    /\ calls w' = [(verifyReq, Ok (Mock.response 401 [] ""))]
    /\ Request.host verifyReq = "idmsa.apple.com"%string
    /\ AddAccountForm.toasts s'
       = [("IDMSA SMS verify failed: HTTP 401 "%string, "error"%string)].
Proof.
  destruct (refused_code_sends_no_password
              (Mock.env Mock.refusing VNull (Throw (Error "unused")))
              Mock.ui Mock.account_store Mock.texted Mock.form_with_code Mock.empty_world
              {| sessionId := "S1"; scnt := "T1" |} (Mock.response 401 [] ""))
    as (verifyReq & s' & w' & Hrun & Hlog & Hhost & _ & _ & _ & Htoasts).
  - reflexivity.
  - reflexivity.
  - discriminate.
  - reflexivity.
  - reflexivity.
  - intros req _. reflexivity.
  - cbn. lia.
  - cbn. lia.
  - exists verifyReq, s', w'. auto.
Defined.

Lemma verified_sign_in_sends_the_password_alone_witness :
  exists verifyReq trustReq trustAnswer signIn s' w',
    AddAccountForm.handleSubmit (Mock.env Mock.accepting VNull (Throw (Error "unused")))
      Mock.ui Mock.account_store Mock.texted Mock.form_with_code Mock.empty_world
    = Some (s', w')
    /\ calls w'
       = (verifyReq, Ok (Mock.response 204 [] "")) :: (trustReq, trustAnswer) :: signIn
    /\ Forall (fun x =>
                 Request.body (fst x)
                 = Some "appleId=user@example.com&attempt=4&guid=0123456789ab&password=hunter2&rmp=0&why=signIn"%string)
              signIn.
Proof.
  destruct (verified_sign_in_sends_the_password_alone
              (Mock.env Mock.accepting VNull (Throw (Error "unused")))
              Mock.ui Mock.account_store Mock.texted Mock.form_with_code Mock.empty_world
              {| sessionId := "S1"; scnt := "T1" |} (Mock.response 204 [] ""))
    as (verifyReq & trustReq & trustAnswer & signIn & s' & w' & Hrun & Hlog & _ & _ & _
        & Hall).
  - reflexivity.
  - reflexivity.
  - discriminate.
  - reflexivity.
  - reflexivity.
  - intros req Hpath. cbn. unfold Mock.accepting. rewrite Hpath. reflexivity.
  - right. reflexivity.
  - exists verifyReq, trustReq, trustAnswer, signIn, s', w'. auto.
Defined.

Lemma a_404_makes_the_form_ask_for_a_code_witness :
  exists req s' w',
    AddAccountForm.handleSubmit
      (Mock.env (Mock.always (Mock.response 404 [] "")) VNull (Throw (Error "unused")))
      Mock.ui Mock.account_store initial Mock.fresh_form Mock.empty_world
    = Some (s', w')
    /\ calls w' = [(req, Ok (Mock.response 404 [] ""))]
    /\ AddAccountForm.needsCode s' = true
    /\ AddAccountForm.toasts s'
       = [("errors.auth.requiresVerification"%string, "error"%string)].
Proof.
  destruct (a_404_makes_the_form_ask_for_a_code
              (Mock.env (Mock.always (Mock.response 404 [] "")) VNull
                        (Throw (Error "unused")))
              Mock.ui Mock.account_store initial Mock.fresh_form Mock.empty_world
              (Mock.response 404 [] ""))
    as (req & s' & w' & Hrun & Hlog & Hneeds & _ & _ & Htoasts).
  - reflexivity.
  - reflexivity.
  - intros req. reflexivity.
  - reflexivity.
  - exists req, s', w'. auto.
Defined.

Lemma reauth_leaves_the_stored_cookies_witness :
  exists s' w',
    AccountDetail.handleReauth
      (Mock.env (Mock.always Mock.plist_response) Mock.signed_in (Throw (Error "unused")))
      Mock.ui Mock.account_store initial (Some Mock.stored_account) Mock.detail_page
      Mock.caller_world
    = Some (s', w')
    /\ heap w' !! 0%nat
       = Some [{| name := "itspod"; value := "12"; domain := ".apple.com" |}].
Proof.
  destruct (reauth_leaves_the_stored_cookies
              (Mock.env (Mock.always Mock.plist_response) Mock.signed_in
                        (Throw (Error "unused")))
              Mock.ui Mock.account_store initial Mock.stored_account Mock.detail_page
              Mock.caller_world)
    as (s' & w' & Hrun & Hframe & _).
  - cbn. lia.
  - exists s', w'. split; [exact Hrun|]. apply (Hframe 0%nat). cbn. lia.
Defined.

End PagesRuns.
